(** * DXF analyzer: a shallow embedding of [src/dxf_analyzer.py]

    The analyzer reads a parsed drawing (the [ezdxf] document model), runs a
    fixed sequence of validators that append [ErrorReport]s to three lists,
    and reduces them to a health percentage and a summary.

    Conventions of the embedding:
    - Python [int] is [Z]; Python [float] is a binary64 [float] of the kernel
      ([PrimFloat]), so every float operation evaluates bit for bit; a [str]
      is its UTF-8 text, which keeps equality, order and containment;
    - an attribute that the code probes with [hasattr], or that only some
      objects carry, is an [option]; reading an absent attribute raises
      [AttributeError];
    - an attribute that the code reads for its truth, or iterates, and that
      the parser's objects provide as a method, says so: a method is true,
      and it cannot be iterated;
    - exceptions are the [Raise] case of [result]; the analyzer's mutable
      lists are threaded as a [State];
    - what the Python runtime decides ([str.upper], the C library's [pow])
      and what [numpy] decides are parameters;
    - the display texts [description], [cause] and [suggestion] of a report,
      and [file_name] / [analysis_date] of a result, are written once and
      never read back by the analyzer: the embedding leaves them out.

    The file has three parts: the embedding of the analyzer, the vocabulary
    in which its properties are stated (with a few example drawings), and
    the properties themselves. *)

From Stdlib Require Import ZArith List String Ascii Bool Lia.
From Stdlib Require Import PrimFloat FloatOps SpecFloat FloatAxioms.
Import ListNotations.

Local Open Scope string_scope.
Local Open Scope list_scope.
Local Open Scope Z_scope.

Set Implicit Arguments.

(* ------------------------------------------------------------------ *)
(** ** Python values *)

Module Py.

(** Exceptions that reach the analyzer. *)
Inductive exc : Type :=
| AttributeError (attr : string)
| TypeError (msg : string)
| ValueError (msg : string)
| OverflowError (msg : string)
| ZeroDivisionError (msg : string)
| OSError
| DXFError (msg : string).

Inductive result (A : Type) : Type :=
| Ok (a : A)
| Raise (e : exc).
Arguments Ok {A} a.
Arguments Raise {A} e.

Definition bind {A B} (m : result A) (k : A -> result B) : result B :=
  match m with
  | Ok a => k a
  | Raise e => Raise e
  end.

(** [try: body / except: handler]. *)
Definition try_except {A} (body : result A) (handler : A) : A :=
  match body with
  | Ok a => a
  | Raise _ => handler
  end.

(** [hasattr(o, name)] and [o.name]. *)
Definition hasattr {A} (o : option A) : bool :=
  match o with Some _ => true | None => false end.

Definition getattr {A} (name : string) (o : option A) : result A :=
  match o with
  | Some a => Ok a
  | None => Raise (AttributeError name)
  end.

(** [str(e)] for the summary of a failed run (for an [AttributeError],
    the message after the class name of the object). *)
Definition str_exc (e : exc) : string :=
  match e with
  | AttributeError attr => ("object has no attribute '" ++ attr ++ "'")%string
  | TypeError msg => msg
  | ValueError msg => msg
  | OverflowError msg => msg
  | ZeroDivisionError msg => msg
  | OSError => "No such file or directory"
  | DXFError msg => msg
  end.

(** *** Strings *)

(** [sub in s] for strings. *)
Fixpoint contains (sub s : string) : bool :=
  String.prefix sub s ||
  match s with
  | EmptyString => false
  | String _ s' => contains sub s'
  end.

(** [x in l] for a list (or set) of strings. *)
Definition str_in (x : string) (l : list string) : bool :=
  existsb (String.eqb x) l.

(** *** Floats *)

(** [float(z)]: the binary64 nearest to the integer [z]. *)
Definition of_int (z : Z) : float :=
  SF2Prim (binary_normalize prec emax z 0 false).

(** [a / b] on two [int]s: the exact quotient, rounded once.  When both
    operands are below [2^53] in magnitude CPython converts them (exactly)
    and divides the floats.  Otherwise it scales the operands so that the
    integer quotient [q] has at least 55 bits and rounds [q], with one more
    bit that tells whether the division left a remainder; a quotient beyond
    the largest float is an OverflowError. *)
Definition int_truediv (a b : Z) : result float :=
  if b =? 0 then Raise (ZeroDivisionError "division by zero")
  else if (Z.abs a <? 2 ^ 53) && (Z.abs b <? 2 ^ 53) then
    Ok (of_int a / of_int b)%float
  else
    let negate := xorb (a <? 0) (b <? 0) in
    let n := Z.abs a in
    let d := Z.abs b in
    if n =? 0 then Ok (if negate then (- 0)%float else 0%float)
    else
      let shift := 55 + Z.log2 d - Z.log2 n in
      let n' := if 0 <=? shift then n * 2 ^ shift else n in
      let d' := if 0 <=? shift then d else d * 2 ^ (- shift) in
      let q := n' / d' in
      let inexact := if n' mod d' =? 0 then 0 else 1 in
      let m := 2 * q + inexact in
      match binary_normalize prec emax (if negate then - m else m)
              (- shift - 1) false with
      | S754_infinity _ =>
          Raise (OverflowError "integer division result too large for a float")
      | x => Ok (SF2Prim x)
      end.

(** [x ** 2] on a float, as [float_pow] of CPython computes it: nan, the
    infinities, the zeros and 1 are settled without the C library; any
    other [x] goes to [pow] by its magnitude (the exponent is an even
    integer), and a range error of [pow] is an OverflowError.  [c_pow v w]
    is the value of [pow(v, w)] and whether [pow] left [errno] at
    [ERANGE]; a result that is infinite counts as a range error, a result
    that is zero does not. *)
Definition float_pow2 (c_pow : float -> float -> float * bool) (x : float)
  : result float :=
  if is_nan x then Ok x
  else if is_infinity x then Ok (abs x)
  else if (x =? 0)%float then Ok 0%float
  else
    let v := if (x <? 0)%float then (- x)%float else x in
    if (v =? 1)%float then Ok 1%float
    else
      let '(r, erange) := c_pow v 2%float in
      let erange := if erange then negb (r =? 0)%float else is_infinity r in
      if erange
      then Raise (OverflowError "(34, 'Numerical result out of range')")
      else Ok r.

(** [math.sqrt(x)]: the correctly rounded root; a nan that does not come
    from a nan is a domain error. *)
Definition math_sqrt (x : float) : result float :=
  let r := sqrt x in
  if is_nan r && negb (is_nan x) then Raise (ValueError "math domain error")
  else Ok r.

(** [min(a, b)] and [max(a, b)]: the first argument wins unless the second
    is strictly smaller (larger). *)
Definition min (a b : float) : float := if (b <? a)%float then b else a.
Definition max (a b : float) : float := if (a <? b)%float then b else a.

(** The integer nearest to [n / d] ([0 < d]), ties to the even one. *)
Definition round_half_even (n d : Z) : Z :=
  let q := n / d in
  match (2 * (n mod d) ?= d) with
  | Lt => q
  | Gt => q + 1
  | Eq => if Z.even q then q else q + 1
  end.

(** [round(x, ndigits)] for a float and [0 <= ndigits].  CPython prints the
    exact binary value of [x] with [ndigits] decimals, correctly rounded
    (ties to even), and reads the decimal back as the nearest float; nan,
    the infinities and the zeros are returned as they are.  [k] is the
    decimal in units of [10^-ndigits]; once [k] needs more than 53 bits the
    spacing of the floats around [x] exceeds that unit and the nearest
    float is [x] itself. *)
Definition round (x : float) (ndigits : Z) : float :=
  match Prim2SF x with
  | S754_finite s m e =>
      let p := 10 ^ ndigits in
      let k := if 0 <=? e then Zpos m * 2 ^ e * p
               else round_half_even (Zpos m * p) (2 ^ (- e)) in
      if k <? 2 ^ 53 then
        let r := (of_int k / of_int p)%float in
        if s then (- r)%float else r
      else x
  | _ => x
  end.

(** [math.pi] / [numpy.pi]. *)
Definition pi : float := 0x1.921fb54442d18p+1%float.

(** An attribute that is read for its truth: a [bool], or a bound method,
    which is true whatever it would return. *)
Inductive Flag : Type :=
| Value (b : bool)
| Method.

Definition truth (f : Flag) : bool :=
  match f with
  | Value b => b
  | Method => true
  end.

End Py.

Import Py.

Declare Scope py_scope.
Delimit Scope py_scope with py.
Notation "x <- m ;; k" := (Py.bind m (fun x => k))
  (at level 61, m at next level, right associativity) : py_scope.
Local Open Scope py_scope.

(** What the analyzer takes from the Python runtime: [s.upper()], which
    follows the Unicode case mapping, and the [pow] of the C library under
    [x ** 2] (see [Py.float_pow2]). *)
Record Runtime : Type := {
  str_upper : string -> string;
  c_pow : float -> float -> float * bool
}.

(** The [numpy] functions used to sample arcs and circles, and [x ** 2] on
    a [numpy.float64], which never raises. *)
Record Numpy : Type := {
  np_linspace : float -> float -> Z -> list float;
  np_radians : float -> float;
  np_cos : float -> float;
  np_sin : float -> float;
  np_square : float -> float
}.

(* ------------------------------------------------------------------ *)
(** ** The document model read by the analyzer

    The parser is outside the repository; these types hold what the
    analyzer reads from its objects, and what it expects to read. *)

(** A point of the parser ([Vec3]): [p.x], [p.y], [p.z], also read as
    [p[0]], [p[1]], [p[2]]. *)
Record Vec3 : Type := {
  vec_x : float;
  vec_y : float;
  vec_z : float
}.

(** [entity.vertices]: the list of vertices of a POLYLINE, each with its
    [dxf.location], or the method of that name of an LWPOLYLINE. *)
Inductive Vertices : Type :=
| VertexList (locations : list Vec3)
| VerticesMethod.

(** [for vertex in entity.vertices], [list(entity.vertices)]. *)
Definition iterate (v : Vertices) : result (list Vec3) :=
  match v with
  | VertexList locations => Ok locations
  | VerticesMethod => Raise (TypeError "'method' object is not iterable")
  end.

(** One drawing entity.  Every entity has a type tag and a handle in its
    [dxf] namespace, [entity.dxf.handle]; the other attributes may be
    absent.  [handle] is the attribute [entity.handle] of the entity
    itself, which the distance check reads and the parser's entities do not
    have. *)
Record Entity : Type := {
  dxftype : string;
  dxf_handle : string;
  handle : option string;
  dxf_layer : option string;
  dxf_lineweight : option Z;
  dxf_start : option Vec3;
  dxf_end : option Vec3;
  dxf_center : option Vec3;
  dxf_radius : option float;
  dxf_start_angle : option float;
  dxf_end_angle : option float;
  is_closed : option bool;
  vertices : option Vertices;
  (** [None] when the attribute is absent or falsy *)
  bounding_box : option (Vec3 * Vec3)
}.

(** A layer; the parser's layers provide [is_off] and [is_frozen] as
    methods. *)
Record Layer : Type := {
  is_off : Flag;
  is_frozen : Flag
}.

(** [doc.layers]: the layer table of the parser, which has neither
    [items()] nor [keys()], or a dictionary from names to layers, which is
    what the analyzer reads it as. *)
Inductive Layers : Type :=
| LayerTable (entries : list (string * Layer))
| LayerDict (entries : list (string * Layer)).

Definition layers_items (l : Layers) : option (list (string * Layer)) :=
  match l with
  | LayerTable _ => None
  | LayerDict entries => Some entries
  end.

Definition layers_keys (l : Layers) : option (list string) :=
  match l with
  | LayerTable _ => None
  | LayerDict entries => Some (map fst entries)
  end.

(** A loaded document.  [doc.layouts] iterates over every layout, the
    model space among them; [doc.modelspace()] is the model space.
    [file_size] is the size in bytes of the file [doc.filename], [None] when
    the file cannot be read. *)
Record Document : Type := {
  dxfversion : option string;
  file_size : option Z;
  layers : Layers;
  layouts_before : list (list Entity);
  modelspace : list Entity;
  layouts_after : list (list Entity)
}.

Definition layouts (doc : Document) : list (list Entity) :=
  layouts_before doc ++ modelspace doc :: layouts_after doc.

(* ------------------------------------------------------------------ *)
(** ** Reports and analyzer state *)

(** [ErrorReport]; [error_type] is one of "CRITICAL", "WARNING" and
    "EXPORT_ERROR". *)
Record ErrorReport : Type := {
  error_id : Z;
  error_type : string;
  title : string;
  affected_entities : list string;
  severity_score : Z
}.

(** The [summary] dictionary: the seven keys of [_generate_summary], or
    the two keys ["status": "ERROR"] and ["message"] of a failed run. *)
Inductive Summary : Type :=
| SummaryOf (total_entities_ critical_errors_count warnings_count
             export_errors_count : Z)
            (layers_found : list string) (dxf_version : string)
            (status : string)
| SummaryError (message : string).

Definition summary_status (s : Summary) : string :=
  match s with
  | SummaryOf _ _ _ _ _ _ status => status
  | SummaryError _ => "ERROR"
  end.

(** The result returned to the caller.  [total_entities], [warnings] and
    [export_errors] carry the prefix [res_] here, to tell them from the
    attributes of the analyzer. *)
Record AnalysisResult : Type := {
  res_total_entities : Z;
  health_percentage : float;
  critical_errors : list ErrorReport;
  res_warnings : list ErrorReport;
  res_export_errors : list ErrorReport;
  summary : Summary;
  recommendations : list string
}.

(** [self.errors], [self.warnings], [self.export_errors] and
    [self.total_entities] of a [DXFAnalyzer]; [self.doc] is passed along. *)
Record State : Type := {
  errors : list ErrorReport;
  warnings : list ErrorReport;
  export_errors : list ErrorReport;
  total_entities : Z
}.

(** A statement: it updates the state or raises. *)
Definition Stmt : Type := State -> result State.

Definition skip : Stmt := fun st => Ok st.

Definition seq (a b : Stmt) : Stmt := fun st => st' <- a st ;; b st'.

Notation "a >> b" := (seq a b) (at level 62, right associativity) : py_scope.

Definition when (c : bool) (a : Stmt) : Stmt := if c then a else skip.

(** [for x in l: body]. *)
Fixpoint for_each {A} (l : list A) (body : A -> Stmt) : Stmt :=
  match l with
  | [] => skip
  | x :: l' => body x >> for_each l' body
  end.

(** [self.errors.append(r)] and its two siblings. *)
Definition errors_append (r : ErrorReport) : Stmt := fun st =>
  Ok {| errors := errors st ++ [r]; warnings := warnings st;
        export_errors := export_errors st;
        total_entities := total_entities st |}.

Definition warnings_append (r : ErrorReport) : Stmt := fun st =>
  Ok {| errors := errors st; warnings := warnings st ++ [r];
        export_errors := export_errors st;
        total_entities := total_entities st |}.

Definition export_errors_append (r : ErrorReport) : Stmt := fun st =>
  Ok {| errors := errors st; warnings := warnings st;
        export_errors := export_errors st ++ [r];
        total_entities := total_entities st |}.

(** [try: body / except: pass] around a statement. *)
Definition try_pass (body : Stmt) : Stmt := fun st =>
  match body st with
  | Ok st' => Ok st'
  | Raise _ => Ok st
  end.

(** A value that may raise, read inside a statement. *)
Definition with_attr {A} (m : result A) (k : A -> Stmt) : Stmt := fun st =>
  a <- m ;; k a st.

Definition CRITICAL (id : Z) (ttl : string) (affected : list string)
    (severity : Z) : ErrorReport :=
  {| error_id := id; error_type := "CRITICAL"; title := ttl;
     affected_entities := affected; severity_score := severity |}.

Definition WARNING (id : Z) (ttl : string) (affected : list string)
    (severity : Z) : ErrorReport :=
  {| error_id := id; error_type := "WARNING"; title := ttl;
     affected_entities := affected; severity_score := severity |}.

Definition EXPORT_ERROR (id : Z) (ttl : string) (affected : list string)
    (severity : Z) : ErrorReport :=
  {| error_id := id; error_type := "EXPORT_ERROR"; title := ttl;
     affected_entities := affected; severity_score := severity |}.

(** Class constants of [DXFAnalyzer]. *)
Definition VALID_LAYERS : list string :=
  ["CUT"; "ENGRAVE"; "MARK"; "ETCH"; "SCORE"; "REFERENCE"].
Definition MIN_SIZE_MM : float := 5%float.
Definition MAX_SIZE_MM : float := 3000%float.
Definition MAX_FILE_SIZE_MB : float := 50%float.

Definition _reset_analysis : State :=
  {| errors := []; warnings := []; export_errors := []; total_entities := 0 |}.

(** [self.total_entities = n]. *)
Definition set_total_entities (n : Z) (st : State) : State :=
  {| errors := errors st; warnings := warnings st;
     export_errors := export_errors st; total_entities := n |}.

Definition all_entities (doc : Document) : list Entity :=
  List.concat (layouts doc).

(* ------------------------------------------------------------------ *)
(** ** Geometry *)

(** A point as [_get_entity_points] gives it: a [Vec3] of the parser, or the
    tuple [(x, y, center[2])] built for an arc or a circle, whose [x] and
    [y] are [numpy.float64] and whose third coordinate is the float of the
    center. *)
Inductive Point : Type :=
| Vec3Point (v : Vec3)
| Sampled (x y z : float).

Definition coord0 (p : Point) : float :=
  match p with Vec3Point v => vec_x v | Sampled x _ _ => x end.

Definition coord1 (p : Point) : float :=
  match p with Vec3Point v => vec_y v | Sampled _ y _ => y end.

Definition coord2 (p : Point) : float :=
  match p with Vec3Point v => vec_z v | Sampled _ _ z => z end.

Definition is_sampled (p : Point) : bool :=
  match p with Vec3Point _ => false | Sampled _ _ _ => true end.

Section Analyzer.

(** The runtime, [numpy], and the [min_distance_mm] given to
    [DXFAnalyzer.__init__]. *)
Variable py : Runtime.
Variable np : Numpy.
Variable min_distance_mm : float.

Definition is_polyline (entity : Entity) : bool :=
  str_in (dxftype entity) ["LWPOLYLINE"; "POLYLINE"].

Definition _is_vector_entity (entity : Entity) : bool :=
  str_in (dxftype entity) ["LINE"; "LWPOLYLINE"; "POLYLINE"; "ARC"; "CIRCLE"].

(** The point of an arc or circle at [angle] degrees. *)
Definition point_at (center : Vec3) (radius angle : float) : Point :=
  Sampled (vec_x center + radius * np_cos np (np_radians np angle))%float
          (vec_y center + radius * np_sin np (np_radians np angle))%float
          (vec_z center).

(** [[vertex.dxf.location for vertex in entity.vertices]]. *)
Definition vertex_locations (entity : Entity) : result (list Vec3) :=
  vs <- getattr "vertices" (vertices entity) ;;
  iterate vs.

Definition _get_entity_points (entity : Entity) : result (list Point) :=
  if (dxftype entity =? "LINE")%string then
    p <- getattr "start" (dxf_start entity) ;;
    q <- getattr "end" (dxf_end entity) ;;
    Ok [Vec3Point p; Vec3Point q]
  else if is_polyline entity then
    locations <- vertex_locations entity ;;
    Ok (map Vec3Point locations)
  else if (dxftype entity =? "ARC")%string then
    center <- getattr "center" (dxf_center entity) ;;
    radius <- getattr "radius" (dxf_radius entity) ;;
    start_angle <- getattr "start_angle" (dxf_start_angle entity) ;;
    end_angle <- getattr "end_angle" (dxf_end_angle entity) ;;
    Ok (map (point_at center radius) (np_linspace np start_angle end_angle 72))
  else if (dxftype entity =? "CIRCLE")%string then
    center <- getattr "center" (dxf_center entity) ;;
    radius <- getattr "radius" (dxf_radius entity) ;;
    Ok (map (point_at center radius) (np_linspace np 0 360 72))
  else Ok [].

(** [(b - a) ** 2]: between two floats the power of Python, which may
    raise; as soon as one operand is a [numpy.float64], the power of
    numpy. *)
Definition square_of_difference (numpy : bool) (a b : float) : result float :=
  if numpy then Ok (np_square np (b - a)%float)
  else float_pow2 (c_pow py) (b - a)%float.

(** The three squares are taken from left to right, then [math.sqrt]. *)
Definition _calculate_distance (p1 p2 : Point) : result float :=
  let numpy := is_sampled p1 || is_sampled p2 in
  dx <- square_of_difference numpy (coord0 p1) (coord0 p2) ;;
  dy <- square_of_difference numpy (coord1 p1) (coord1 p2) ;;
  dz <- square_of_difference false (coord2 p1) (coord2 p2) ;;
  math_sqrt (dx + dy + dz)%float.

(** [points[i], points[i+1]] for [i in range(len(points) - 1)]. *)
Fixpoint consecutive (points : list Vec3) : list (Vec3 * Vec3) :=
  match points with
  | p :: (q :: _) as rest => (p, q) :: consecutive rest
  | _ => []
  end.

(** [sum(...)] of the distances of a generator, from the left, starting at
    [0]: the first distance that raises ends the sum. *)
Fixpoint sum_distances (pairs : list (Vec3 * Vec3)) (total : float)
  : result float :=
  match pairs with
  | [] => Ok total
  | (p, q) :: rest =>
      d <- _calculate_distance (Vec3Point p) (Vec3Point q) ;;
      sum_distances rest (total + d)%float
  end.

Definition _calculate_entity_size (entity : Entity) : result float :=
  if (dxftype entity =? "LINE")%string then
    p <- getattr "start" (dxf_start entity) ;;
    q <- getattr "end" (dxf_end entity) ;;
    _calculate_distance (Vec3Point p) (Vec3Point q)
  else if is_polyline entity then
    points <- vertex_locations entity ;;
    if (Z.of_nat (List.length points) <? 2) then Ok 0%float
    else sum_distances (consecutive points) 0%float
  else if (dxftype entity =? "ARC")%string then
    radius <- getattr "radius" (dxf_radius entity) ;;
    end_angle <- getattr "end_angle" (dxf_end_angle entity) ;;
    start_angle <- getattr "start_angle" (dxf_start_angle entity) ;;
    Ok (2 * Py.pi * radius * (end_angle - start_angle) / 360)%float
  else if (dxftype entity =? "CIRCLE")%string then
    radius <- getattr "radius" (dxf_radius entity) ;;
    Ok (2 * Py.pi * radius)%float
  else Ok 0%float.

(** The whole body sits in [try: ... except: pass] and falls through to
    [return None]. *)
Definition _get_entity_bounds (entity : Entity)
  : option (float * float * float * float) :=
  try_except
    (match bounding_box entity with
     | Some bbox =>
         Ok (Some (vec_x (fst bbox), vec_y (fst bbox),
                   vec_x (snd bbox), vec_y (snd bbox)))
     | None =>
         if hasattr (dxf_start entity) && hasattr (dxf_end entity) then
           p <- getattr "start" (dxf_start entity) ;;
           q <- getattr "end" (dxf_end entity) ;;
           Ok (Some (Py.min (vec_x p) (vec_x q), Py.min (vec_y p) (vec_y q),
                     Py.max (vec_x p) (vec_x q), Py.max (vec_y p) (vec_y q)))
         else Ok None
     end)
    None.

(* ---------------------------------------------------------------- *)
(** ** Duplicate detection *)

(** [repr_data], the dictionary whose text is digested: the keys ['type']
    and ['layer'] always, ['start'] and ['end'] when the entity has
    both. *)
Record ReprData : Type := {
  repr_type : string;
  repr_layer : option string;
  repr_start_end : option ((float * float) * (float * float))
}.

(** Two floats print alike exactly when they are the same float. *)
Definition float_same (a b : float) : bool := PrimFloat.Leibniz.eqb a b.

Definition coords_same (a b : float * float) : bool :=
  float_same (fst a) (fst b) && float_same (snd a) (snd b).

Definition option_same {A} (same : A -> A -> bool) (a b : option A) : bool :=
  match a, b with
  | Some u, Some v => same u v
  | None, None => true
  | _, _ => false
  end.

(** Equality of [hashlib.md5(str(repr_data).encode()).hexdigest()]: the
    text of a dictionary determines it, and the digest is taken to tell
    different texts apart. *)
Definition hash_eqb (a b : ReprData) : bool :=
  (repr_type a =? repr_type b)%string
  && option_same String.eqb (repr_layer a) (repr_layer b)
  && option_same (fun u v => coords_same (fst u) (fst v)
                             && coords_same (snd u) (snd v))
       (repr_start_end a) (repr_start_end b).

(** The body sits in [try: ... except: return None]. *)
Definition _get_entity_hash (entity : Entity) : option ReprData :=
  try_except
    (let layer := if hasattr (dxf_layer entity) then dxf_layer entity
                  else None in
     if hasattr (dxf_start entity) && hasattr (dxf_end entity) then
       p <- getattr "start" (dxf_start entity) ;;
       q <- getattr "end" (dxf_end entity) ;;
       Ok (Some {| repr_type := dxftype entity; repr_layer := layer;
                   repr_start_end :=
                     Some ((Py.round (vec_x p) 3, Py.round (vec_y p) 3),
                           (Py.round (vec_x q) 3, Py.round (vec_y q) 3)) |})
     else
       Ok (Some {| repr_type := dxftype entity; repr_layer := layer;
                   repr_start_end := None |}))
    None.

(** [entity_hashes[key].append(handle)] on a [defaultdict(list)], which
    keeps its keys in the order of first insertion. *)
Fixpoint dict_append (key : ReprData) (handle : string)
    (d : list (ReprData * list string)) : list (ReprData * list string) :=
  match d with
  | [] => [(key, [handle])]
  | (k, handles) :: d' =>
      if hash_eqb k key then (k, handles ++ [handle]) :: d'
      else (k, handles) :: dict_append key handle d'
  end.

Definition entity_hashes (entities : list Entity)
  : list (ReprData * list string) :=
  fold_left
    (fun d entity =>
       match _get_entity_hash entity with
       | Some entity_hash => dict_append entity_hash (dxf_handle entity) d
       | None => d
       end)
    entities [].

Definition _check_duplicate_vectors (doc : Document) : Stmt :=
  for_each (entity_hashes (all_entities doc))
    (fun item =>
       when (1 <? Z.of_nat (List.length (snd item)))
         (errors_append
            (CRITICAL 7 "Duplicación de vectores" (snd item) 7))).

(* ---------------------------------------------------------------- *)
(** ** The validators *)

(** [for layout in self.doc.layouts: for entity in layout: body]. *)
Definition for_each_entity (doc : Document) (body : Entity -> Stmt) : Stmt :=
  for_each (layouts doc) (fun layout => for_each layout body).

Definition _count_total_entities (doc : Document) : Z :=
  fold_left (fun count layout => count + Z.of_nat (List.length layout))
    (layouts doc) 0.

Definition _validate_file_structure (doc : Document) : Stmt :=
  match dxfversion doc with
  | Some version =>
      when ("AC1027" <? version)%string
        (export_errors_append
           (EXPORT_ERROR 20 "Versión de DXF no compatible" ["FILE"] 6))
  | None => skip
  end.

(** The loop is over [self.doc.layers.items()]. *)
Definition _check_invisible_layers (doc : Document) : Stmt :=
  with_attr (getattr "items" (layers_items (layers doc))) (fun items =>
  for_each items
    (fun item =>
       let layer_name := fst item in
       let layer := snd item in
       when (truth (is_off layer) || truth (is_frozen layer))
         (let entity_count :=
            fold_left
              (fun count entity =>
                 match dxf_layer entity with
                 | Some l => if (l =? layer_name)%string then count + 1
                             else count
                 | None => count
                 end)
              (all_entities doc) 0 in
          when (0 <? entity_count)
            (errors_append
               (CRITICAL 6 "Objetos en capas invisibles" [layer_name] 8))))).

(** The body of the loop of [_validate_critical_errors], for one entity. *)
Definition critical_checks (entity : Entity) : Stmt :=
  let entity_handle := dxf_handle entity in
  (* Error 1 *)
  when (is_polyline entity)
    (with_attr (getattr "is_closed" (is_closed entity)) (fun closed =>
     when (negb closed)
       (with_attr (getattr "layer" (dxf_layer entity)) (fun layer =>
        when (str_in (str_upper py layer) ["CUT"; "ENGRAVE"])
          (errors_append
             (CRITICAL 1 "Vectores abiertos" [entity_handle] 10))))))
  (* Error 2 *)
  >> when (match dxf_layer entity with
           | None => true
           | Some layer => (layer =? "0")%string
           end)
       (errors_append
          (CRITICAL 2 "Vectores sin capa asignada" [entity_handle] 9))
  (* Error 3 *)
  >> when (str_in (dxftype entity) ["TEXT"; "MTEXT"])
       (errors_append (CRITICAL 3 "Texto editable" [entity_handle] 8))
  (* Error 4 *)
  >> match dxf_layer entity with
     | Some l =>
         let layer := str_upper py l in
         when (negb (str_in layer VALID_LAYERS)
               && negb (layer =? "0")%string)
           (errors_append
              (CRITICAL 4 "Capas incorrectas" [entity_handle] 7))
     | None => skip
     end
  (* Error 5 *)
  >> match _get_entity_bounds entity with
     | Some (x_min, y_min, x_max, y_max) =>
         when ((2000 <? abs x_min)%float || (2000 <? abs y_min)%float
               || (2000 <? abs x_max)%float || (2000 <? abs y_max)%float)
           (errors_append
              (CRITICAL 5 "Objetos fuera de área" [entity_handle] 8))
     | None => skip
     end
  (* Error 9 *)
  >> match dxf_lineweight entity with
     | Some lineweight =>
         when (0 <? lineweight)
           (errors_append
              (CRITICAL 9 "Vectores con grosor de línea"
                 [entity_handle] 6))
     | None => skip
     end
  (* Error 23 *)
  >> match dxf_start entity with
     | Some start =>
         when (0x1.0624dd2f1a9fcp-10 <? abs (vec_z start))%float
           (export_errors_append
              (EXPORT_ERROR 23 "Z-coordinates no planas"
                 [entity_handle] 5))
     | None => skip
     end.

Definition _validate_critical_errors (doc : Document) : Stmt :=
  for_each_entity doc critical_checks
  >> _check_duplicate_vectors doc
  >> _check_invisible_layers doc.

Definition _check_reference_layers (doc : Document) : Stmt :=
  let reference_layers :=
    ["LAYER 0"; "SKETCH"; "REFERENCE"; "GUIDE"; "DEFPOINTS"] in
  for_each_entity doc
    (fun entity =>
       match dxf_layer entity with
       | Some l =>
           let layer_name := str_upper py l in
           when (existsb (fun ref => contains ref layer_name)
                   reference_layers)
             (warnings_append
                (WARNING 15 "Vectores en capas de referencia"
                   [dxf_handle entity] 3))
       | None => skip
       end).

(** [len(list(entity.vertices))] iterates the attribute. *)
Definition _check_excessive_points (doc : Document) : Stmt :=
  for_each_entity doc
    (fun entity =>
       when (is_polyline entity)
         match vertices entity with
         | Some vs =>
             with_attr (iterate vs) (fun listed =>
             let vertex_count := Z.of_nat (List.length listed) in
             when (100 <? vertex_count)
               (warnings_append
                  (WARNING 18 "Polilíneas con puntos redundantes"
                     [dxf_handle entity] 4)))
         | None => skip
         end).

(** The body of the loop of [_validate_warnings], for one entity. *)
Definition scale_checks (entity : Entity) : Stmt :=
  let entity_handle := dxf_handle entity in
  match _get_entity_bounds entity with
  | Some (x_min, y_min, x_max, y_max) =>
      let width := (x_max - x_min)%float in
      let height := (y_max - y_min)%float in
      when ((width <? MIN_SIZE_MM)%float || (height <? MIN_SIZE_MM)%float)
        (warnings_append
           (WARNING 11 "Escala demasiado pequeña" [entity_handle] 4))
      >> when ((MAX_SIZE_MM <? width)%float
               || (MAX_SIZE_MM <? height)%float)
           (warnings_append
              (WARNING 11 "Escala demasiado grande" [entity_handle] 5))
  | None => skip
  end.

Definition _validate_warnings (doc : Document) : Stmt :=
  for_each_entity doc scale_checks
  >> _check_reference_layers doc
  >> _check_excessive_points doc.

Definition os_path_getsize (doc : Document) : result Z :=
  match file_size doc with
  | Some size => Ok size
  | None => Raise OSError
  end.

Definition _validate_export_errors (doc : Document) : Stmt :=
  try_pass
    (with_attr (os_path_getsize doc) (fun size =>
     with_attr (int_truediv size (1024 * 1024)) (fun file_size_mb =>
       when (MAX_FILE_SIZE_MB <? file_size_mb)%float
         (export_errors_append
            (EXPORT_ERROR 24 "Archivo demasiado pesado" ["FILE"] 6))))).

(** [enumerate(entities)] paired with the slices [entities[i+1:]]. *)
Fixpoint with_later {A} (entities : list A) : list (A * list A) :=
  match entities with
  | [] => []
  | entity1 :: later => (entity1, later) :: with_later later
  end.

(** [0 < distance < self.min_distance_mm]. *)
Definition too_close (distance : float) : bool :=
  ((0 <? distance) && (distance <? min_distance_mm))%float.

(** What happens for one pair of points of [entity1] and [entity2]: the
    report names [entity1.handle] and [entity2.handle]. *)
Definition check_points (entity1 entity2 : Entity) (p1 p2 : Point) : Stmt :=
  with_attr (_calculate_distance p1 p2) (fun distance =>
  when (too_close distance)
    (with_attr (getattr "handle" (handle entity1)) (fun handle1 =>
     with_attr (getattr "handle" (handle entity2)) (fun handle2 =>
     errors_append
       (CRITICAL 25 "Vectores demasiado cercanos" [handle1; handle2] 10))))).

Definition _check_vector_distances (doc : Document) : Stmt :=
  let entities := modelspace doc in
  for_each (with_later entities)
    (fun item =>
       let entity1 := fst item in
       if negb (_is_vector_entity entity1) then skip
       else
         with_attr (_get_entity_points entity1) (fun points1 =>
         for_each (snd item)
           (fun entity2 =>
              if negb (_is_vector_entity entity2) then skip
              else
                with_attr (_get_entity_points entity2) (fun points2 =>
                for_each points1 (fun p1 =>
                for_each points2 (fun p2 =>
                  check_points entity1 entity2 p1 p2)))))).

(** [used_layers.add(layer)] on a [set]. *)
Definition set_add (x : string) (s : list string) : list string :=
  if str_in x s then s else s ++ [x].

Fixpoint used_layers_of (entities : list Entity) (used_layers : list string)
  : result (list string) :=
  match entities with
  | [] => Ok used_layers
  | entity :: rest =>
      layer <- getattr "layer" (dxf_layer entity) ;;
      used_layers_of rest (set_add layer used_layers)
  end.

Definition _check_layer_usage (doc : Document) : Stmt :=
  with_attr (used_layers_of (modelspace doc) []) (fun used_layers =>
  when (match used_layers with [] => true | _ => false end)
    (errors_append
       (CRITICAL 26 "No se encontraron capas en uso en el archivo"
          used_layers 10))).

(** The body of the loop of [_validate_entities], for one entity.
    [hasattr(entity, 'dxf')] holds of every entity: its handle is read
    from [entity.dxf]. *)
Definition entity_checks (entity : Entity) : Stmt :=
  when (negb true || negb (hasattr (dxf_layer entity)))
    (errors_append
       (CRITICAL 27 "Entidad sin capa asignada" [dxf_handle entity] 10))
  >> when (_is_vector_entity entity)
       (with_attr (_calculate_entity_size entity) (fun size =>
        when (size <? 1)%float
          (warnings_append
             (WARNING 28 "Entidad muy pequeña" [dxf_handle entity] 5)))).

Definition _validate_entities (doc : Document) : Stmt :=
  for_each (modelspace doc) entity_checks.

(** The four running extremes [min_x, min_y, max_x, max_y]. *)
Definition Extent : Type := (float * float * float * float)%type.

Definition extend (ext : Extent) (point : Point) : Extent :=
  let '(min_x, min_y, max_x, max_y) := ext in
  (Py.min min_x (coord0 point), Py.min min_y (coord1 point),
   Py.max max_x (coord0 point), Py.max max_y (coord1 point)).

Fixpoint extent_of (entities : list Entity) (ext : Extent) : result Extent :=
  match entities with
  | [] => Ok ext
  | entity :: rest =>
      if _is_vector_entity entity then
        points <- _get_entity_points entity ;;
        extent_of rest (fold_left extend points ext)
      else extent_of rest ext
  end.

Definition _check_dimensions (doc : Document) : Stmt :=
  with_attr
    (extent_of (modelspace doc)
       (infinity, infinity, neg_infinity, neg_infinity))
    (fun ext =>
       let '(min_x, min_y, max_x, max_y) := ext in
       when (negb (min_x =? infinity)%float)
         (let width := (max_x - min_x)%float in
          let height := (max_y - min_y)%float in
          when ((3000 <? width)%float || (3000 <? height)%float)
            (warnings_append
               (WARNING 29 "Dimensiones muy grandes" ["FILE"] 5))
          >> when ((width <? 5)%float || (height <? 5)%float)
               (warnings_append
                  (WARNING 30 "Dimensiones muy pequeñas" ["FILE"] 5)))).

(* ---------------------------------------------------------------- *)
(** ** Health, summary, recommendations *)

(** [sum(e.severity_score * weight for e in reports)]. *)
Definition severity_points (weight : Z) (reports : list ErrorReport) : Z :=
  fold_left Z.add (map (fun e => severity_score e * weight) reports) 0.

(** [max(0, x)]: [x] when [x > 0], else the integer [0]. *)
Definition max0 (x : float) : float :=
  if (0 <? x)%float then x else 0%float.

Definition _calculate_health_percentage (st : State) : result float :=
  if total_entities st =? 0 then Ok 0%float
  else
    let critical_weight := 10 in
    let warning_weight := 3 in
    let export_weight := 5 in
    let critical_points := severity_points critical_weight (errors st) in
    let warning_points := severity_points warning_weight (warnings st) in
    let export_points := severity_points export_weight (export_errors st) in
    let total_error_points :=
      critical_points + warning_points + export_points in
    let max_possible_errors := total_entities st * 100 in
    if max_possible_errors =? 0 then Ok 100%float
    else
      ratio <- int_truediv total_error_points max_possible_errors ;;
      Ok (Py.round (max0 (100 - ratio * 100)%float) 2).

Definition len {A} (l : list A) : Z := Z.of_nat (List.length l).

(** The dictionary is built key by key; "layers_found" calls
    [self.doc.layers.keys()]. *)
Definition _generate_summary (doc : Document) (st : State) : result Summary :=
  layers_found <- getattr "keys" (layers_keys (layers doc)) ;;
  Ok (SummaryOf (total_entities st) (len (errors st)) (len (warnings st))
        (len (export_errors st))
        layers_found
        (match dxfversion doc with Some v => v | None => "Unknown" end)
        (if len (errors st) =? 0 then "READY"
         else if len (errors st) <? 5 then "NEEDS_REVIEW"
         else "CRITICAL")).

Definition any_id (id : Z) (reports : list ErrorReport) : bool :=
  existsb (fun error => error_id error =? id) reports.

Definition nonempty {A} (l : list A) : bool :=
  match l with [] => false | _ => true end.

Definition _generate_recommendations (st : State) : list string :=
  (if nonempty (errors st)
   then ["🔴 Corrija todos los errores críticos antes de proceder al corte"]
   else [])
  ++ (if any_id 1 (errors st)
      then ["✅ Cerrar todas las polilíneas en capas de corte"] else [])
  ++ (if any_id 3 (errors st)
      then ["📝 Convertir todos los textos a curvas/contornos"] else [])
  ++ (if any_id 4 (errors st)
      then ["🏷️ Usar nombres de capas estándar: CUT, ENGRAVE, MARK"]
      else [])
  ++ (if any_id 7 (errors st)
      then ["🔄 Eliminar vectores duplicados"] else [])
  ++ (if nonempty (warnings st)
      then ["⚠️ Revisar las advertencias para optimizar el proceso"]
      else [])
  ++ (if negb (nonempty (errors st)) && negb (nonempty (warnings st))
      then ["✅ Archivo listo para corte láser"] else []).

(* ---------------------------------------------------------------- *)
(** ** The analysis run *)

(** The validators, in the order of [analyze_dxf_file]. *)
Definition validators (doc : Document) : Stmt :=
  _validate_file_structure doc
  >> _validate_critical_errors doc
  >> _validate_warnings doc
  >> _validate_export_errors doc
  >> _check_vector_distances doc
  >> _check_layer_usage doc
  >> _validate_entities doc
  >> _check_dimensions doc.

(** The [try] block up to the last validator: reset, count, validate. *)
Definition run (doc : Document) : result State :=
  validators doc
    (set_total_entities (_count_total_entities doc) _reset_analysis).

(** The rest of the [try] block: the health percentage, the
    recommendations, and the result, whose [summary] argument is the call
    of [_generate_summary]. *)
Definition assemble (doc : Document) (st : State) : result AnalysisResult :=
  health <- _calculate_health_percentage st ;;
  let recs := _generate_recommendations st in
  summary_ <- _generate_summary doc st ;;
  Ok {| res_total_entities := total_entities st;
        health_percentage := health;
        critical_errors := errors st;
        res_warnings := warnings st;
        res_export_errors := export_errors st;
        summary := summary_;
        recommendations := recs |}.

(** The [except Exception as e] branch. *)
Definition load_error (e : exc) : AnalysisResult :=
  let error := CRITICAL 0 "Error al cargar archivo" ["FILE"] 10 in
  {| res_total_entities := 0;
     health_percentage := 0%float;
     critical_errors := [error];
     res_warnings := [];
     res_export_errors := [];
     summary := SummaryError (str_exc e);
     recommendations := ["Verificar integridad del archivo DXF"] |}.

(** [DXFAnalyzer.analyze_dxf_file]; [file] is what
    [ezdxf.readfile(file_path)] returns or raises. *)
Definition analyze_dxf_file (file : result Document) : AnalysisResult :=
  match (doc <- file ;; st <- run doc ;; assemble doc st) with
  | Ok result => result
  | Raise e => load_error e
  end.

End Analyzer.


(* ------------------------------------------------------------------ *)
(** ** Around the analyzer: the module function, the batch script, the
    catalog endpoint *)

Module Api.

(** The module-level [analyze_dxf_file(file_path)] of [dxf_analyzer.py]: a
    fresh [DXFAnalyzer()], hence [min_distance_mm = 1.0], and the result as
    a dictionary ([asdict] keeps every field). *)
Definition analyze_dxf_file (py : Runtime) (np : Numpy)
    (file : result Document) : AnalysisResult :=
  analyze_dxf_file py np 1%float file.

End Api.

Module Batch.

(** [analyze_directory] of [scripts/batch_analyze.py], on what
    [ezdxf.readfile] gives for each file found: the result of each file, in
    order.  (The result is appended before its summary is printed.) *)
Definition analyze_directory (py : Runtime) (np : Numpy)
    (dxf_files : list (result Document)) : list AnalysisResult :=
  map (Api.analyze_dxf_file py np) dxf_files.

(** The four numbers that [main] prints under "Resumen Final". *)
Record Resumen : Type := {
  total_files : Z;
  files_with_errors : Z;
  files_with_warnings : Z;
  files_without_problems : Z
}.

(** [sum(1 for r in results if r[key])]. *)
Definition count_if (p : AnalysisResult -> bool) (results : list AnalysisResult)
  : Z :=
  fold_left Z.add (map (fun r => if p r then 1 else 0) results) 0.

Definition resumen (results : list AnalysisResult) : Resumen :=
  let total_files := len results in
  let files_with_errors :=
    count_if (fun r => nonempty (critical_errors r)) results in
  let files_with_warnings :=
    count_if (fun r => nonempty (res_warnings r)) results in
  {| total_files := total_files;
     files_with_errors := files_with_errors;
     files_with_warnings := files_with_warnings;
     files_without_problems := total_files - files_with_errors |}.

End Batch.

Module Main.




End Main.

Module Models.

(** What the model [ErrorReport] of [models.py] asks of a report beyond the
    types of its fields: [severity_score: int = Field(..., ge=1, le=10)]. *)
Definition ErrorReport_valid (r : ErrorReport) : bool :=
  (1 <=? severity_score r) && (severity_score r <=? 10).

End Models.
(* ------------------------------------------------------------------ *)
(** * Specification vocabulary *)

(** ** A small program logic for statements

    [st'] extends [st] when the entity count is the same and each of the
    three lists has only grown, by reports that satisfy [PE], [PW] and [PX]
    respectively. *)
Definition extends (PE PW PX : ErrorReport -> Prop) (st st' : State) : Prop :=
  total_entities st' = total_entities st
  /\ (exists e, errors st' = errors st ++ e /\ Forall PE e)
  /\ (exists w, warnings st' = warnings st ++ w /\ Forall PW w)
  /\ (exists x, export_errors st' = export_errors st ++ x /\ Forall PX x).

(** A statement that, whenever it returns, has only appended such reports. *)
Definition appends (PE PW PX : ErrorReport -> Prop) (s : Stmt) : Prop :=
  forall st st', s st = Ok st' -> extends PE PW PX st st'.

(** [self.errors.extend(l)]: the state after appending the reports [l] to
    the critical list; likewise for the two other lists. *)
Definition add_errors (l : list ErrorReport) (st : State) : State :=
  {| errors := errors st ++ l; warnings := warnings st;
     export_errors := export_errors st;
     total_entities := total_entities st |}.

Definition add_warnings (l : list ErrorReport) (st : State) : State :=
  {| errors := errors st; warnings := warnings st ++ l;
     export_errors := export_errors st;
     total_entities := total_entities st |}.

Definition add_export_errors (l : list ErrorReport) (st : State) : State :=
  {| errors := errors st; warnings := warnings st;
     export_errors := export_errors st ++ l;
     total_entities := total_entities st |}.

(** A statement that returns, having appended exactly [l] to the critical
    list and nothing else. *)
Definition emits (s : Stmt) (l : list ErrorReport) : Prop :=
  forall st, s st = Ok (add_errors l st).

(** A statement that, whenever it returns, has appended exactly [l] to the
    list [field] of the analyzer. *)
Definition gathers (field : State -> list ErrorReport) (s : Stmt)
    (l : list ErrorReport) : Prop :=
  forall st st', s st = Ok st' -> field st' = field st ++ l.

(** A statement that returns only if [P] holds. *)
Definition requires (P : Prop) (s : Stmt) : Prop :=
  forall st st', s st = Ok st' -> P.

(** A statement that returns, whatever the state. *)
Definition returns (s : Stmt) : Prop :=
  forall st, exists st', s st = Ok st'.

(** A statement that returns only if [P] holds, and then leaves the state
    as it was. *)
Definition inert (P : Prop) (s : Stmt) : Prop :=
  forall st st', s st = Ok st' -> st' = st /\ P.

(** ** Documents as the parser delivers them

    The layer table of the parser is not a dictionary, and its entities
    have no [handle] attribute of their own. *)
Definition is_layer_table (l : Layers) : bool :=
  match l with
  | LayerTable _ => true
  | LayerDict _ => false
  end.

Definition without_handle (entities : list Entity) : Prop :=
  forall e, In e entities -> handle e = None.

(** ** One rule: the report [r] if [trigger] holds, nothing otherwise. *)
Definition rule (trigger : bool) (r : ErrorReport) : list ErrorReport :=
  if trigger then [r] else [].

(** All the reports of a result. *)
Definition reports (r : AnalysisResult) : list ErrorReport :=
  critical_errors r ++ res_warnings r ++ res_export_errors r.

(** ** The health percentage *)

(** [Σ severity · weight] over a list of reports. *)
Fixpoint weighted_sum (weight : Z) (reports : list ErrorReport) : Z :=
  match reports with
  | [] => 0
  | r :: rest => severity_score r * weight + weighted_sum weight rest
  end.

(** The error points of a state: critical reports weigh 10, warnings 3,
    export errors 5. *)
Definition error_points (st : State) : Z :=
  weighted_sum 10 (errors st) + weighted_sum 3 (warnings st)
  + weighted_sum 5 (export_errors st).

(** [k] hundredths is the decimal with two places nearest to [m * 2^e],
    the even [k] of the two when [m * 2^e] lies halfway. *)
Definition nearest_hundredths (m : positive) (e k : Z) : Prop :=
  if 0 <=? e then k = Zpos m * 2 ^ e * 100
  else
    2 * Z.abs (Zpos m * 100 - k * 2 ^ (- e)) <= 2 ^ (- e)
    /\ (2 * Z.abs (Zpos m * 100 - k * 2 ^ (- e)) = 2 ^ (- e)
        -> Z.even k = true).

(** [h] is [x] rounded to two decimals: the float nearest to the nearest
    decimal [k / 100] of the magnitude of [x], with the sign of [x]; [x]
    itself when [x] is not finite, is zero, or is so large that [k] has no
    exact float. *)
Definition rounded_to_2_decimals (x h : float) : Prop :=
  match Prim2SF x with
  | S754_finite s m e =>
      exists k,
        nearest_hundredths m e k
        /\ h = if k <? 2 ^ 53
               then (if s then - (of_int k / 100) else of_int k / 100)%float
               else x
  | _ => h = x
  end.

(** ** The distance check, point by point *)

(** The sampled points of an entity; none when they cannot be read. *)
Definition points_of (np : Numpy) (entity : Entity) : list Point :=
  match _get_entity_points np entity with
  | Ok points => points
  | Raise _ => []
  end.

(** The pairs of distinct vector entities, each pair once, the entity met
    first in front. *)
Definition vector_pairs (entities : list Entity) : list (Entity * Entity) :=
  flat_map
    (fun item =>
       if _is_vector_entity (fst item)
       then map (pair (fst item)) (filter _is_vector_entity (snd item))
       else [])
    (with_later entities).

(** The pairs of sampled points of two entities, [p1] from the first and
    [p2] from the second. *)
Definition point_pairs (np : Numpy) (ee : Entity * Entity)
  : list (Point * Point) :=
  list_prod (points_of np (fst ee)) (points_of np (snd ee)).

(** The distance of the two points can be taken and
    [0 < distance(p1, p2) < min_distance]. *)
Definition offending (py : Runtime) (np : Numpy) (min_distance : float)
    (pq : Point * Point) : bool :=
  match _calculate_distance py np (fst pq) (snd pq) with
  | Ok distance => too_close min_distance distance
  | Raise _ => false
  end.

(** An id-25 report that names two entities of [entities], each by its
    attribute [handle]. *)
Definition names_two_of (entities : list Entity) (r : ErrorReport) : Prop :=
  exists e1 e2 handle1 handle2,
    In e1 entities /\ In e2 entities
    /\ handle e1 = Some handle1 /\ handle e2 = Some handle2
    /\ r = CRITICAL 25 "Vectores demasiado cercanos" [handle1; handle2] 10.

(** The C library squares [v] exactly, without a range error. *)
Definition squares_exactly (py : Runtime) (v : float) : Prop :=
  c_pow py v 2 = ((v * v)%float, false).

(** ** The duplicate check *)

(** The entity has the fingerprint [key]. *)
Definition has_fingerprint (key : ReprData) (entity : Entity) : bool :=
  match _get_entity_hash entity with
  | Some entity_hash => hash_eqb key entity_hash
  | None => false
  end.

(** The handles of the entities that have the fingerprint [key], in the
    order of the entities. *)
Definition sharing (key : ReprData) (entities : list Entity) : list string :=
  map dxf_handle (filter (has_fingerprint key) entities).

(** The table of fingerprints is a grouping of the entities: one entry per
    fingerprint met, each with the handles of all the entities that have
    it. *)
Definition grouping (entities : list Entity)
    (d : list (ReprData * list string)) : Prop :=
  NoDup (map fst d)
  /\ (forall key handles, In (key, handles) d ->
        handles = sharing key entities /\ handles <> [])
  /\ (forall e key, In e entities -> _get_entity_hash e = Some key ->
        In key (map fst d)).

(** The layer [layer_name] holds an entity of the document. *)
Definition layer_in_use (doc : Document) (layer_name : string) : bool :=
  existsb
    (fun entity =>
       match dxf_layer entity with
       | Some l => (l =? layer_name)%string
       | None => false
       end)
    (all_entities doc).

(* ------------------------------------------------------------------ *)
(** ** The rules, entity by entity *)

(** Id 1: a polyline that is not closed, on a layer named CUT or ENGRAVE
    once in upper case. *)
Definition open_on_cut_layer (py : Runtime) (e : Entity) : bool :=
  is_polyline e
  && match is_closed e, dxf_layer e with
     | Some false, Some layer =>
         str_in (str_upper py layer) ["CUT"; "ENGRAVE"]
     | _, _ => false
     end.

(** Id 2: no layer attribute, or the layer "0". *)
Definition without_layer (e : Entity) : bool :=
  match dxf_layer e with
  | None => true
  | Some layer => (layer =? "0")%string
  end.

(** Id 3. *)
Definition is_text (e : Entity) : bool :=
  str_in (dxftype e) ["TEXT"; "MTEXT"].

(** Id 4: a layer whose name, in upper case, is neither one of
    [VALID_LAYERS] nor "0". *)
Definition on_unknown_layer (py : Runtime) (e : Entity) : bool :=
  match dxf_layer e with
  | Some l => negb (str_in (str_upper py l) VALID_LAYERS)
              && negb (str_upper py l =? "0")%string
  | None => false
  end.

(** Id 5: one of the four bounds is more than 2000 away from 0. *)
Definition far_from_origin (e : Entity) : bool :=
  match _get_entity_bounds e with
  | Some (x_min, y_min, x_max, y_max) =>
      (2000 <? abs x_min)%float || (2000 <? abs y_min)%float
      || (2000 <? abs x_max)%float || (2000 <? abs y_max)%float
  | None => false
  end.

(** Id 9. *)
Definition has_lineweight (e : Entity) : bool :=
  match dxf_lineweight e with
  | Some lineweight => 0 <? lineweight
  | None => false
  end.

(** Id 23: a start point more than 0.001 off the plane. *)
Definition off_plane (e : Entity) : bool :=
  match dxf_start e with
  | Some start => (0x1.0624dd2f1a9fcp-10 <? abs (vec_z start))%float
  | None => false
  end.

(** The critical reports of the per-entity rules for one entity, in the
    order of the rules. *)
Definition entity_criticals (py : Runtime) (e : Entity) : list ErrorReport :=
  rule (open_on_cut_layer py e)
    (CRITICAL 1 "Vectores abiertos" [dxf_handle e] 10)
  ++ rule (without_layer e)
       (CRITICAL 2 "Vectores sin capa asignada" [dxf_handle e] 9)
  ++ rule (is_text e) (CRITICAL 3 "Texto editable" [dxf_handle e] 8)
  ++ rule (on_unknown_layer py e)
       (CRITICAL 4 "Capas incorrectas" [dxf_handle e] 7)
  ++ rule (far_from_origin e)
       (CRITICAL 5 "Objetos fuera de área" [dxf_handle e] 8)
  ++ rule (has_lineweight e)
       (CRITICAL 9 "Vectores con grosor de línea" [dxf_handle e] 6).

Definition off_plane_error (e : Entity) : list ErrorReport :=
  rule (off_plane e)
    (EXPORT_ERROR 23 "Z-coordinates no planas" [dxf_handle e] 5).

(** The first check of the loop can read what it needs: a polyline has its
    closed flag, and a layer when it is open. *)
Definition polyline_readable (e : Entity) : Prop :=
  is_polyline e = true ->
  is_closed e = Some true \/ (is_closed e = Some false /\ dxf_layer e <> None).

(** Id 7, from the table of fingerprints. *)
Definition duplicate_reports (doc : Document) : list ErrorReport :=
  flat_map
    (fun item =>
       rule (1 <? Z.of_nat (List.length (snd item)))
         (CRITICAL 7 "Duplicación de vectores" (snd item) 7))
    (entity_hashes (all_entities doc)).

(** Id 6, layer by layer of a dictionary of layers. *)
Definition hidden_layer_reports (doc : Document)
    (entries : list (string * Layer)) : list ErrorReport :=
  flat_map
    (fun item =>
       rule ((truth (is_off (snd item)) || truth (is_frozen (snd item)))
             && layer_in_use doc (fst item))
         (CRITICAL 6 "Objetos en capas invisibles" [fst item] 8))
    entries.

(** Id 11, both of them. *)
Definition too_small (e : Entity) : bool :=
  match _get_entity_bounds e with
  | Some (x_min, y_min, x_max, y_max) =>
      (x_max - x_min <? MIN_SIZE_MM)%float
      || (y_max - y_min <? MIN_SIZE_MM)%float
  | None => false
  end.

Definition too_large (e : Entity) : bool :=
  match _get_entity_bounds e with
  | Some (x_min, y_min, x_max, y_max) =>
      (MAX_SIZE_MM <? x_max - x_min)%float
      || (MAX_SIZE_MM <? y_max - y_min)%float
  | None => false
  end.

Definition scale_warnings (e : Entity) : list ErrorReport :=
  rule (too_small e) (WARNING 11 "Escala demasiado pequeña" [dxf_handle e] 4)
  ++ rule (too_large e)
       (WARNING 11 "Escala demasiado grande" [dxf_handle e] 5).

(** Id 15: the layer name, in upper case, contains one of the five
    reference names. *)
Definition on_reference_layer (py : Runtime) (e : Entity) : bool :=
  match dxf_layer e with
  | Some l =>
      existsb (fun ref => contains ref (str_upper py l))
        ["LAYER 0"; "SKETCH"; "REFERENCE"; "GUIDE"; "DEFPOINTS"]
  | None => false
  end.

Definition reference_warning (py : Runtime) (e : Entity) : list ErrorReport :=
  rule (on_reference_layer py e)
    (WARNING 15 "Vectores en capas de referencia" [dxf_handle e] 3).

(** Id 18: a polyline with a list of more than 100 vertices. *)
Definition has_excessive_points (e : Entity) : bool :=
  is_polyline e
  && match vertices e with
     | Some (VertexList locations) =>
         100 <? Z.of_nat (List.length locations)
     | _ => false
     end.

Definition points_warning (e : Entity) : list ErrorReport :=
  rule (has_excessive_points e)
    (WARNING 18 "Polilíneas con puntos redundantes" [dxf_handle e] 4).

(** A polyline whose [vertices] is a method: it cannot be counted. *)
Definition vertices_method (e : Entity) : bool :=
  is_polyline e
  && match vertices e with
     | Some VerticesMethod => true
     | _ => false
     end.

(** Id 28: a vector entity whose size can be taken and is below 1. *)
Definition very_small (py : Runtime) (np : Numpy) (e : Entity) : bool :=
  _is_vector_entity e
  && match _calculate_entity_size py np e with
     | Ok size => (size <? 1)%float
     | Raise _ => false
     end.

Definition size_warning (py : Runtime) (np : Numpy) (e : Entity)
  : list ErrorReport :=
  rule (very_small py np e)
    (WARNING 28 "Entidad muy pequeña" [dxf_handle e] 5).

(** Ids 20 and 24. *)
Definition version_error (doc : Document) : list ErrorReport :=
  rule (match dxfversion doc with
        | Some version => ("AC1027" <? version)%string
        | None => false
        end)
    (EXPORT_ERROR 20 "Versión de DXF no compatible" ["FILE"] 6).

Definition file_size_error (doc : Document) : list ErrorReport :=
  rule (match file_size doc with
        | Some size =>
            match int_truediv size (1024 * 1024) with
            | Ok file_size_mb => (MAX_FILE_SIZE_MB <? file_size_mb)%float
            | Raise _ => false
            end
        | None => false
        end)
    (EXPORT_ERROR 24 "Archivo demasiado pesado" ["FILE"] 6).

(** ** The rule table

    The rules of each category, by identifier and severity; id 0 is the
    report of the [except] branch. *)
Definition critical_rules : list (Z * Z) :=
  [(0, 10); (1, 10); (2, 9); (3, 8); (4, 7); (5, 8); (6, 8); (7, 7); (9, 6);
   (25, 10); (26, 10)].

Definition warning_rules : list (Z * Z) :=
  [(11, 4); (11, 5); (15, 3); (18, 4); (28, 5); (29, 5); (30, 5)].

Definition export_rules : list (Z * Z) := [(20, 6); (23, 5); (24, 6)].

Definition rule_of (r : ErrorReport) : Z * Z :=
  (error_id r, severity_score r).

(** A report of a category that follows its table. *)
Definition critical (r : ErrorReport) : Prop :=
  error_type r = "CRITICAL" /\ In (rule_of r) critical_rules.

Definition warning (r : ErrorReport) : Prop :=
  error_type r = "WARNING" /\ In (rule_of r) warning_rules.

Definition export_error (r : ErrorReport) : Prop :=
  error_type r = "EXPORT_ERROR" /\ In (rule_of r) export_rules.

(** ** Floats *)

(** Two floats that are opposite, or both zero: they have the same
    square. *)
Definition mirrored (a b : spec_float) : Prop :=
  b = SFopp a \/ exists s s', a = S754_zero s /\ b = S754_zero s'.

(* ------------------------------------------------------------------ *)
(** ** Example drawings *)

Definition upper_ascii (c : ascii) : ascii :=
  let n := nat_of_ascii c in
  if (Nat.leb 97 n && Nat.leb n 122)%bool then ascii_of_nat (n - 32) else c.

(** [s.upper()] for a text in ASCII: the letters a-z change. *)
Fixpoint ascii_upper (s : string) : string :=
  match s with
  | EmptyString => EmptyString
  | String c s' => String (upper_ascii c) (ascii_upper s')
  end.

(** An instance of [Runtime] for evaluating the analyzer on the drawings
    below: their layer names are in ASCII, and the numbers they have squared
    have a square that is a float, which [pow] returns as it is. *)
Definition py_example : Runtime :=
  {| str_upper := ascii_upper;
     c_pow := fun v _ => ((v * v)%float, false) |}.

(** [numpy.linspace(start, stop, num)]: [num - 1] steps from [start], the
    last sample set to [stop]. *)
Definition linspace (start stop : float) (num : Z) : list float :=
  let step := ((stop - start) / of_int (num - 1))%float in
  map (fun i => (of_int (Z.of_nat i) * step + start)%float)
      (List.seq 0%nat (Z.to_nat (num - 1)))
  ++ [stop].

(** An instance of [Numpy] for evaluating the analyzer on the drawings
    below.  They hold lines, polylines and text only, and for those the
    analyzer calls none of the five functions. *)
Definition np_example : Numpy :=
  {| np_linspace := linspace;
     np_radians := fun a => (a * (Py.pi / 180))%float;
     np_cos := fun _ => 1%float;
     np_sin := fun a => a;
     np_square := fun x => (x * x)%float |}.

Definition xy (a b : float) : Vec3 :=
  {| vec_x := a; vec_y := b; vec_z := 0%float |}.

(** Entities as the parser delivers them: none has a [handle] attribute of
    its own. *)
Definition LINE (hdl : string) (layer : option string) (p q : Vec3)
  : Entity :=
  {| dxftype := "LINE"; dxf_handle := hdl; handle := None;
     dxf_layer := layer;
     dxf_lineweight := None; dxf_start := Some p; dxf_end := Some q;
     dxf_center := None; dxf_radius := None; dxf_start_angle := None;
     dxf_end_angle := None; is_closed := None; vertices := None;
     bounding_box := None |}.

Definition POLYLINE (hdl : string) (layer : option string)
    (closed : bool) (points : list Vec3) : Entity :=
  {| dxftype := "POLYLINE"; dxf_handle := hdl; handle := None;
     dxf_layer := layer;
     dxf_lineweight := None; dxf_start := None; dxf_end := None;
     dxf_center := None; dxf_radius := None; dxf_start_angle := None;
     dxf_end_angle := None; is_closed := Some closed;
     vertices := Some (VertexList points); bounding_box := None |}.

Definition LWPOLYLINE (hdl : string) (layer : option string)
    (closed : bool) : Entity :=
  {| dxftype := "LWPOLYLINE"; dxf_handle := hdl; handle := None;
     dxf_layer := layer;
     dxf_lineweight := None; dxf_start := None; dxf_end := None;
     dxf_center := None; dxf_radius := None; dxf_start_angle := None;
     dxf_end_angle := None; is_closed := Some closed;
     vertices := Some VerticesMethod; bounding_box := None |}.

Definition TEXT (hdl : string) (layer : option string) : Entity :=
  {| dxftype := "TEXT"; dxf_handle := hdl; handle := None;
     dxf_layer := layer;
     dxf_lineweight := None; dxf_start := None; dxf_end := None;
     dxf_center := None; dxf_radius := None; dxf_start_angle := None;
     dxf_end_angle := None; is_closed := None; vertices := None;
     bounding_box := None |}.

(** An entity of a type that the parser does not know: it is kept as it
    was read, with a handle and nothing else in its [dxf] namespace. *)
Definition UNKNOWN (type hdl : string) : Entity :=
  {| dxftype := type; dxf_handle := hdl; handle := None;
     dxf_layer := None;
     dxf_lineweight := None; dxf_start := None; dxf_end := None;
     dxf_center := None; dxf_radius := None; dxf_start_angle := None;
     dxf_end_angle := None; is_closed := None; vertices := None;
     bounding_box := None |}.

(** The layer CUT as the parser gives it. *)
Definition CUT : string * Layer :=
  ("CUT", {| is_off := Method; is_frozen := Method |}).

(** A drawing saved as DXF R2010 with the single layer CUT, as the parser
    loads it. *)
Definition drawing (model : list Entity) (paper : list (list Entity))
  : Document :=
  {| dxfversion := Some "AC1024"; file_size := Some 4096;
     layers := LayerTable [CUT];
     layouts_before := []; modelspace := model; layouts_after := paper |}.

(** No entity at all. *)
Definition empty_drawing : Document := drawing [] [[]].

(** Two lines on CUT, 60 apart, 40 long. *)
Definition two_lines : Document :=
  drawing [LINE "2A" (Some "CUT") (xy 0 0) (xy 40 40);
           LINE "2B" (Some "CUT") (xy 60 0) (xy 100 40)] [[]].

(** Two lines whose start points are 0.5 apart and whose end points
    coincide. *)
Definition close_lines : Document :=
  drawing [LINE "2A" (Some "CUT") (xy 0 0) (xy 40 40);
           LINE "2B" (Some "CUT") (xy 0 0.5) (xy 40 40)] [[]].

(** Two parallel lines, 0.5 apart at both ends. *)
Definition parallel_lines : Document :=
  drawing [LINE "2A" (Some "CUT") (xy 0 0) (xy 40 40);
           LINE "2B" (Some "CUT") (xy 0 0.5) (xy 40 40.5)] [[]].

(** Two closed squares on CUT, far from each other. *)
Definition two_squares : Document :=
  drawing [POLYLINE "3A" (Some "CUT") true
             [xy 0 0; xy 10 0; xy 10 10; xy 0 10];
           POLYLINE "3B" (Some "CUT") true
             [xy 100 100; xy 110 100; xy 110 110; xy 100 110]] [[]].

(** The same line once in the model space and once in a paper layout. *)
Definition line_in_both_spaces : Document :=
  drawing [LINE "2A" (Some "CUT") (xy 0 0) (xy 40 40)]
          [[LINE "4C" (Some "CUT") (xy 0 0) (xy 40 40)]].

(** A text on CUT and an entity of an unknown type, which has no layer
    attribute. *)
Definition entity_without_layer : Document :=
  drawing [TEXT "5A" (Some "CUT"); UNKNOWN "NEWENTITY" "5B"] [[]].

(** A closed polyline with a single vertex. *)
Definition single_vertex : Entity :=
  POLYLINE "6A" (Some "CUT") true [xy 20 20].

Definition single_vertex_drawing : Document := drawing [single_vertex] [[]].

(** A drawing saved in a later format, 60 MiB large.  In the model space: a
    text on NOTES, an open polyline on "cut", a line on layer "0" that ends
    far from the origin and off the plane, and a short thick line on
    SKETCH. *)
Definition faulty_entities : list Entity :=
  [TEXT "7A" (Some "NOTES");
   POLYLINE "7B" (Some "cut") false [xy 0 0; xy 10 0; xy 10 10];
   {| dxftype := "LINE"; dxf_handle := "7C"; handle := None;
      dxf_layer := Some "0"; dxf_lineweight := None;
      dxf_start := Some {| vec_x := 100; vec_y := 100; vec_z := 2 |};
      dxf_end := Some (xy 2500 140);
      dxf_center := None; dxf_radius := None; dxf_start_angle := None;
      dxf_end_angle := None; is_closed := None; vertices := None;
      bounding_box := None |};
   {| dxftype := "LINE"; dxf_handle := "7D"; handle := None;
      dxf_layer := Some "SKETCH"; dxf_lineweight := Some 25;
      dxf_start := Some (xy 200 200);
      dxf_end := Some (xy 200.5 200);
      dxf_center := None; dxf_radius := None; dxf_start_angle := None;
      dxf_end_angle := None; is_closed := None; vertices := None;
      bounding_box := None |}].

Definition faulty_drawing : Document :=
  {| dxfversion := Some "AC1032"; file_size := Some (60 * 1024 * 1024);
     layers := LayerTable [CUT;
                 ("NOTES", {| is_off := Method; is_frozen := Method |})];
     layouts_before := [];
     modelspace := faulty_entities;
     layouts_after := [[]] |}.

(** The same drawing with the layers in a dictionary, the hidden flags as
    booleans: CUT is visible, NOTES is off. *)
Definition faulty_drawing_with_dictionary : Document :=
  {| dxfversion := Some "AC1032"; file_size := Some (60 * 1024 * 1024);
     layers := LayerDict
                 [("CUT", {| is_off := Value false; is_frozen := Value false |});
                  ("NOTES", {| is_off := Value true;
                               is_frozen := Value false |})];
     layouts_before := [];
     modelspace := faulty_entities;
     layouts_after := [[]] |}.

(** A line on a layer named "Reference". *)
Definition reference_line : Entity :=
  LINE "8A" (Some "Reference") (xy 0 0) (xy 40 40).

Definition reference_drawing : Document := drawing [reference_line] [[]].

(** A lightweight polyline on CUT. *)
Definition lightweight_drawing : Document :=
  drawing [LWPOLYLINE "9A" (Some "CUT") true] [[]].

(** Two analyzer states: one critical report of severity 10 among three
    entities, and two critical reports on a single entity. *)
Definition one_critical_of_three : State :=
  {| errors := [CRITICAL 1 "Vectores abiertos" ["7B"] 10];
     warnings := []; export_errors := []; total_entities := 3 |}.

Definition two_criticals_of_one : State :=
  {| errors := [CRITICAL 1 "Vectores abiertos" ["7B"] 10;
                CRITICAL 2 "Vectores sin capa asignada" ["7B"] 9];
     warnings := []; export_errors := []; total_entities := 1 |}.


(* ------------------------------------------------------------------ *)
(** * Properties *)

Unset Implicit Arguments.

(** ** Rules of the program logic *)

Section Extends.

Variables PE PW PX : ErrorReport -> Prop.

Lemma extends_refl st : extends PE PW PX st st.
Proof.
  repeat split; exists []; rewrite app_nil_r; auto.
Qed.

Lemma extends_trans st1 st2 st3 :
  extends PE PW PX st1 st2 -> extends PE PW PX st2 st3 ->
  extends PE PW PX st1 st3.
Proof.
  intros (T1 & (e1 & E1 & FE1) & (w1 & W1 & FW1) & (x1 & X1 & FX1))
         (T2 & (e2 & E2 & FE2) & (w2 & W2 & FW2) & (x2 & X2 & FX2)).
  split; [congruence|].
  split; [exists (e1 ++ e2) | split; [exists (w1 ++ w2) | exists (x1 ++ x2)]];
    (split; [rewrite app_assoc; congruence | apply Forall_app; auto]).
Qed.

Lemma appends_skip : appends PE PW PX skip.
Proof. intros st st' H; inversion H; subst; apply extends_refl. Qed.

Lemma appends_seq a b :
  appends PE PW PX a -> appends PE PW PX b -> appends PE PW PX (a >> b).
Proof.
  intros Ha Hb st st' H. unfold seq in H.
  destruct (a st) as [st1|] eqn:E1; simpl in H; [|discriminate].
  eapply extends_trans; eauto.
Qed.

Lemma appends_when c a :
  (c = true -> appends PE PW PX a) -> appends PE PW PX (when c a).
Proof.
  destruct c; simpl; intros H; [apply H; reflexivity | apply appends_skip].
Qed.

Lemma appends_for_each {A} (l : list A) body :
  (forall x, In x l -> appends PE PW PX (body x)) ->
  appends PE PW PX (for_each l body).
Proof.
  induction l as [|x l IH]; simpl; intros H.
  - apply appends_skip.
  - apply appends_seq; [apply H; auto | apply IH; intros; apply H; auto].
Qed.

Lemma appends_with_attr {A} (m : result A) k :
  (forall a, m = Ok a -> appends PE PW PX (k a)) ->
  appends PE PW PX (with_attr m k).
Proof.
  intros H st st' R. unfold with_attr in R.
  destruct m as [a|]; simpl in R; [|discriminate].
  eapply H; eauto.
Qed.

Lemma appends_try_pass body :
  appends PE PW PX body -> appends PE PW PX (try_pass body).
Proof.
  intros H st st' R. unfold try_pass in R.
  destruct (body st) as [st1|] eqn:E.
  - inversion R; subst; eauto.
  - inversion R; subst; apply extends_refl.
Qed.

Lemma appends_errors_append r : PE r -> appends PE PW PX (errors_append r).
Proof.
  intros P st st' H; inversion H; subst; clear H.
  repeat split; simpl;
    [exists [r]; auto | exists [] | exists []]; rewrite ?app_nil_r; auto.
Qed.

Lemma appends_warnings_append r : PW r -> appends PE PW PX (warnings_append r).
Proof.
  intros P st st' H; inversion H; subst; clear H.
  repeat split; simpl;
    [exists [] | exists [r]; auto | exists []]; rewrite ?app_nil_r; auto.
Qed.

Lemma appends_export_errors_append r :
  PX r -> appends PE PW PX (export_errors_append r).
Proof.
  intros P st st' H; inversion H; subst; clear H.
  repeat split; simpl;
    [exists [] | exists [] | exists [r]; auto]; rewrite ?app_nil_r; auto.
Qed.

Lemma appends_for_each_entity doc body :
  (forall e, In e (all_entities doc) -> appends PE PW PX (body e)) ->
  appends PE PW PX (for_each_entity doc body).
Proof.
  intros H. unfold for_each_entity.
  apply appends_for_each; intros layout Hl.
  apply appends_for_each; intros e He.
  apply H. unfold all_entities. apply in_concat. eauto.
Qed.

End Extends.

(** One step of a proof that a validator only appends. *)
Ltac appends_step :=
first
  [ apply appends_skip
  | apply appends_seq
  | apply appends_when; intros ?
  | apply appends_with_attr; intros ? ?
  | apply appends_try_pass
  | apply appends_for_each_entity; intros ? ?
  | apply appends_for_each; intros ? ?
  | match goal with
    | |- appends _ _ _ (match ?x with _ => _ end) => destruct x eqn:?
    | |- appends _ _ _ (let (_, _) := ?x in _) => destruct x eqn:?
    end ].

Ltac appends_leaf :=
first [ apply appends_errors_append
      | apply appends_warnings_append
      | apply appends_export_errors_append ].

(** ** Rules for [emits] *)

Lemma add_errors_nil st : add_errors [] st = st.
Proof.
  destruct st; unfold add_errors; simpl. rewrite app_nil_r. reflexivity.
Qed.

Lemma add_errors_app l1 l2 st :
  add_errors l2 (add_errors l1 st) = add_errors (l1 ++ l2) st.
Proof. unfold add_errors; simpl. rewrite app_assoc. reflexivity. Qed.

Lemma emits_skip : emits skip [].
Proof. intros st. rewrite add_errors_nil. reflexivity. Qed.

Lemma emits_seq a b l1 l2 :
  emits a l1 -> emits b l2 -> emits (a >> b) (l1 ++ l2).
Proof.
  intros Ha Hb st. unfold seq. rewrite Ha. simpl. rewrite Hb.
  rewrite add_errors_app. reflexivity.
Qed.

Lemma emits_for_each {A} (l : list A) body f :
  (forall x, In x l -> emits (body x) (f x)) ->
  emits (for_each l body) (flat_map f l).
Proof.
  induction l as [|x l IH]; intros H; simpl.
  - apply emits_skip.
  - apply emits_seq; [apply H; left; reflexivity|].
    apply IH. intros y Hy. apply H. right. exact Hy.
Qed.

Lemma emits_when (c : bool) a l :
  emits a l -> emits (when c a) (if c then l else []).
Proof. destruct c; simpl; [auto | intros _; apply emits_skip]. Qed.

Lemma emits_errors_append r : emits (errors_append r) [r].
Proof. intros st. reflexivity. Qed.

Lemma emits_with_attr {A} (a : A) k l :
  emits (k a) l -> emits (with_attr (Ok a) k) l.
Proof. intros H st. unfold with_attr. simpl. apply H. Qed.

Lemma flat_map_if_filter {A B} (c : A -> bool) (f : A -> list B) l :
  flat_map (fun x => if c x then f x else []) l = flat_map f (filter c l).
Proof.
  induction l as [|x l IH]; simpl; [reflexivity|].
  destruct (c x); simpl; rewrite IH; reflexivity.
Qed.

(** ** Rules for [gathers], [requires] and [returns] *)

Lemma getattr_Ok {A} name (o : option A) a :
  getattr name o = Ok a <-> o = Some a.
Proof. destruct o; simpl; split; congruence. Qed.

Section Gathers.

Variable field : State -> list ErrorReport.

Lemma gathers_skip : gathers field skip [].
Proof.
  intros st st' H. inversion H; subst. rewrite app_nil_r. reflexivity.
Qed.

Lemma gathers_seq a b l1 l2 :
  gathers field a l1 -> gathers field b l2 -> gathers field (a >> b) (l1 ++ l2).
Proof.
  intros Ha Hb st st' H. unfold seq in H.
  destruct (a st) as [st1|] eqn:E1; simpl in H; [|discriminate H].
  rewrite (Hb _ _ H), (Ha _ _ E1), app_assoc. reflexivity.
Qed.

Lemma gathers_when (c : bool) a r :
  (c = true -> gathers field a [r]) -> gathers field (when c a) (rule c r).
Proof.
  destruct c; simpl; intros H; [apply H; reflexivity | apply gathers_skip].
Qed.

Lemma gathers_for_each {A} (l : list A) body f :
  (forall x, In x l -> gathers field (body x) (f x)) ->
  gathers field (for_each l body) (flat_map f l).
Proof.
  induction l as [|x l IH]; simpl; intros H.
  - apply gathers_skip.
  - apply gathers_seq; [apply H; left; reflexivity|].
    apply IH. intros y Hy. apply H. right. exact Hy.
Qed.

Lemma gathers_for_each_entity doc body f :
  (forall e, In e (all_entities doc) -> gathers field (body e) (f e)) ->
  gathers field (for_each_entity doc body) (flat_map f (all_entities doc)).
Proof.
  intros H. unfold for_each_entity.
  replace (flat_map f (all_entities doc))
    with (flat_map (fun layout => flat_map f layout) (layouts doc)).
  - apply gathers_for_each. intros layout Hl.
    apply gathers_for_each. intros e He. apply H.
    unfold all_entities. apply in_concat. eauto.
  - unfold all_entities.
    induction (layouts doc) as [|layout ls IH]; simpl; [reflexivity|].
    rewrite flat_map_app, IH. reflexivity.
Qed.

Lemma gathers_with_attr {A} (m : result A) k l :
  (forall a, m = Ok a -> gathers field (k a) l) ->
  gathers field (with_attr m k) l.
Proof.
  intros H st st' R. unfold with_attr in R.
  destruct m as [a|]; simpl in R; [|discriminate R].
  eapply H; eauto.
Qed.

Lemma gathers_eq s l l' : gathers field s l -> l = l' -> gathers field s l'.
Proof. intros H <-. exact H. Qed.

End Gathers.

(** A statement that appends nothing to a list gathers nothing there. *)
Lemma silent_errors PW PX s :
  appends (fun _ => False) PW PX s -> gathers errors s [].
Proof.
  intros H st st' R. destruct (H _ _ R) as (_ & (e & E & F) & _).
  destruct e as [|r e]; [exact E|]. inversion F; contradiction.
Qed.

Lemma silent_warnings PE PX s :
  appends PE (fun _ => False) PX s -> gathers warnings s [].
Proof.
  intros H st st' R. destruct (H _ _ R) as (_ & _ & (w & W & F) & _).
  destruct w as [|r w]; [exact W|]. inversion F; contradiction.
Qed.

Lemma silent_export_errors PE PW s :
  appends PE PW (fun _ => False) s -> gathers export_errors s [].
Proof.
  intros H st st' R. destruct (H _ _ R) as (_ & _ & _ & (x & X & F)).
  destruct x as [|r x]; [exact X|]. inversion F; contradiction.
Qed.

Lemma same_total PE PW PX s st st' :
  appends PE PW PX s -> s st = Ok st' ->
  total_entities st' = total_entities st.
Proof. intros H R. destruct (H _ _ R) as (T & _). exact T. Qed.

Lemma gathers_errors_append r : gathers errors (errors_append r) [r].
Proof. intros st st' H. inversion H; reflexivity. Qed.

Lemma gathers_warnings_append r : gathers warnings (warnings_append r) [r].
Proof. intros st st' H. inversion H; reflexivity. Qed.

Lemma gathers_export_errors_append r :
  gathers export_errors (export_errors_append r) [r].
Proof. intros st st' H. inversion H; reflexivity. Qed.

(** A statement that touches only some of the lists: the proof that it
    appends nothing to the others. *)
Ltac untouched :=
  first [ eapply silent_errors with (PW := fun _ => True) (PX := fun _ => True)
        | eapply silent_warnings
            with (PE := fun _ => True) (PX := fun _ => True)
        | eapply silent_export_errors
            with (PE := fun _ => True) (PW := fun _ => True) ];
  repeat first [ appends_leaf; exact I | appends_step ].

Section Requires.

Variable P : Prop.

Lemma requires_seq_l a b : requires P a -> requires P (a >> b).
Proof.
  intros Ha st st' H. unfold seq in H.
  destruct (a st) as [st1|] eqn:E1; simpl in H; [|discriminate H].
  eapply Ha; eauto.
Qed.

Lemma requires_seq_r a b : requires P b -> requires P (a >> b).
Proof.
  intros Hb st st' H. unfold seq in H.
  destruct (a st) as [st1|] eqn:E1; simpl in H; [|discriminate H].
  eapply Hb; eauto.
Qed.

Lemma requires_for_each {A} (l : list A) body x :
  In x l -> requires P (body x) -> requires P (for_each l body).
Proof.
  induction l as [|y l IH]; simpl; intros Hx Hb; [destruct Hx|].
  destruct Hx as [->|Hx].
  - apply requires_seq_l. exact Hb.
  - apply requires_seq_r. apply IH; assumption.
Qed.

Lemma requires_for_each_entity doc body e :
  In e (all_entities doc) -> requires P (body e) ->
  requires P (for_each_entity doc body).
Proof.
  intros He Hb. unfold all_entities in He. apply in_concat in He.
  destruct He as (layout & Hl & He). unfold for_each_entity.
  apply requires_for_each with (x := layout); [exact Hl|].
  apply requires_for_each with (x := e); assumption.
Qed.

Lemma requires_with_attr {A} (m : result A) k :
  (forall a, m = Ok a -> P) -> requires P (with_attr m k).
Proof.
  intros H st st' R. unfold with_attr in R.
  destruct m as [a|]; simpl in R; [|discriminate R].
  eapply H; eauto.
Qed.

Lemma requires_with_attr_then {A} (m : result A) k :
  (forall a, m = Ok a -> requires P (k a)) -> requires P (with_attr m k).
Proof.
  intros H st st' R. unfold with_attr in R.
  destruct m as [a|]; simpl in R; [|discriminate R].
  eapply H; eauto.
Qed.

End Requires.

Lemma returns_skip : returns skip.
Proof. intros st. exists st. reflexivity. Qed.

Lemma returns_seq a b : returns a -> returns b -> returns (a >> b).
Proof.
  intros Ha Hb st. destruct (Ha st) as (st1 & E1).
  destruct (Hb st1) as (st2 & E2). exists st2. unfold seq.
  rewrite E1. exact E2.
Qed.

Lemma returns_when (c : bool) a : (c = true -> returns a) -> returns (when c a).
Proof.
  destruct c; simpl; intros H; [apply H; reflexivity | apply returns_skip].
Qed.

Lemma returns_for_each {A} (l : list A) body :
  (forall x, In x l -> returns (body x)) -> returns (for_each l body).
Proof.
  induction l as [|x l IH]; simpl; intros H; [apply returns_skip|].
  apply returns_seq; [apply H; left; reflexivity|].
  apply IH. intros y Hy. apply H. right. exact Hy.
Qed.

Lemma returns_for_each_entity doc body :
  (forall e, In e (all_entities doc) -> returns (body e)) ->
  returns (for_each_entity doc body).
Proof.
  intros H. unfold for_each_entity.
  apply returns_for_each. intros layout Hl.
  apply returns_for_each. intros e He. apply H.
  unfold all_entities. apply in_concat. eauto.
Qed.

Lemma returns_with_attr {A} (a : A) k :
  returns (k a) -> returns (with_attr (Ok a) k).
Proof. intros H st. unfold with_attr. simpl. apply H. Qed.

Lemma returns_try_pass body : returns (try_pass body).
Proof.
  intros st. unfold try_pass. destruct (body st) as [st'|e]; eauto.
Qed.

Lemma returns_errors_append r : returns (errors_append r).
Proof. intros st. eexists. reflexivity. Qed.

Lemma returns_warnings_append r : returns (warnings_append r).
Proof. intros st. eexists. reflexivity. Qed.

Lemma returns_export_errors_append r : returns (export_errors_append r).
Proof. intros st. eexists. reflexivity. Qed.

(** One step of a proof that a statement free of attribute reads
    returns. *)
Ltac returns_step :=
  first
    [ apply returns_skip
    | apply returns_errors_append
    | apply returns_warnings_append
    | apply returns_export_errors_append
    | apply returns_try_pass
    | apply returns_seq
    | apply returns_when; intros ?
    | apply returns_for_each_entity; intros ? ?
    | apply returns_for_each; intros ? ?
    | match goal with
      | |- returns (match ?x with _ => _ end) => destruct x eqn:?
      | |- returns (let (_, _) := ?x in _) => destruct x eqn:?
      end ].

Lemma gathers_raise field {A} (e : exc) (k : A -> Stmt) l :
  gathers field (with_attr (Raise e) k) l.
Proof. intros st st' R. discriminate R. Qed.

Lemma requires_holds (P : Prop) s : P -> requires P s.
Proof. intros H st st' _. exact H. Qed.

Lemma in_rule c (r x : ErrorReport) : In x (rule c r) <-> c = true /\ x = r.
Proof.
  destruct c; simpl; split.
  - intros [H|[]]. auto.
  - intros [_ ->]. auto.
  - intros [].
  - intros [H _]. discriminate H.
Qed.

(** ** Facts on the helpers of the loops *)

Lemma with_later_in {A} (l : list A) x later :
In (x, later) (with_later l) -> In x l /\ incl later l.
Proof.
induction l as [|a l IH]; simpl; [tauto|].
intros [H|H].
- inversion H; subst. split; [auto | intros y Hy; right; exact Hy].
- destruct (IH H) as [H1 H2]. split; [auto | intros y Hy; right; auto].
Qed.

(** ** Drawings without entities *)

Lemma _count_total_entities_length doc :
  _count_total_entities doc = Z.of_nat (List.length (all_entities doc)).
Proof.
  unfold _count_total_entities, all_entities.
  assert (G : forall (l : list (list Entity)) acc,
    fold_left (fun count layout => count + Z.of_nat (List.length layout)) l acc
    = acc + Z.of_nat (List.length (List.concat l))).
  { induction l as [|x l IH]; simpl; intros acc; [lia|].
    rewrite IH, length_app. lia. }
  rewrite G. lia.
Qed.

Lemma concat_nil {A} (l : list (list A)) :
  List.concat l = [] -> Forall (fun x => x = []) l.
Proof.
  induction l as [|x l IH]; simpl; intros H; [constructor|].
  apply app_eq_nil in H. destruct H. constructor; auto.
Qed.

(** ** Rules for [inert] *)

Lemma inert_skip (P : Prop) : P -> inert P skip.
Proof. intros H st st' R. inversion R; subst. auto. Qed.

Lemma inert_weaken (P Q : Prop) s : (P -> Q) -> inert P s -> inert Q s.
Proof. intros H Hs st st' R. destruct (Hs _ _ R). auto. Qed.

Lemma inert_with_attr {A} (P : Prop) (m : result A) k :
  (forall a, m = Ok a -> inert P (k a)) -> inert P (with_attr m k).
Proof.
  intros H st st' R. unfold with_attr in R.
  destruct m as [a|]; simpl in R; [|discriminate R].
  eapply H; eauto.
Qed.

Lemma inert_for_each {A} (P : A -> Prop) (l : list A) body :
  (forall x, In x l -> inert (P x) (body x)) ->
  inert (forall x, In x l -> P x) (for_each l body).
Proof.
  induction l as [|x l IH]; simpl; intros H.
  - apply inert_skip. intros x [].
  - intros st st' R. unfold seq in R.
    destruct (body x st) as [st1|] eqn:E1; simpl in R; [|discriminate R].
    destruct (H x (or_introl eq_refl) _ _ E1) as [-> Px].
    destruct (IH (fun y Hy => H y (or_intror Hy)) _ _ R) as [-> Pl].
    split; [reflexivity|]. intros y [<-|Hy]; auto.
Qed.

(** A statement is either raising or returning. *)
Lemma raises_or_returns {A} (m : result A) :
  (exists e, m = Raise e) \/ (exists a, m = Ok a).
Proof. destruct m; eauto. Qed.

(* ------------------------------------------------------------------ *)
(** ** The health percentage *)

Lemma severity_points_weighted_sum weight l :
  severity_points weight l = weighted_sum weight l.
Proof.
  unfold severity_points.
  assert (G : forall acc,
    fold_left Z.add (map (fun e => severity_score e * weight) l) acc
    = acc + weighted_sum weight l).
  { induction l as [|r l IH]; simpl; intros acc; [lia|].
    rewrite IH. lia. }
  rewrite G. lia.
Qed.

(** [round_half_even n d] is an integer nearest to [n / d], and the even
    one of the two when [n / d] lies halfway. *)
Lemma round_half_even_nearest n d :
  0 < d ->
  2 * Z.abs (n - round_half_even n d * d) <= d
  /\ (2 * Z.abs (n - round_half_even n d * d) = d ->
      Z.even (round_half_even n d) = true).
Proof.
  intros Hd. unfold round_half_even.
  pose proof (Z.div_mod n d ltac:(lia)) as E.
  pose proof (Z.mod_pos_bound n d Hd) as B.
  set (q := n / d) in *. set (r := n mod d) in *.
  destruct (Z.compare_spec (2 * r) d) as [C|C|C].
  - destruct (Z.even q) eqn:Ev.
    + replace (n - q * d) with r by lia. split; [lia|auto].
    + replace (n - (q + 1) * d) with (r - d) by lia. split; [lia|].
      intros _. rewrite Z.add_1_r, Z.even_succ, <- Z.negb_even, Ev.
      reflexivity.
  - replace (n - q * d) with r by lia. split; lia.
  - replace (n - (q + 1) * d) with (r - d) by lia. split; lia.
Qed.

(** [round(x, 2)] is [x] rounded to two decimals. *)
Lemma round_to_2_decimals x : rounded_to_2_decimals x (Py.round x 2).
Proof.
  unfold rounded_to_2_decimals, Py.round.
  destruct (Prim2SF x) as [s|s| |s m e]; try reflexivity.
  change (10 ^ 2) with 100. change (of_int 100) with 100%float.
  destruct (0 <=? e) eqn:He.
  - exists (Z.pos m * 2 ^ e * 100). split; [|reflexivity].
    unfold nearest_hundredths. rewrite He. reflexivity.
  - exists (round_half_even (Z.pos m * 100) (2 ^ (- e))).
    split; [|reflexivity].
    unfold nearest_hundredths. rewrite He.
    apply round_half_even_nearest. apply Z.leb_gt in He.
    apply Z.pow_pos_nonneg; lia.
Qed.

Lemma _calculate_health_percentage_small st :
  total_entities st <> 0 ->
  Z.abs (error_points st) < 2 ^ 53 ->
  Z.abs (total_entities st * 100) < 2 ^ 53 ->
  _calculate_health_percentage st
  = Ok (Py.round
          (max0 (100 - of_int (error_points st)
                       / of_int (total_entities st * 100) * 100)%float) 2).
Proof.
  intros H0 HP HQ. unfold _calculate_health_percentage, error_points in *.
  destruct (total_entities st =? 0) eqn:E0; [apply Z.eqb_eq in E0; lia|].
  destruct (total_entities st * 100 =? 0) eqn:E1; [apply Z.eqb_eq in E1; lia|].
  rewrite !severity_points_weighted_sum. cbv zeta.
  unfold int_truediv. rewrite E1.
  apply Z.ltb_lt in HP, HQ. rewrite HP, HQ. reflexivity.
Qed.

(** C1.  On the health percentage computed by
    [_calculate_health_percentage] when the analyzer holds
    [total_entities > 0].  Let [points] be the sum of [severity * 10] over
    the critical reports, [severity * 3] over the warnings and
    [severity * 5] over the export errors, and [x] the binary64 value of
    [100 - points / (total_entities * 100) * 100], the operations taken in
    the order of the code (both integers are below [2^53], so their
    quotient is the quotient of two floats).  The function returns, and
    what it returns is: [0] when [x] is not above [0] (the clamp of
    [max(0, x)], a nan included); otherwise [x] rounded to two decimals,
    that is the float nearest to [k / 100], where [k / 100] is the decimal
    nearest to [x] and [k] is even when [x] lies halfway between two
    decimals. *)
Theorem health_percentage_formula st :
  0 < total_entities st ->
  Z.abs (error_points st) < 2 ^ 53 ->
  total_entities st * 100 < 2 ^ 53 ->
  let x := (100 - of_int (error_points st)
                  / of_int (total_entities st * 100) * 100)%float in
  exists health,
    _calculate_health_percentage st = Ok health
    /\ ((0 <? x)%float = false -> health = 0%float)
    /\ ((0 <? x)%float = true -> rounded_to_2_decimals x health).
Proof.
  intros Hpos HP HQ x.
  rewrite _calculate_health_percentage_small by lia.
  fold x. eexists. split; [reflexivity|]. unfold max0.
  split; intros Hx; rewrite Hx.
  - reflexivity.
  - apply round_to_2_decimals.
Qed.

Lemma health_percentage_formula_witness :
  (0 < total_entities one_critical_of_three
   /\ Z.abs (error_points one_critical_of_three) < 2 ^ 53
   /\ total_entities one_critical_of_three * 100 < 2 ^ 53)
  /\ (exists health,
        _calculate_health_percentage one_critical_of_three = Ok health
        /\ ((0 <? 100 - of_int 100 / of_int 300 * 100)%float = false ->
            health = 0%float)
        /\ ((0 <? 100 - of_int 100 / of_int 300 * 100)%float = true ->
            rounded_to_2_decimals (100 - of_int 100 / of_int 300 * 100)%float
              health))
  /\ (exists health,
        _calculate_health_percentage two_criticals_of_one = Ok health
        /\ ((0 <? 100 - of_int 190 / of_int 100 * 100)%float = false ->
            health = 0%float)
        /\ ((0 <? 100 - of_int 190 / of_int 100 * 100)%float = true ->
            rounded_to_2_decimals (100 - of_int 190 / of_int 100 * 100)%float
              health)).
Proof.
  split; [repeat split; reflexivity|]. split.
  - apply (health_percentage_formula one_critical_of_three); reflexivity.
  - apply (health_percentage_formula two_criticals_of_one); reflexivity.
Defined.

(** The two states at work: the first health is 66.67, the rounding of
    66.66..., and the second is clamped. *)
Example health_of_one_critical_of_three :
  _calculate_health_percentage one_critical_of_three
  = Ok 0x1.0aae147ae147bp+6%float.
Proof. reflexivity. Qed.

Example health_of_two_criticals_of_one :
  _calculate_health_percentage two_criticals_of_one = Ok 0%float.
Proof. reflexivity. Qed.

(** With no entity counted the health is 0.0, and the branch that returns
    100.0 is dead: [total_entities * 100] is 0 only if [total_entities]
    is. *)
Lemma health_without_count st :
  total_entities st = 0 -> _calculate_health_percentage st = Ok 0%float.
Proof.
  intros H. unfold _calculate_health_percentage. rewrite H. reflexivity.
Qed.

Lemma health_100_branch_is_dead st :
  total_entities st <> 0 -> (total_entities st * 100 =? 0) = false.
Proof. intros H. apply Z.eqb_neq. lia. Qed.

(* ------------------------------------------------------------------ *)
(** ** The distance check *)

Lemma points_of_Ok np e points :
  _get_entity_points np e = Ok points -> points_of np e = points.
Proof. intros H. unfold points_of. rewrite H. reflexivity. Qed.

Lemma in_vector_pairs entities e1 e2 :
  In (e1, e2) (vector_pairs entities) ->
  exists later,
    In (e1, later) (with_later entities)
    /\ _is_vector_entity e1 = true
    /\ In e2 later /\ _is_vector_entity e2 = true.
Proof.
  unfold vector_pairs. intros H. apply in_flat_map in H.
  destruct H as ([entity1 later] & Hi & H). simpl in H.
  destruct (_is_vector_entity entity1) eqn:V1; [|destruct H].
  apply in_map_iff in H. destruct H as (x & E & Hx).
  inversion E; subst. apply filter_In in Hx. destruct Hx as [Hx V2].
  exists later. auto.
Qed.

(** For one pair of points of two entities, the first without a [handle]:
    the check returns only if the pair does not offend. *)
Lemma check_points_inert py np min_distance_mm entity1 entity2 p1 p2 :
  handle entity1 = None ->
  inert (offending py np min_distance_mm (p1, p2) = false)
    (check_points py np min_distance_mm entity1 entity2 p1 p2).
Proof.
  intros H st st' R. unfold check_points, with_attr in R.
  unfold offending. simpl fst. simpl snd.
  destruct (_calculate_distance py np p1 p2) as [distance|];
    simpl in R; [|discriminate R].
  destruct (too_close min_distance_mm distance); simpl in R.
  - rewrite H in R. discriminate R.
  - inversion R. auto.
Qed.

(** When no entity of the model space has a [handle], the distance check
    returns only if no pair of points offends, and then it has changed
    nothing. *)
Lemma _check_vector_distances_inert py np min_distance_mm doc :
  without_handle (modelspace doc) ->
  inert (forall ee pq,
           In ee (vector_pairs (modelspace doc)) ->
           In pq (point_pairs np ee) ->
           offending py np min_distance_mm pq = false)
    (_check_vector_distances py np min_distance_mm doc).
Proof.
  intros Hh. unfold _check_vector_distances. cbv zeta.
  eapply inert_weaken;
    [|apply inert_for_each
        with (P := fun item =>
          _is_vector_entity (fst item) = true ->
          forall e2, In e2 (snd item) -> _is_vector_entity e2 = true ->
          forall p1 p2, In p1 (points_of np (fst item)) ->
                        In p2 (points_of np e2) ->
                        offending py np min_distance_mm (p1, p2) = false)].
  - intros H [e1 e2] [p1 p2] Hee Hpq.
    apply in_vector_pairs in Hee.
    destruct Hee as (later & Hi & V1 & H2 & V2).
    unfold point_pairs in Hpq. simpl in Hpq.
    apply in_prod_iff in Hpq. destruct Hpq as [Hp1 Hp2].
    exact (H (e1, later) Hi V1 e2 H2 V2 p1 p2 Hp1 Hp2).
  - intros [entity1 later] Hi. simpl fst. simpl snd.
    apply with_later_in in Hi. destruct Hi as [H1 _].
    destruct (_is_vector_entity entity1) eqn:V1; simpl.
    2:{ apply inert_skip. intros C. discriminate C. }
    apply inert_with_attr. intros points1 E1.
    rewrite (points_of_Ok _ _ _ E1).
    eapply inert_weaken;
      [|apply inert_for_each
          with (P := fun e2 =>
            _is_vector_entity e2 = true ->
            forall p1 p2, In p1 points1 -> In p2 (points_of np e2) ->
                          offending py np min_distance_mm (p1, p2) = false)].
    + intros H _ e2 H2 V2 p1 p2 Hp1 Hp2. exact (H e2 H2 V2 p1 p2 Hp1 Hp2).
    + intros entity2 H2.
      destruct (_is_vector_entity entity2) eqn:V2; simpl.
      2:{ apply inert_skip. intros C. discriminate C. }
      apply inert_with_attr. intros points2 E2.
      rewrite (points_of_Ok _ _ _ E2).
      eapply inert_weaken;
        [|apply inert_for_each
            with (P := fun p1 =>
              forall p2, In p2 points2 ->
                         offending py np min_distance_mm (p1, p2) = false)].
      * intros H _ p1 p2 Hp1 Hp2. exact (H p1 Hp1 p2 Hp2).
      * intros p1 Hp1.
        apply inert_for_each
          with (P := fun p2 =>
                  offending py np min_distance_mm (p1, p2) = false).
        intros p2 Hp2. apply check_points_inert. apply Hh. exact H1.
Qed.

Lemma drawing_without_handle model paper :
  Forall (fun e => handle e = None) model ->
  without_handle (modelspace (drawing model paper)).
Proof. intros H e He. rewrite Forall_forall in H. apply H. exact He. Qed.

(** C3.  Two lines of the model space whose start points are 0.5 apart,
    with the default minimum distance of 1.0 (it is enough to know that the
    C library squares 0.5 to 0.25): the first pair of points is at the
    distance 0.5, which is [0 < 0.5 < 1.0], and no id-25 record is
    appended for it.  The check raises AttributeError on the attribute
    [handle] of the first entity, whatever the state of the analyzer. *)
Theorem close_points_raise_instead_of_a_report py np st :
  squares_exactly py 0.5 ->
  _calculate_distance py np (Vec3Point (xy 0 0)) (Vec3Point (xy 0 0.5))
  = Ok 0.5%float
  /\ too_close 1 0.5 = true
  /\ _check_vector_distances py np 1 close_lines st
     = Raise (AttributeError "handle").
Proof.
  unfold squares_exactly. intros H. vm_compute in H.
  assert (D : _calculate_distance py np (Vec3Point (xy 0 0))
                (Vec3Point (xy 0 0.5)) = Ok 0.5%float).
  { vm_compute. rewrite H. reflexivity. }
  split; [exact D|]. split; [reflexivity|].
  unfold _check_vector_distances, close_lines, drawing. simpl modelspace.
  unfold with_later, for_each at 1. unfold seq at 1. simpl fst. simpl snd.
  unfold with_attr at 1. simpl.
  unfold with_attr at 1. simpl.
  unfold seq at 1. unfold seq at 1. unfold check_points at 1.
  unfold with_attr at 1. rewrite D. simpl. reflexivity.
Qed.

Lemma close_points_raise_instead_of_a_report_witness :
  squares_exactly py_example 0.5
  /\ _check_vector_distances py_example np_example 1 close_lines
       _reset_analysis
     = Raise (AttributeError "handle").
Proof.
  assert (H : squares_exactly py_example 0.5) by reflexivity.
  split; [exact H|].
  exact (proj2 (proj2 (close_points_raise_instead_of_a_report
                         py_example np_example _reset_analysis H))).
Defined.


(** C10.  Two parallel lines of the model space, 0.5 apart at both ends,
    with the default minimum distance of 1.0 (it is enough to know that the
    C library squares 0.5, 39.5, 40 and 40.5 exactly).  The two lines are
    one pair of vector entities, and k = 2 of the four pairs of their end
    points are at a positive distance below the minimum.  The check appends
    no id-25 record, let alone two: it raises AttributeError on the
    attribute [handle] at the first of the two pairs, whatever the state of
    the analyzer. *)
Theorem close_point_pairs_leave_no_record py np st :
  squares_exactly py 0.5 -> squares_exactly py 39.5 ->
  squares_exactly py 40 -> squares_exactly py 40.5 ->
  let line1 := LINE "2A" (Some "CUT") (xy 0 0) (xy 40 40) in
  let line2 := LINE "2B" (Some "CUT") (xy 0 0.5) (xy 40 40.5) in
  vector_pairs (modelspace parallel_lines) = [(line1, line2)]
  /\ List.length (point_pairs np (line1, line2)) = 4%nat
  /\ List.length (filter (offending py np 1) (point_pairs np (line1, line2)))
     = 2%nat
  /\ _check_vector_distances py np 1 parallel_lines st
     = Raise (AttributeError "handle").
Proof.
  intros H1 H2 H3 H4. cbv zeta. unfold squares_exactly in H1, H2, H3, H4.
  vm_compute in H1, H2, H3, H4.
  split; [reflexivity|]. split; [reflexivity|]. split.
  - repeat (vm_compute; progress rewrite ?H1, ?H2, ?H3, ?H4). reflexivity.
  - assert (D : _calculate_distance py np (Vec3Point (xy 0 0))
                  (Vec3Point (xy 0 0.5)) = Ok 0.5%float).
    { vm_compute. rewrite H1. reflexivity. }
    unfold _check_vector_distances, parallel_lines, drawing.
    simpl modelspace.
    unfold with_later, for_each at 1. unfold seq at 1. simpl fst. simpl snd.
    unfold with_attr at 1. simpl.
    unfold with_attr at 1. simpl.
    unfold seq at 1. unfold seq at 1. unfold check_points at 1.
    unfold with_attr at 1. rewrite D. simpl. reflexivity.
Qed.

Lemma py_example_squares_exactly v : squares_exactly py_example v.
Proof. reflexivity. Qed.

Lemma close_point_pairs_leave_no_record_witness :
  (squares_exactly py_example 0.5 /\ squares_exactly py_example 39.5
   /\ squares_exactly py_example 40 /\ squares_exactly py_example 40.5)
  /\ List.length
       (filter (offending py_example np_example 1)
          (point_pairs np_example
             (LINE "2A" (Some "CUT") (xy 0 0) (xy 40 40),
              LINE "2B" (Some "CUT") (xy 0 0.5) (xy 40 40.5))))
     = 2%nat
  /\ _check_vector_distances py_example np_example 1 parallel_lines
       _reset_analysis
     = Raise (AttributeError "handle").
Proof.
  split; [repeat split|].
  exact (proj2 (proj2
           (close_point_pairs_leave_no_record py_example np_example
              _reset_analysis
              (py_example_squares_exactly _) (py_example_squares_exactly _)
              (py_example_squares_exactly _) (py_example_squares_exactly _)))).
Defined.

(** X10.  The distance check on entities as the parser delivers them, none
    with a [handle] attribute of its own.  Whenever the check returns, it
    has changed nothing and no pair of sampled points of two vector
    entities of the model space was at a positive distance below the
    minimum; and when some pair is, the check raises.  So it never appends
    an id-25 report for such entities. *)
Theorem distance_check_reports_nothing py np min_distance_mm doc st :
  without_handle (modelspace doc) ->
  (forall st',
     _check_vector_distances py np min_distance_mm doc st = Ok st' ->
     st' = st
     /\ forall ee pq,
          In ee (vector_pairs (modelspace doc)) ->
          In pq (point_pairs np ee) ->
          offending py np min_distance_mm pq = false)
  /\ (forall ee pq,
        In ee (vector_pairs (modelspace doc)) ->
        In pq (point_pairs np ee) ->
        offending py np min_distance_mm pq = true ->
        exists e,
          _check_vector_distances py np min_distance_mm doc st = Raise e).
Proof.
  intros Hh.
  pose proof (_check_vector_distances_inert py np min_distance_mm doc Hh)
    as I.
  split.
  - intros st' R. exact (I _ _ R).
  - intros ee pq Hee Hpq Ho.
    destruct (raises_or_returns
                (_check_vector_distances py np min_distance_mm doc st))
      as [He|(st' & R)]; [exact He|].
    destruct (I _ _ R) as [_ N]. rewrite (N ee pq Hee Hpq) in Ho.
    discriminate Ho.
Qed.

Lemma distance_check_reports_nothing_witness :
  without_handle (modelspace two_lines)
  /\ _check_vector_distances py_example np_example 1 two_lines
       _reset_analysis = Ok _reset_analysis
  /\ forall ee pq,
       In ee (vector_pairs (modelspace two_lines)) ->
       In pq (point_pairs np_example ee) ->
       offending py_example np_example 1 pq = false.
Proof.
  assert (H : without_handle (modelspace two_lines)).
  { apply drawing_without_handle. repeat constructor. }
  assert (R : _check_vector_distances py_example np_example 1 two_lines
                _reset_analysis = Ok _reset_analysis) by reflexivity.
  split; [exact H|]. split; [exact R|].
  exact (proj2 (proj1 (distance_check_reports_nothing py_example np_example 1
                         two_lines _reset_analysis H) _ R)).
Defined.

(** What the distance check appends, if anything: id-25 reports that name
    two entities of the model space by their [handle]. *)
Lemma _check_vector_distances_appends py np min_distance_mm doc :
  appends (names_two_of (modelspace doc)) (fun _ => False) (fun _ => False)
    (_check_vector_distances py np min_distance_mm doc).
Proof.
  unfold _check_vector_distances.
  apply appends_for_each; intros [entity1 later] Hi.
  apply with_later_in in Hi. destruct Hi as [H1 Hl]. simpl.
  destruct (negb (_is_vector_entity entity1)); [apply appends_skip|].
  apply appends_with_attr; intros points1 _.
  apply appends_for_each; intros entity2 H2.
  destruct (negb (_is_vector_entity entity2)); [apply appends_skip|].
  apply appends_with_attr; intros points2 _.
  apply appends_for_each; intros p1 _.
  apply appends_for_each; intros p2 _.
  unfold check_points.
  apply appends_with_attr; intros distance _.
  apply appends_when; intros _.
  apply appends_with_attr; intros handle1 E1.
  apply appends_with_attr; intros handle2 E2.
  apply appends_errors_append.
  apply getattr_Ok in E1, E2.
  exists entity1, entity2, handle1, handle2. auto 6.
Qed.

(* ------------------------------------------------------------------ *)
(** ** Duplicate detection *)

(** Two fingerprints have the same digest exactly when they are the same
    dictionary: the comparison is an equivalence. *)
Lemma hash_eqb_eq a b : hash_eqb a b = true <-> a = b.
Proof.
  assert (F : forall x y, float_same x y = true <-> x = y)
    by (intros; apply FloatAxioms.Leibniz.eqb_spec).
  assert (C : forall x y : float * float, coords_same x y = true <-> x = y).
  { intros [x1 x2] [y1 y2]. unfold coords_same. simpl.
    rewrite andb_true_iff, !F. split; [intros [-> ->]; reflexivity|].
    intros H; inversion H; auto. }
  destruct a as [ta la ca], b as [tb lb cb]. unfold hash_eqb. simpl.
  rewrite !andb_true_iff, String.eqb_eq.
  split.
  - intros [[-> Hl] Hc]. f_equal.
    + destruct la, lb; simpl in Hl; try discriminate; [|reflexivity].
      apply String.eqb_eq in Hl. congruence.
    + destruct ca as [[a1 a2]|], cb as [[b1 b2]|]; simpl in Hc;
        try discriminate; [|reflexivity].
      apply andb_true_iff in Hc. destruct Hc as [H1 H2].
      apply C in H1. apply C in H2. congruence.
  - intros H; inversion H; subst. repeat split.
    + destruct lb; simpl; [apply String.eqb_refl|reflexivity].
    + destruct cb as [[b1 b2]|]; simpl; [|reflexivity].
      apply andb_true_iff. split; apply C; reflexivity.
Qed.

Lemma hash_eqb_refl a : hash_eqb a a = true.
Proof. apply hash_eqb_eq. reflexivity. Qed.

Lemma hash_eqb_neq a b : hash_eqb a b = false <-> a <> b.
Proof.
  split.
  - intros H E. apply hash_eqb_eq in E. congruence.
  - intros H. destruct (hash_eqb a b) eqn:E; [|reflexivity].
    apply hash_eqb_eq in E. contradiction.
Qed.

Lemma sharing_app key l1 l2 :
  sharing key (l1 ++ l2) = sharing key l1 ++ sharing key l2.
Proof. unfold sharing. rewrite filter_app, map_app. reflexivity. Qed.

Lemma sharing_none key l :
  (forall e, In e l -> _get_entity_hash e <> Some key) -> sharing key l = [].
Proof.
  intros H. unfold sharing.
  induction l as [|e l IH]; simpl; [reflexivity|].
  unfold has_fingerprint at 1.
  destruct (_get_entity_hash e) as [h|] eqn:E.
  - destruct (hash_eqb key h) eqn:Ek.
    + apply hash_eqb_eq in Ek. subst h. exfalso.
      apply (H e); [left; reflexivity | exact E].
    + apply IH. intros e' He'. apply H. right. exact He'.
  - apply IH. intros e' He'. apply H. right. exact He'.
Qed.

Lemma dict_append_keys key h d k :
  In k (map fst (dict_append key h d)) -> In k (map fst d) \/ k = key.
Proof.
  induction d as [|[k1 h1] d IH]; simpl.
  - intros [C|[]]. right. auto.
  - destruct (hash_eqb k1 key); simpl; [auto|].
    intros [C|C]; [auto|]. destruct (IH C); auto.
Qed.

Lemma dict_append_keeps_keys key h d k :
  In k (map fst d) -> In k (map fst (dict_append key h d)).
Proof.
  induction d as [|[k1 h1] d IH]; simpl; [intros []|].
  destruct (hash_eqb k1 key); simpl; [auto|].
  intros [C|C]; auto.
Qed.

Lemma dict_append_has_key key h d :
  In key (map fst (dict_append key h d)).
Proof.
  induction d as [|[k1 h1] d IH]; simpl; [auto|].
  destruct (hash_eqb k1 key) eqn:E; simpl; [|auto].
  apply hash_eqb_eq in E. auto.
Qed.

Lemma dict_append_NoDup key h d :
  NoDup (map fst d) -> NoDup (map fst (dict_append key h d)).
Proof.
  induction d as [|[k1 h1] d IH]; simpl; intros H.
  - repeat constructor. intros [].
  - destruct (hash_eqb k1 key) eqn:E; simpl; [exact H|].
    inversion H as [|? ? Hnotin Hnd]; subst. constructor; [|auto].
    intros C. apply dict_append_keys in C. destruct C as [C| ->];
      [contradiction|].
    rewrite hash_eqb_refl in E. discriminate E.
Qed.

(** The entries after one more handle: the entry of [key] has gained the
    handle, the others are as they were. *)
Lemma dict_append_entries key h d k hs :
  NoDup (map fst d) ->
  In (k, hs) (dict_append key h d) ->
  (k = key /\ ((exists hs0, In (key, hs0) d /\ hs = hs0 ++ [h])
               \/ (~ In key (map fst d) /\ hs = [h])))
  \/ (k <> key /\ In (k, hs) d).
Proof.
  induction d as [|[k1 h1] d IH]; simpl; intros Hnd H.
  - destruct H as [H|[]]. inversion H; subst. left. split; [reflexivity|].
    right. split; [intros []|reflexivity].
  - inversion Hnd as [|? ? Hnotin Hnd']; subst.
    destruct (hash_eqb k1 key) eqn:E.
    + apply hash_eqb_eq in E. subst k1. destruct H as [H|H].
      * inversion H; subst. left. split; [reflexivity|]. left. eauto.
      * right. split; [|auto]. intros ->. apply Hnotin.
        apply (in_map fst) in H. exact H.
    + apply hash_eqb_neq in E. destruct H as [H|H].
      * inversion H; subst. right. split; [exact E|auto].
      * destruct (IH Hnd' H) as [[-> [(hs0 & Hin & ->)|[Hn ->]]]|[Hne Hin]].
        -- left. split; [reflexivity|]. left. eauto.
        -- left. split; [reflexivity|]. right. split; [|reflexivity].
           intros [C|C]; [congruence|contradiction].
        -- right. auto.
Qed.

(** One more entity: its handle joins the entry of its fingerprint, or
    opens a new entry at the end. *)
Lemma dict_append_grouping l e key d :
  _get_entity_hash e = Some key ->
  grouping l d ->
  grouping (l ++ [e]) (dict_append key (dxf_handle e) d).
Proof.
  intros He (Hnd & Hgr & Hall).
  assert (Hse : forall k, sharing k [e]
                          = if hash_eqb k key then [dxf_handle e] else []).
  { intros k. unfold sharing. simpl. unfold has_fingerprint. rewrite He.
    destruct (hash_eqb k key); reflexivity. }
  split; [apply dict_append_NoDup; exact Hnd|split].
  - intros k hs H. rewrite sharing_app, Hse.
    apply dict_append_entries in H; [|exact Hnd].
    destruct H as [[-> [(hs0 & Hin & ->)|[Hn ->]]]|[Hne Hin]].
    + destruct (Hgr key hs0 Hin) as [-> _]. rewrite hash_eqb_refl.
      split; [reflexivity|]. intros C. apply app_eq_nil in C.
      destruct C as [_ C]. discriminate C.
    + rewrite hash_eqb_refl. rewrite sharing_none; [split; [reflexivity|]|].
      * discriminate.
      * intros e' He' Eh. apply Hn. eapply Hall; eauto.
    + apply hash_eqb_neq in Hne. rewrite Hne, app_nil_r. apply Hgr. exact Hin.
  - intros e' k He' Hh. apply in_app_or in He'. destruct He' as [He'|[<-|[]]].
    + apply dict_append_keeps_keys. eapply Hall; eauto.
    + assert (k = key) by congruence. subst k. apply dict_append_has_key.
Qed.

(** The table built by the duplicate check groups the entities by
    fingerprint. *)
Lemma entity_hashes_grouping entities :
  grouping entities (entity_hashes entities).
Proof.
  unfold entity_hashes.
  assert (G : forall l2 l1 d, grouping l1 d ->
    grouping (l1 ++ l2)
      (fold_left
         (fun d entity =>
            match _get_entity_hash entity with
            | Some entity_hash => dict_append entity_hash (dxf_handle entity) d
            | None => d
            end) l2 d)).
  { induction l2 as [|e l2 IH]; simpl; intros l1 d H.
    - rewrite app_nil_r. exact H.
    - replace (l1 ++ e :: l2) with ((l1 ++ [e]) ++ l2)
        by (rewrite <- app_assoc; reflexivity).
      apply IH. destruct (_get_entity_hash e) as [key|] eqn:E.
      + apply dict_append_grouping; assumption.
      + exfalso. unfold _get_entity_hash in E.
        destruct (hasattr (dxf_start e) && hasattr (dxf_end e)) eqn:B;
          [|discriminate E].
        apply andb_true_iff in B. destruct B as [B1 B2].
        destruct (dxf_start e), (dxf_end e); discriminate. }
  apply (G entities [] []).
  split; [constructor|split]; [intros ? ? []|intros ? ? []].
Qed.

Lemma has_fingerprint_hash key e :
  has_fingerprint key e = true <-> _get_entity_hash e = Some key.
Proof.
  unfold has_fingerprint. destruct (_get_entity_hash e) as [h|].
  - rewrite hash_eqb_eq. split; congruence.
  - split; discriminate.
Qed.

Lemma sharing_nonempty key l :
  sharing key l <> [] ->
  exists e, In e l /\ _get_entity_hash e = Some key.
Proof.
  unfold sharing. intros H.
  destruct (filter (has_fingerprint key) l) as [|e f] eqn:E;
    [contradiction H; reflexivity|].
  assert (Hin : In e (filter (has_fingerprint key) l))
    by (rewrite E; left; reflexivity).
  apply filter_In in Hin. destruct Hin as [Hin Hf].
  exists e. split; [exact Hin|]. apply has_fingerprint_hash. exact Hf.
Qed.

Lemma NoDup_map_fst_filter {A B} (p : A * B -> bool) (d : list (A * B)) :
  NoDup (map fst d) -> NoDup (map fst (filter p d)).
Proof.
  induction d as [|x d IH]; simpl; intros H; [constructor|].
  inversion H as [|? ? Hnotin Hnd]; subst.
  destruct (p x); simpl; [|auto].
  constructor; [|auto]. intros C. apply Hnotin.
  apply in_map_iff in C. destruct C as (y & Hy & Hin).
  apply filter_In in Hin. destruct Hin as [Hin _].
  rewrite <- Hy. apply in_map. exact Hin.
Qed.

(** The duplicate check never raises; its reports are those of the table of
    fingerprints. *)
Lemma _check_duplicate_vectors_closed_form doc :
  emits (_check_duplicate_vectors doc) (duplicate_reports doc).
Proof.
  unfold _check_duplicate_vectors, duplicate_reports.
  apply emits_for_each. intros item _.
  apply emits_when. apply emits_errors_append.
Qed.

(** The reports of the duplicate check, fingerprint by fingerprint. *)
Lemma duplicate_reports_by_fingerprint doc :
  exists keys,
    NoDup keys
    /\ (forall key,
          In key keys <->
          (exists e, In e (all_entities doc) /\ _get_entity_hash e = Some key)
          /\ (1 < List.length (sharing key (all_entities doc)))%nat)
    /\ duplicate_reports doc
       = map (fun key =>
                CRITICAL 7 "Duplicación de vectores"
                  (sharing key (all_entities doc)) 7)
             keys.
Proof.
  pose proof (entity_hashes_grouping (all_entities doc)) as (Hnd & Hgr & Hall).
  unfold duplicate_reports.
  set (d := entity_hashes (all_entities doc)) in *.
  set (big := fun item : ReprData * list string =>
                1 <? Z.of_nat (List.length (snd item))).
  exists (map fst (filter big d)).
  split; [apply NoDup_map_fst_filter; exact Hnd|split].
  - intros key. split.
    + intros H. apply in_map_iff in H. destruct H as ([k hs] & <- & Hin).
      apply filter_In in Hin. destruct Hin as [Hin Hbig]. simpl.
      destruct (Hgr k hs Hin) as [-> Hne].
      split; [apply sharing_nonempty; exact Hne|].
      unfold big in Hbig. simpl in Hbig. apply Z.ltb_lt in Hbig. lia.
    + intros [(e & He & Hh) Hlen].
      pose proof (Hall e key He Hh) as Hk.
      apply in_map_iff in Hk. destruct Hk as ([k hs] & Hfst & Hin).
      simpl in Hfst. subst k.
      apply in_map_iff. exists (key, hs). split; [reflexivity|].
      apply filter_In. split; [exact Hin|].
      destruct (Hgr key hs Hin) as [-> _].
      unfold big. simpl. apply Z.ltb_lt. lia.
  - change (flat_map
              (fun item =>
                 rule (big item)
                   (CRITICAL 7 "Duplicación de vectores" (snd item) 7)) d
            = map (fun key =>
                     CRITICAL 7 "Duplicación de vectores"
                       (sharing key (all_entities doc)) 7)
                  (map fst (filter big d))).
    unfold rule. rewrite flat_map_if_filter, map_map.
    assert (Hf : forall item, In item (filter big d) ->
              snd item = sharing (fst item) (all_entities doc)).
    { intros [k hs] Hin. apply filter_In in Hin. destruct Hin as [Hin _].
      simpl. apply Hgr. exact Hin. }
    induction (filter big d) as [|item f IH]; simpl; [reflexivity|].
    rewrite <- Hf by (left; reflexivity). f_equal.
    apply IH. intros i Hi. apply Hf. right. exact Hi.
Qed.

(** X1.  The duplicate check never raises.  It appends exactly one id-7
    report for each fingerprint that two or more entities of the document
    share, and none for the others; the report lists the handles of all the
    entities that have the fingerprint, in the order in which the layouts
    give them. *)
Theorem one_duplicate_report_per_shared_fingerprint doc st :
  exists keys,
    NoDup keys
    /\ (forall key,
          In key keys <->
          (exists e, In e (all_entities doc) /\ _get_entity_hash e = Some key)
          /\ (1 < List.length (sharing key (all_entities doc)))%nat)
    /\ _check_duplicate_vectors doc st
       = Ok (add_errors
               (map (fun key =>
                       CRITICAL 7 "Duplicación de vectores"
                         (sharing key (all_entities doc)) 7)
                    keys)
               st).
Proof.
  destruct (duplicate_reports_by_fingerprint doc) as (keys & Hnd & Hk & E).
  exists keys. split; [exact Hnd|]. split; [exact Hk|].
  rewrite (_check_duplicate_vectors_closed_form doc st), E. reflexivity.
Qed.

(** Without both end points the fingerprint of an entity is its type tag
    and its layer, nothing else. *)
Lemma _get_entity_hash_without_endpoints entity :
  hasattr (dxf_start entity) && hasattr (dxf_end entity) = false ->
  _get_entity_hash entity
  = Some {| repr_type := dxftype entity; repr_layer := dxf_layer entity;
            repr_start_end := None |}.
Proof.
  intros H. unfold _get_entity_hash. rewrite H. simpl.
  destruct (dxf_layer entity); reflexivity.
Qed.

(** Two entities without end points are told apart by type and layer
    only. *)
Lemma same_type_and_layer_same_fingerprint e1 e2 :
  hasattr (dxf_start e1) && hasattr (dxf_end e1) = false ->
  hasattr (dxf_start e2) && hasattr (dxf_end e2) = false ->
  dxftype e1 = dxftype e2 -> dxf_layer e1 = dxf_layer e2 ->
  exists h1 h2,
    _get_entity_hash e1 = Some h1 /\ _get_entity_hash e2 = Some h2
    /\ hash_eqb h1 h2 = true.
Proof.
  intros H1 H2 Ht Hl.
  rewrite (_get_entity_hash_without_endpoints e1 H1).
  rewrite (_get_entity_hash_without_endpoints e2 H2).
  do 2 eexists. split; [reflexivity|split; [reflexivity|]].
  unfold hash_eqb. simpl. rewrite Ht, Hl, String.eqb_refl. simpl.
  destruct (dxf_layer e2); simpl; [rewrite String.eqb_refl|]; reflexivity.
Qed.

(** C5.  Two closed squares on the same layer, 100 apart, have neither a
    start nor an end point.  [_get_entity_hash] fingerprints them all the
    same, by type and layer alone, and [_check_duplicate_vectors] reports
    them as duplicates of each other: whatever the state of the analyzer,
    it appends one id-7 report that names both. *)
Theorem squares_without_endpoints_reported_as_duplicates :
  Forall (fun e => hasattr (dxf_start e) = false
                  /\ hasattr (dxf_end e) = false)
         (modelspace two_squares)
  /\ map _get_entity_hash (modelspace two_squares)
     = [Some {| repr_type := "POLYLINE"; repr_layer := Some "CUT";
                repr_start_end := None |};
        Some {| repr_type := "POLYLINE"; repr_layer := Some "CUT";
                repr_start_end := None |}]
  /\ forall st,
       _check_duplicate_vectors two_squares st
       = Ok (add_errors
               [CRITICAL 7 "Duplicación de vectores" ["3A"; "3B"] 7] st).
Proof.
  split; [|split]; [|reflexivity|].
  - repeat constructor.
  - intros st. apply (_check_duplicate_vectors_closed_form two_squares).
Qed.

(** C6, as stated, fails: the line "4C" is in a paper layout and not in the
    model space, and the duplicate check names it in an id-7 report, next to
    its copy in the model space. *)
Lemma duplicate_check_reads_every_layout :
  layouts_after line_in_both_spaces
    = [[LINE "4C" (Some "CUT") (xy 0 0) (xy 40 40)]]
  /\ ~ In "4C" (map dxf_handle (modelspace line_in_both_spaces))
  /\ _check_duplicate_vectors line_in_both_spaces _reset_analysis
     = Ok (add_errors
             [CRITICAL 7 "Duplicación de vectores" ["2A"; "4C"] 7]
             _reset_analysis).
Proof.
  split; [reflexivity|split; [|reflexivity]].
  simpl. intros [H|[]]. discriminate.
Qed.

(** C6, amended.  The distance check reads the model space and nothing
    else: it does the same on two documents with the same model space, and
    whatever it appends is an id-25 report naming two entities of the model
    space.  The duplicate check reads every layout: it returns, each of its
    id-7 reports lists the handles of all the entities of the document, of
    whichever layout, that have one fingerprint, and every entity of any
    layout whose fingerprint another entity shares is named by such a
    report. *)
Theorem distance_reads_model_space_duplicates_every_layout
    py np min_distance_mm doc st :
  (forall doc',
     modelspace doc' = modelspace doc ->
     _check_vector_distances py np min_distance_mm doc' st
     = _check_vector_distances py np min_distance_mm doc st)
  /\ (forall st',
        _check_vector_distances py np min_distance_mm doc st = Ok st' ->
        exists l,
          errors st' = errors st ++ l
          /\ Forall (names_two_of (modelspace doc)) l)
  /\ (exists l,
        _check_duplicate_vectors doc st = Ok (add_errors l st)
        /\ (forall r, In r l ->
             exists key,
               r = CRITICAL 7 "Duplicación de vectores"
                     (sharing key (all_entities doc)) 7
               /\ (1 < List.length (sharing key (all_entities doc)))%nat)
        /\ (forall e key,
              In e (all_entities doc) -> _get_entity_hash e = Some key ->
              (1 < List.length (sharing key (all_entities doc)))%nat ->
              In (dxf_handle e) (sharing key (all_entities doc))
              /\ In (CRITICAL 7 "Duplicación de vectores"
                       (sharing key (all_entities doc)) 7) l)).
Proof.
  split; [|split].
  - intros doc' E. unfold _check_vector_distances. rewrite E. reflexivity.
  - intros st' R.
    destruct (_check_vector_distances_appends py np min_distance_mm doc
                _ _ R) as (_ & (l & E & F) & _).
    exists l. auto.
  - destruct (duplicate_reports_by_fingerprint doc) as (keys & Hnd & Hk & E).
    exists (duplicate_reports doc).
    split; [apply _check_duplicate_vectors_closed_form|]. rewrite E. split.
    + intros r Hr. apply in_map_iff in Hr. destruct Hr as (key & <- & Hin).
      exists key. split; [reflexivity|]. apply Hk. exact Hin.
    + intros e key He Hh Hlen. split.
      * unfold sharing. apply in_map. apply filter_In.
        split; [exact He|]. apply has_fingerprint_hash. exact Hh.
      * apply in_map_iff. exists key. split; [reflexivity|].
        apply Hk. split; [eauto|exact Hlen].
Qed.

(* ------------------------------------------------------------------ *)
(** ** The layer-usage check *)

Lemma used_layers_of_raises entities used_layers :
  (exists e, In e entities /\ dxf_layer e = None) ->
  used_layers_of entities used_layers = Raise (AttributeError "layer").
Proof.
  revert used_layers.
  induction entities as [|e0 l IH]; intros used_layers (e & He & Hn).
  - destruct He.
  - simpl. destruct (dxf_layer e0) as [layer|] eqn:E0; simpl; [|reflexivity].
    destruct He as [->|He]; [congruence|]. apply IH. eauto.
Qed.

Lemma used_layers_of_layers entities used_layers used :
  used_layers_of entities used_layers = Ok used ->
  forall e, In e entities -> dxf_layer e <> None.
Proof.
  intros H e He Hn.
  rewrite used_layers_of_raises in H by eauto. discriminate H.
Qed.

Lemma _check_layer_usage_requires doc :
  requires (forall e, In e (modelspace doc) -> dxf_layer e <> None)
    (_check_layer_usage doc).
Proof.
  unfold _check_layer_usage. apply requires_with_attr.
  intros used Hu. eapply used_layers_of_layers; eauto.
Qed.

(** Whenever the layer-usage check appends a report, it is the id-26
    report, and it names no entity. *)
Lemma _check_layer_usage_report doc :
  appends (fun r => r = CRITICAL 26
                          "No se encontraron capas en uso en el archivo" [] 10)
          (fun _ => False) (fun _ => False)
          (_check_layer_usage doc).
Proof.
  unfold _check_layer_usage.
  apply appends_with_attr; intros used_layers _.
  destruct used_layers; simpl; [|apply appends_skip].
  apply appends_errors_append. reflexivity.
Qed.

(** C4.  When the model space holds no entity, [_check_layer_usage]
    returns having appended one report to the critical list: id 26,
    severity 10, and a list of affected entities that is empty, so of
    length 0 and not of length at least 1.  (The list is [list(used_layers)]
    under [if not used_layers].) *)
Theorem layer_usage_report_names_nothing doc st :
  modelspace doc = [] ->
  exists r,
    _check_layer_usage doc st = Ok (add_errors [r] st)
    /\ error_id r = 26
    /\ error_type r = "CRITICAL"
    /\ severity_score r = 10
    /\ List.length (affected_entities r) = 0%nat.
Proof.
  intros H.
  exists (CRITICAL 26 "No se encontraron capas en uso en el archivo" [] 10).
  unfold _check_layer_usage. rewrite H. repeat split.
Qed.

Lemma layer_usage_report_names_nothing_witness :
  modelspace empty_drawing = []
  /\ exists r,
       _check_layer_usage empty_drawing _reset_analysis
       = Ok (add_errors [r] _reset_analysis)
       /\ error_id r = 26
       /\ error_type r = "CRITICAL"
       /\ severity_score r = 10
       /\ List.length (affected_entities r) = 0%nat.
Proof.
  split; [reflexivity|].
  exact (layer_usage_report_names_nothing empty_drawing _reset_analysis
           eq_refl).
Defined.

(* ------------------------------------------------------------------ *)
(** ** The run as a whole *)

Lemma seq_Ok (a b : Stmt) st st' :
  (a >> b) st = Ok st' -> exists st1, a st = Ok st1 /\ b st1 = Ok st'.
Proof.
  unfold seq. destruct (a st) as [st1|]; simpl; [eauto|discriminate].
Qed.

(** What [analyze_dxf_file] returns: the result of the [except] branch, or
    the result assembled from the state in which the validators left the
    analyzer. *)
Lemma analyze_cases py np min_distance_mm file :
  (exists e, analyze_dxf_file py np min_distance_mm file = load_error e)
  \/ (exists doc st,
        file = Ok doc
        /\ run py np min_distance_mm doc = Ok st
        /\ assemble doc st
           = Ok (analyze_dxf_file py np min_distance_mm file)).
Proof.
  unfold analyze_dxf_file. destruct file as [doc|e]; simpl; [|eauto].
  destruct (run py np min_distance_mm doc) as [st|e] eqn:R; simpl; [|eauto].
  destruct (assemble doc st) as [result|e] eqn:E; simpl; [|eauto].
  right. exists doc, st. auto.
Qed.

(** The fields of an assembled result. *)
Lemma assemble_Ok doc st result :
  assemble doc st = Ok result ->
  res_total_entities result = total_entities st
  /\ _calculate_health_percentage st = Ok (health_percentage result)
  /\ critical_errors result = errors st
  /\ res_warnings result = warnings st
  /\ res_export_errors result = export_errors st
  /\ _generate_summary doc st = Ok (summary result)
  /\ recommendations result = _generate_recommendations st.
Proof.
  unfold assemble.
  destruct (_calculate_health_percentage st) as [health|]; simpl;
    [|discriminate].
  destruct (_generate_summary doc st) as [s|]; simpl; [|discriminate].
  intros H. inversion H; subst; simpl. repeat split.
Qed.

(** A run that raises ends in the [except] branch. *)
Lemma run_raises py np min_distance_mm doc e :
  run py np min_distance_mm doc = Raise e ->
  analyze_dxf_file py np min_distance_mm (Ok doc) = load_error e.
Proof. intros H. unfold analyze_dxf_file. simpl. rewrite H. reflexivity. Qed.

(** *** The layer table of the parser *)

Lemma _check_invisible_layers_raises doc st :
  is_layer_table (layers doc) = true ->
  _check_invisible_layers doc st = Raise (AttributeError "items").
Proof.
  intros H. unfold _check_invisible_layers, with_attr.
  destruct (layers doc); [reflexivity|discriminate H].
Qed.

Lemma _generate_summary_raises doc st :
  is_layer_table (layers doc) = true ->
  _generate_summary doc st = Raise (AttributeError "keys").
Proof.
  intros H. unfold _generate_summary.
  destruct (layers doc); [reflexivity|discriminate H].
Qed.

(** On the layer table of the parser the critical validators never
    return. *)
Lemma _validate_critical_errors_requires_dictionary py doc :
  requires (is_layer_table (layers doc) = false)
    (_validate_critical_errors py doc).
Proof.
  unfold _validate_critical_errors.
  apply requires_seq_r. apply requires_seq_r.
  intros st st' R.
  destruct (is_layer_table (layers doc)) eqn:E; [|reflexivity].
  rewrite _check_invisible_layers_raises in R by exact E. discriminate R.
Qed.

Lemma run_requires_dictionary py np min_distance_mm doc st :
  run py np min_distance_mm doc = Ok st ->
  is_layer_table (layers doc) = false.
Proof.
  unfold run, validators. intros R.
  revert R. apply requires_seq_r. apply requires_seq_l.
  apply _validate_critical_errors_requires_dictionary.
Qed.

(** A document with the layer table of the parser ends in the [except]
    branch. *)
Lemma layer_table_ends_in_load_error py np min_distance_mm doc :
  is_layer_table (layers doc) = true ->
  exists e, analyze_dxf_file py np min_distance_mm (Ok doc) = load_error e.
Proof.
  intros H.
  destruct (analyze_cases py np min_distance_mm (Ok doc))
    as [He|(doc' & st & E & R & _)]; [exact He|].
  inversion E; subst doc'.
  apply run_requires_dictionary in R. congruence.
Qed.

(** C9.  Every document that [ezdxf.readfile] loads has the layer table of
    the parser, which has no [items()] and no [keys()]; the run on it ends
    in the [except] branch, whatever its entities: the status of the
    summary is "ERROR", not one of "READY", "NEEDS_REVIEW" and "CRITICAL",
    and the critical list holds the single id-0 report, with 0 entities
    counted and a health of 0.0. *)
Theorem loaded_documents_end_in_error py np min_distance_mm doc :
  is_layer_table (layers doc) = true ->
  let result := analyze_dxf_file py np min_distance_mm (Ok doc) in
  summary_status (summary result) = "ERROR"
  /\ critical_errors result
     = [CRITICAL 0 "Error al cargar archivo" ["FILE"] 10]
  /\ res_total_entities result = 0
  /\ health_percentage result = 0%float.
Proof.
  intros H result. subst result.
  destruct (layer_table_ends_in_load_error py np min_distance_mm doc H)
    as (e & ->).
  repeat split.
Qed.

Lemma loaded_documents_end_in_error_witness :
  is_layer_table (layers two_lines) = true
  /\ summary_status
       (summary (analyze_dxf_file py_example np_example 1 (Ok two_lines)))
     = "ERROR"
  /\ critical_errors (analyze_dxf_file py_example np_example 1 (Ok two_lines))
     = [CRITICAL 0 "Error al cargar archivo" ["FILE"] 10].
Proof.
  split; [reflexivity|].
  pose proof (loaded_documents_end_in_error py_example np_example 1 two_lines
                eq_refl) as H.
  split; [exact (proj1 H)|exact (proj1 (proj2 H))].
Defined.

(** *** Documents without entities *)

Lemma for_each_entity_empty doc body st :
  all_entities doc = [] -> for_each_entity doc body st = Ok st.
Proof.
  intros H. unfold for_each_entity, all_entities in *.
  apply concat_nil in H. revert st.
  induction H as [|layout l Hl _ IH]; intros st; simpl; [reflexivity|].
  unfold seq. rewrite Hl. simpl. apply IH.
Qed.

Lemma run_without_entities py np min_distance_mm doc :
  is_layer_table (layers doc) = true -> all_entities doc = [] ->
  run py np min_distance_mm doc = Raise (AttributeError "items").
Proof.
  intros Ht He. unfold run, validators.
  set (st0 := set_total_entities (_count_total_entities doc) _reset_analysis).
  assert (S1 : exists st1, _validate_file_structure doc st0 = Ok st1).
  { unfold _validate_file_structure.
    destruct (dxfversion doc) as [version|]; [|eexists; reflexivity].
    destruct ("AC1027" <? version)%string; eexists; reflexivity. }
  destruct S1 as (st1 & S1). unfold seq at 1. rewrite S1. simpl.
  unfold seq at 1. unfold _validate_critical_errors. unfold seq at 1.
  rewrite for_each_entity_empty by exact He. simpl.
  unfold seq at 1.
  rewrite (_check_duplicate_vectors_closed_form doc st1). simpl.
  rewrite _check_invisible_layers_raises by exact Ht. reflexivity.
Qed.

(** C2.  A document as the parser loads it, without any entity: the run
    ends in the [except] branch, at the call of [items()] on the layer
    table.  The result counts 0 entities and has a health of exactly 0.0,
    but its critical list is not empty: it holds the id-0 report. *)
Theorem empty_document_ends_in_load_error py np min_distance_mm doc :
  is_layer_table (layers doc) = true -> all_entities doc = [] ->
  let result := analyze_dxf_file py np min_distance_mm (Ok doc) in
  result = load_error (AttributeError "items")
  /\ res_total_entities result = 0
  /\ health_percentage result = 0%float
  /\ critical_errors result
     = [CRITICAL 0 "Error al cargar archivo" ["FILE"] 10].
Proof.
  intros Ht He result. subst result.
  rewrite (run_raises py np min_distance_mm doc _
             (run_without_entities py np min_distance_mm doc Ht He)).
  repeat split.
Qed.

Lemma empty_document_ends_in_load_error_witness :
  (is_layer_table (layers empty_drawing) = true
   /\ all_entities empty_drawing = [])
  /\ analyze_dxf_file py_example np_example 1 (Ok empty_drawing)
     = load_error (AttributeError "items")
  /\ critical_errors
       (analyze_dxf_file py_example np_example 1 (Ok empty_drawing))
     = [CRITICAL 0 "Error al cargar archivo" ["FILE"] 10].
Proof.
  split; [split; reflexivity|].
  pose proof (empty_document_ends_in_load_error py_example np_example 1
                empty_drawing eq_refl eq_refl) as H.
  split; [exact (proj1 H)|exact (proj2 (proj2 (proj2 H)))].
Defined.

(** *** Faults *)

(** C7.  A text on CUT and an entity of a type that the parser does not
    know, which has no layer attribute.  [_check_layer_usage] reads the
    attribute of every entity of the model space: it does not skip the
    entity, it raises AttributeError, whatever the state of the analyzer;
    [_validate_entities], which probes the attribute first and would
    report the entity under id 27, comes after it.  No validator catches
    the exception, and whatever a run raises ends in the [except] branch
    of [analyze_dxf_file]: the caller receives the load-error result,
    whose only report is the id-0 report; the reports gathered for the
    other entities are not in it. *)
Theorem fault_in_one_entity_aborts_the_run py np min_distance_mm :
  (forall st,
     _check_layer_usage entity_without_layer st
     = Raise (AttributeError "layer"))
  /\ (forall st,
        _validate_entities py np entity_without_layer st
        = Ok (add_errors
                [CRITICAL 27 "Entidad sin capa asignada" ["5B"] 10] st))
  /\ (forall doc e,
        run py np min_distance_mm doc = Raise e ->
        analyze_dxf_file py np min_distance_mm (Ok doc) = load_error e)
  /\ (exists e, run py np min_distance_mm entity_without_layer = Raise e)
  /\ critical_errors
       (analyze_dxf_file py np min_distance_mm (Ok entity_without_layer))
     = [CRITICAL 0 "Error al cargar archivo" ["FILE"] 10]
  /\ res_warnings
       (analyze_dxf_file py np min_distance_mm (Ok entity_without_layer))
     = [].
Proof.
  split; [intros st; reflexivity|].
  split; [intros st; reflexivity|].
  split; [intros doc e; apply run_raises|].
  assert (R : exists e,
            run py np min_distance_mm entity_without_layer = Raise e).
  { destruct (raises_or_returns
                (run py np min_distance_mm entity_without_layer))
      as [H|(st & R)]; [exact H|].
    apply run_requires_dictionary in R. discriminate R. }
  split; [exact R|]. destruct R as (e & R).
  rewrite (run_raises _ _ _ _ _ R). split; reflexivity.
Qed.

(* ------------------------------------------------------------------ *)
(** ** The rule table *)

Ltac in_table :=
  split; [reflexivity | simpl; repeat first [left; reflexivity | right]].

(** A proof that a validator appends reports of the table only. *)
Ltac by_the_table := repeat first [ appends_leaf; in_table | appends_step ].

Lemma _validate_file_structure_rules doc :
  appends critical warning export_error (_validate_file_structure doc).
Proof. unfold _validate_file_structure. by_the_table. Qed.

Lemma _validate_critical_errors_rules py doc :
  appends critical warning export_error (_validate_critical_errors py doc).
Proof.
  unfold _validate_critical_errors, critical_checks,
    _check_duplicate_vectors, _check_invisible_layers.
  by_the_table.
Qed.

Lemma _validate_warnings_rules py doc :
  appends critical warning export_error (_validate_warnings py doc).
Proof.
  unfold _validate_warnings, scale_checks, _check_reference_layers,
    _check_excessive_points.
  by_the_table.
Qed.

Lemma _validate_export_errors_rules doc :
  appends critical warning export_error (_validate_export_errors doc).
Proof. unfold _validate_export_errors. by_the_table. Qed.

Lemma _check_vector_distances_rules py np min_distance_mm doc :
  appends critical warning export_error
    (_check_vector_distances py np min_distance_mm doc).
Proof. unfold _check_vector_distances, check_points. by_the_table. Qed.

Lemma _check_layer_usage_rules doc :
  appends critical warning export_error (_check_layer_usage doc).
Proof. unfold _check_layer_usage. by_the_table. Qed.

(** The id-27 report is outside the table: [_validate_entities] keeps to
    the table when every entity of the model space has a layer. *)
Lemma _validate_entities_rules py np doc :
  (forall e, In e (modelspace doc) -> dxf_layer e <> None) ->
  appends critical warning export_error (_validate_entities py np doc).
Proof.
  intros Hl. unfold _validate_entities, entity_checks.
  apply appends_for_each; intros e He.
  apply appends_seq.
  - destruct (dxf_layer e) eqn:E; [|exfalso; apply (Hl e); auto].
    simpl. apply appends_skip.
  - by_the_table.
Qed.

Lemma _check_dimensions_rules np doc :
  appends critical warning export_error (_check_dimensions np doc).
Proof. unfold _check_dimensions. by_the_table. Qed.

(** The state after the validators: every report follows the table, and
    the count is the one taken before them. *)
Lemma run_rules py np min_distance_mm doc st :
  run py np min_distance_mm doc = Ok st ->
  total_entities st = _count_total_entities doc
  /\ Forall critical (errors st)
  /\ Forall warning (warnings st)
  /\ Forall export_error (export_errors st).
Proof.
  unfold run, validators. intros R.
  apply seq_Ok in R. destruct R as (st1 & R1 & R).
  apply seq_Ok in R. destruct R as (st2 & R2 & R).
  apply seq_Ok in R. destruct R as (st3 & R3 & R).
  apply seq_Ok in R. destruct R as (st4 & R4 & R).
  apply seq_Ok in R. destruct R as (st5 & R5 & R).
  apply seq_Ok in R. destruct R as (st6 & R6 & R).
  apply seq_Ok in R. destruct R as (st7 & R7 & R8).
  pose proof (_check_layer_usage_requires doc _ _ R6) as Hl.
  apply _validate_file_structure_rules in R1.
  apply _validate_critical_errors_rules in R2.
  apply _validate_warnings_rules in R3.
  apply _validate_export_errors_rules in R4.
  apply _check_vector_distances_rules in R5.
  apply _check_layer_usage_rules in R6.
  apply (_validate_entities_rules py np doc Hl) in R7.
  apply _check_dimensions_rules in R8.
  pose proof (extends_trans _ _ _ _ _ _ R1
               (extends_trans _ _ _ _ _ _ R2
                  (extends_trans _ _ _ _ _ _ R3
                     (extends_trans _ _ _ _ _ _ R4
                        (extends_trans _ _ _ _ _ _ R5
                           (extends_trans _ _ _ _ _ _ R6
                              (extends_trans _ _ _ _ _ _ R7 R8)))))))
    as (T & (e & E & FE) & (w & W & FW) & (x & X & FX)).
  simpl in *. subst. auto.
Qed.

(** Every report of every result, list by list. *)
Lemma report_rules py np min_distance_mm file r :
  let result := analyze_dxf_file py np min_distance_mm file in
  (In r (critical_errors result) -> critical r)
  /\ (In r (res_warnings result) -> warning r)
  /\ (In r (res_export_errors result) -> export_error r).
Proof.
  intros result. subst result.
  destruct (analyze_cases py np min_distance_mm file)
    as [(e & ->)|(doc & st & _ & R & A)].
  - simpl. split; [|split]; [|intros []|intros []].
    intros [<-|[]]. in_table.
  - apply assemble_Ok in A. destruct A as (_ & _ & -> & -> & -> & _).
    apply run_rules in R. destruct R as (_ & FE & FW & FX).
    rewrite Forall_forall in FE, FW, FX. auto.
Qed.

(** X9.  Whatever the file, every report of the result follows the rule
    table: a report of the critical list has the type "CRITICAL" and one of
    the pairs of id and severity (0, 10), (1, 10), (2, 9), (3, 8), (4, 7),
    (5, 8), (6, 8), (7, 7), (9, 6), (25, 10), (26, 10); a warning has the
    type "WARNING" and one of (11, 4), (11, 5), (15, 3), (18, 4), (28, 5),
    (29, 5), (30, 5); an export error has the type "EXPORT_ERROR" and one of
    (20, 6), (23, 5), (24, 6).  So the id fixes the list and, but for
    id 11, the severity; and no result holds a report with id 27, the
    "entity without layer" of [_validate_entities]. *)
Theorem reports_follow_the_rule_table py np min_distance_mm file :
  let result := analyze_dxf_file py np min_distance_mm file in
  forall r,
    (In r (critical_errors result) ->
     error_type r = "CRITICAL" /\ In (rule_of r) critical_rules)
    /\ (In r (res_warnings result) ->
        error_type r = "WARNING" /\ In (rule_of r) warning_rules)
    /\ (In r (res_export_errors result) ->
        error_type r = "EXPORT_ERROR" /\ In (rule_of r) export_rules)
    /\ (In r (reports result) -> error_id r <> 27).
Proof.
  intros result r. subst result.
  destruct (report_rules py np min_distance_mm file r) as (HC & HW & HX).
  split; [exact HC|split; [exact HW|split; [exact HX|]]].
  intros H. unfold reports in H.
  apply in_app_or in H. destruct H as [H|H];
    [|apply in_app_or in H; destruct H as [H|H]].
  - destruct (HC H) as [_ T]. unfold rule_of in T. simpl in T.
    intros C. rewrite C in T.
    repeat (destruct T as [T|T]; [discriminate T|]). exact T.
  - destruct (HW H) as [_ T]. unfold rule_of in T. simpl in T.
    intros C. rewrite C in T.
    repeat (destruct T as [T|T]; [discriminate T|]). exact T.
  - destruct (HX H) as [_ T]. unfold rule_of in T. simpl in T.
    intros C. rewrite C in T.
    repeat (destruct T as [T|T]; [discriminate T|]). exact T.
Qed.

(** ** The catalog endpoint *)




(** ** The API model *)

(** X18.  Every report of every result, of a failed load too, satisfies the
    constraint that the model [ErrorReport] of the API puts on its
    severity: an integer from 1 to 10. *)
Theorem reports_pass_the_api_model py np min_distance_mm file r :
  In r (reports (analyze_dxf_file py np min_distance_mm file)) ->
  Models.ErrorReport_valid r = true.
Proof.
  intros H.
  destruct (report_rules py np min_distance_mm file r) as (HC & HW & HX).
  unfold reports in H. unfold Models.ErrorReport_valid.
  apply in_app_or in H. destruct H as [H|H];
    [|apply in_app_or in H; destruct H as [H|H]].
  - destruct (HC H) as [_ T]. unfold rule_of in T. simpl in T.
    repeat (destruct T as [T|T];
            [injection T as Hi Hs; rewrite <- Hs; reflexivity|]).
    destruct T.
  - destruct (HW H) as [_ T]. unfold rule_of in T. simpl in T.
    repeat (destruct T as [T|T];
            [injection T as Hi Hs; rewrite <- Hs; reflexivity|]).
    destruct T.
  - destruct (HX H) as [_ T]. unfold rule_of in T. simpl in T.
    repeat (destruct T as [T|T];
            [injection T as Hi Hs; rewrite <- Hs; reflexivity|]).
    destruct T.
Qed.

Lemma reports_pass_the_api_model_witness :
  In (CRITICAL 0 "Error al cargar archivo" ["FILE"] 10)
     (reports (analyze_dxf_file py_example np_example 1 (Ok faulty_drawing)))
  /\ Models.ErrorReport_valid
       (CRITICAL 0 "Error al cargar archivo" ["FILE"] 10) = true.
Proof.
  assert (Hr : In (CRITICAL 0 "Error al cargar archivo" ["FILE"] 10)
                  (reports (analyze_dxf_file py_example np_example 1
                              (Ok faulty_drawing))))
    by (vm_compute; left; reflexivity).
  split; [exact Hr|].
  exact (reports_pass_the_api_model py_example np_example 1
           (Ok faulty_drawing)
           (CRITICAL 0 "Error al cargar archivo" ["FILE"] 10) Hr).
Defined.

(* ------------------------------------------------------------------ *)
Ltac split_iffs :=
  repeat match goal with
         | |- _ /\ _ => split
         | |- _ <-> _ => split
         end.

(** ** Recommendations *)

Lemma in_if_singleton {A} (c : bool) (m x : A) :
  In x (if c then [m] else []) <-> c = true /\ x = m.
Proof.
  destruct c; simpl; split.
  - intros [H|[]]. auto.
  - intros [_ ->]. auto.
  - intros [].
  - intros [H _]. discriminate H.
Qed.

Lemma nonempty_true {A} (l : list A) : nonempty l = true <-> l <> [].
Proof. destruct l; simpl; split; congruence. Qed.

Lemma nonempty_false {A} (l : list A) : nonempty l = false <-> l = [].
Proof. destruct l; simpl; split; congruence. Qed.

Lemma any_id_true id l :
  any_id id l = true <-> exists e, In e l /\ error_id e = id.
Proof.
  unfold any_id. rewrite existsb_exists.
  split; intros (e & He & H); exists e; (split; [exact He|]);
    apply Z.eqb_eq; exact H.
Qed.

(** Membership in a list built like the recommendations, whatever the
    seven messages. *)
Lemma in_messages (b0 b1 b3 b4 b7 bw : bool) (m0 m1 m3 m4 m7 mw mc x : string) :
  In x ((if b0 then [m0] else [])
        ++ (if b1 then [m1] else [])
        ++ (if b3 then [m3] else [])
        ++ (if b4 then [m4] else [])
        ++ (if b7 then [m7] else [])
        ++ (if bw then [mw] else [])
        ++ (if negb b0 && negb bw then [mc] else []))
  <-> (b0 = true /\ x = m0) \/ (b1 = true /\ x = m1)
      \/ (b3 = true /\ x = m3) \/ (b4 = true /\ x = m4)
      \/ (b7 = true /\ x = m7) \/ (bw = true /\ x = mw)
      \/ (b0 = false /\ bw = false /\ x = mc).
Proof.
  rewrite !in_app_iff, !in_if_singleton, andb_true_iff, !negb_true_iff.
  tauto.
Qed.

(** What [_generate_recommendations] returns, message by message. *)
Lemma _generate_recommendations_presence st :
  _generate_recommendations st <> []
  /\ (In "🔴 Corrija todos los errores críticos antes de proceder al corte"
         (_generate_recommendations st) <-> errors st <> [])
  /\ (In "✅ Cerrar todas las polilíneas en capas de corte"
         (_generate_recommendations st)
      <-> exists e, In e (errors st) /\ error_id e = 1)
  /\ (In "📝 Convertir todos los textos a curvas/contornos"
         (_generate_recommendations st)
      <-> exists e, In e (errors st) /\ error_id e = 3)
  /\ (In "🏷️ Usar nombres de capas estándar: CUT, ENGRAVE, MARK"
         (_generate_recommendations st)
      <-> exists e, In e (errors st) /\ error_id e = 4)
  /\ (In "🔄 Eliminar vectores duplicados" (_generate_recommendations st)
      <-> exists e, In e (errors st) /\ error_id e = 7)
  /\ (In "⚠️ Revisar las advertencias para optimizar el proceso"
         (_generate_recommendations st) <-> warnings st <> [])
  /\ (In "✅ Archivo listo para corte láser" (_generate_recommendations st)
      <-> errors st = [] /\ warnings st = []).
Proof.
  split.
  { unfold _generate_recommendations.
    destruct (errors st), (warnings st); simpl; discriminate. }
  unfold _generate_recommendations.
  split_iffs; intros H.
  all: match goal with
       | |- In _ _ =>
           apply in_messages;
           first [ apply any_id_true in H | apply nonempty_true in H
                 | destruct H as [H H']; apply nonempty_false in H;
                   apply nonempty_false in H' ];
           tauto
       | _ =>
           apply in_messages in H;
           repeat (destruct H as [H|H]);
           first [ destruct H as (Hb & Hw & He) | destruct H as [Hb He] ];
           try discriminate He;
           first [ apply any_id_true; exact Hb
                 | apply nonempty_true; exact Hb
                 | split; apply nonempty_false; assumption ]
       end.
Qed.

(** X3.  The recommendations of a result are never empty, and each message
    is there exactly when its condition holds of the lists of the result:
    the all-clear message when there is neither a critical report nor a
    warning, the four targeted messages when a critical report has id 1, 3,
    4 or 7, the review message when there is a warning; export errors play
    no part.  The generic "fix the critical errors" message is there exactly
    when there is a critical report, except in the result of a failed load,
    whose only recommendation is to check the file. *)
Theorem recommendations_follow_presence py np min_distance_mm file :
  let r := analyze_dxf_file py np min_distance_mm file in
  let recs := recommendations r in
  recs <> []
  /\ (In "✅ Archivo listo para corte láser" recs
      <-> critical_errors r = [] /\ res_warnings r = [])
  /\ (In "✅ Cerrar todas las polilíneas en capas de corte" recs
      <-> exists e, In e (critical_errors r) /\ error_id e = 1)
  /\ (In "📝 Convertir todos los textos a curvas/contornos" recs
      <-> exists e, In e (critical_errors r) /\ error_id e = 3)
  /\ (In "🏷️ Usar nombres de capas estándar: CUT, ENGRAVE, MARK" recs
      <-> exists e, In e (critical_errors r) /\ error_id e = 4)
  /\ (In "🔄 Eliminar vectores duplicados" recs
      <-> exists e, In e (critical_errors r) /\ error_id e = 7)
  /\ (In "⚠️ Revisar las advertencias para optimizar el proceso" recs
      <-> res_warnings r <> [])
  /\ ((In "🔴 Corrija todos los errores críticos antes de proceder al corte"
          recs <-> critical_errors r <> [])
      \/ exists e,
           r = load_error e
           /\ recs = ["Verificar integridad del archivo DXF"]).
Proof.
  intros r recs. subst r recs.
  assert (Herr : forall e,
    let r := load_error e in
    let recs := recommendations r in
    recs <> []
    /\ (In "✅ Archivo listo para corte láser" recs
        <-> critical_errors r = [] /\ res_warnings r = [])
    /\ (In "✅ Cerrar todas las polilíneas en capas de corte" recs
        <-> exists e, In e (critical_errors r) /\ error_id e = 1)
    /\ (In "📝 Convertir todos los textos a curvas/contornos" recs
        <-> exists e, In e (critical_errors r) /\ error_id e = 3)
    /\ (In "🏷️ Usar nombres de capas estándar: CUT, ENGRAVE, MARK" recs
        <-> exists e, In e (critical_errors r) /\ error_id e = 4)
    /\ (In "🔄 Eliminar vectores duplicados" recs
        <-> exists e, In e (critical_errors r) /\ error_id e = 7)
    /\ (In "⚠️ Revisar las advertencias para optimizar el proceso" recs
        <-> res_warnings r <> [])
    /\ ((In "🔴 Corrija todos los errores críticos antes de proceder al corte"
            recs <-> critical_errors r <> [])
        \/ exists e',
             r = load_error e'
             /\ recs = ["Verificar integridad del archivo DXF"])).
  { intros e. cbv zeta. cbn [load_error recommendations critical_errors
      res_warnings In].
    split; [discriminate|].
    repeat (split;
      [split;
       [intros [H|[]]; apply String.eqb_eq in H; discriminate H
       |first [ intros [H _]; discriminate H
              | intros (x & [<-|[]] & H); discriminate H
              | intros H; contradiction H; reflexivity ]]|]).
    right. eauto. }
  destruct (analyze_cases py np min_distance_mm file)
    as [(e & ->)|(doc & st & _ & _ & A)]; [apply Herr|].
  apply assemble_Ok in A. destruct A as (_ & _ & -> & -> & _ & _ & ->).
  destruct (_generate_recommendations_presence st)
    as (H0 & H1 & H2 & H3 & H4 & H5 & H6 & H7).
  repeat (split; [assumption|]). left. assumption.
Qed.

(** ** The batch script *)

Lemma count_if_filter p results :
  Batch.count_if p results = len (filter p results).
Proof.
  unfold Batch.count_if, len.
  assert (G : forall l acc,
    fold_left Z.add (map (fun r => if p r then 1 else 0) l) acc
    = acc + Z.of_nat (List.length (filter p l))).
  { induction l as [|r l IH]; intros acc; [simpl; lia|].
    cbn [map fold_left filter]. rewrite IH.
    destruct (p r); cbn [List.length]; rewrite ?Nat2Z.inj_succ; lia. }
  rewrite G. lia.
Qed.

Lemma len_filter_negb {A} (p : A -> bool) (l : list A) :
  len l - len (filter p l) = len (filter (fun x => negb (p x)) l).
Proof.
  unfold len. induction l as [|x l IH]; [reflexivity|].
  cbn [filter]. destruct (p x); cbn [negb List.length];
    rewrite ?Nat2Z.inj_succ; lia.
Qed.

(** A result is READY exactly when its critical list is empty. *)
Lemma ready_no_critical py np min_distance_mm file :
  nonempty (critical_errors (analyze_dxf_file py np min_distance_mm file))
  = negb (summary_status
            (summary (analyze_dxf_file py np min_distance_mm file))
          =? "READY")%string.
Proof.
  assert (Herr : forall e,
    nonempty (critical_errors (load_error e))
    = negb (summary_status (summary (load_error e)) =? "READY")%string)
    by (intros e; reflexivity).
  destruct (analyze_cases py np min_distance_mm file)
    as [(e & ->)|(doc & st & _ & _ & A)]; [apply Herr|].
  apply assemble_Ok in A. destruct A as (_ & _ & -> & _ & _ & S & _).
  unfold _generate_summary in S.
  destruct (getattr "keys" (layers_keys (layers doc))) as [keys|];
    simpl in S; [|discriminate S].
  inversion S as [S']. simpl.
  unfold len. destruct (errors st) as [|r l]; [reflexivity|].
  simpl nonempty.
  replace (Z.of_nat (List.length (r :: l)) =? 0) with false
    by (symmetry; apply Z.eqb_neq; simpl List.length; lia).
  destruct (Z.of_nat (List.length (r :: l)) <? 5); reflexivity.
Qed.

Lemma filter_map_ext {A B} (p q : B -> bool) (f : A -> B) l :
  (forall x, p (f x) = q (f x)) -> filter p (map f l) = filter q (map f l).
Proof.
  intros H. induction l as [|x l IH]; simpl; [reflexivity|].
  rewrite H, IH. reflexivity.
Qed.

(** X12.  The final summary of the batch script, for the files found in a
    directory.  Every file gives one result, a file that cannot be loaded
    too.  The files "with critical errors" are those whose result is not
    READY, the unloadable ones among them; the files "without problems"
    are those whose result is READY, whatever their warnings and export
    errors. *)
Theorem batch_summary_counts py np dxf_files :
  let results := Batch.analyze_directory py np dxf_files in
  let final := Batch.resumen results in
  Batch.total_files final = len dxf_files
  /\ Batch.files_with_errors final
     = len (filter
              (fun r => negb (summary_status (summary r) =? "READY")%string)
              results)
  /\ Batch.files_without_problems final
     = len (filter (fun r => (summary_status (summary r) =? "READY")%string)
              results)
  /\ Batch.files_with_errors final + Batch.files_without_problems final
     = len dxf_files.
Proof.
  intros results final. subst results final.
  unfold Batch.resumen, Batch.analyze_directory. simpl.
  assert (L : len (map (Api.analyze_dxf_file py np) dxf_files) = len dxf_files)
    by (unfold len; rewrite length_map; reflexivity).
  assert (E : Batch.count_if (fun r => nonempty (critical_errors r))
                (map (Api.analyze_dxf_file py np) dxf_files)
              = len (filter
                       (fun r =>
                          negb (summary_status (summary r) =? "READY")%string)
                       (map (Api.analyze_dxf_file py np) dxf_files))).
  { rewrite count_if_filter. f_equal. apply filter_map_ext.
    intros file. unfold Api.analyze_dxf_file.
    exact (ready_no_critical py np 1%float file). }
  split; [exact L|]. split; [exact E|]. split; [|lia].
  rewrite E, <- len_filter_negb. lia.
Qed.


(* ------------------------------------------------------------------ *)
(** * The validators one by one *)

Lemma add_warnings_nil st : add_warnings [] st = st.
Proof.
  destruct st; unfold add_warnings; simpl. rewrite app_nil_r. reflexivity.
Qed.

Lemma add_export_errors_nil st : add_export_errors [] st = st.
Proof.
  destruct st; unfold add_export_errors; simpl. rewrite app_nil_r.
  reflexivity.
Qed.

Lemma in_flat_map_rule {A} (c : A -> bool) (f : A -> ErrorReport) l r :
  In r (flat_map (fun x => rule (c x) (f x)) l)
  <-> exists x, In x l /\ c x = true /\ r = f x.
Proof.
  rewrite in_flat_map. split.
  - intros (x & Hx & H). apply in_rule in H. destruct H. eauto.
  - intros (x & Hx & Hc & ->). exists x. split; [exact Hx|].
    apply in_rule. auto.
Qed.

(** A loop raises [exc] when one of its rounds does and the others raise
    nothing else. *)
Lemma for_each_raises {A} (exc : Py.exc) (l : list A) body x :
  In x l ->
  (forall st, body x st = Raise exc) ->
  (forall y st, In y l ->
     body y st = Raise exc \/ exists st', body y st = Ok st') ->
  forall st, for_each l body st = Raise exc.
Proof.
  induction l as [|y l IH]; simpl; intros Hx Hr Hb st; [destruct Hx|].
  unfold seq.
  destruct (Hb y st (or_introl eq_refl)) as [E|(st' & E)]; rewrite E; simpl;
    [reflexivity|].
  destruct Hx as [->|Hx]; [rewrite Hr in E; discriminate E|].
  apply IH; auto.
Qed.

(** ** The export errors *)

(** X7.  The two validators of the file itself never raise, whatever the
    document.  [_validate_file_structure] appends the version error
    (id 20) if the document has a version later than AC1027, and nothing
    otherwise; [_validate_export_errors] appends the file-size error
    (id 24) if the size of the file can be read and exceeds 50 MiB, and
    nothing when it cannot be read.  Both leave the two other lists and the
    entity count as they were. *)
Theorem export_checks_never_raise doc st :
  _validate_file_structure doc st
  = Ok (add_export_errors (version_error doc) st)
  /\ _validate_export_errors doc st
     = Ok (add_export_errors (file_size_error doc) st).
Proof.
  split.
  - unfold _validate_file_structure, version_error.
    destruct (dxfversion doc) as [version|]; simpl;
      [|rewrite add_export_errors_nil; reflexivity].
    destruct ("AC1027" <? version)%string; simpl;
      [reflexivity|rewrite add_export_errors_nil; reflexivity].
  - unfold _validate_export_errors, file_size_error, try_pass, with_attr,
      os_path_getsize.
    destruct (file_size doc) as [size|]; cbn [Py.bind];
      [|simpl; rewrite add_export_errors_nil; reflexivity].
    destruct (int_truediv size (1024 * 1024)) as [file_size_mb|];
      cbn [Py.bind];
      [|simpl; rewrite add_export_errors_nil; reflexivity].
    destruct (MAX_FILE_SIZE_MB <? file_size_mb)%float; simpl;
      [reflexivity|rewrite add_export_errors_nil; reflexivity].
Qed.

(** ** Hidden layers *)

Lemma entity_count_positive layer_name entities :
  (0 <? fold_left
          (fun count entity =>
             match dxf_layer entity with
             | Some l => if (l =? layer_name)%string then count + 1 else count
             | None => count
             end)
          entities 0)
  = existsb
      (fun entity =>
         match dxf_layer entity with
         | Some l => (l =? layer_name)%string
         | None => false
         end)
      entities.
Proof.
  assert (G : forall l acc, 0 <= acc ->
    (0 <? fold_left
            (fun count entity =>
               match dxf_layer entity with
               | Some l => if (l =? layer_name)%string then count + 1
                           else count
               | None => count
               end)
            l acc)
    = (0 <? acc)
      || existsb
           (fun entity =>
              match dxf_layer entity with
              | Some l => (l =? layer_name)%string
              | None => false
              end)
           l).
  { induction l as [|e l IH]; simpl; intros acc Hacc.
    - rewrite orb_false_r. reflexivity.
    - destruct (dxf_layer e) as [la|]; simpl.
      + destruct (la =? layer_name)%string; simpl.
        * rewrite IH by lia.
          assert (H1 : (0 <? acc + 1) = true) by (apply Z.ltb_lt; lia).
          rewrite H1. simpl. rewrite orb_true_r. reflexivity.
        * apply IH. exact Hacc.
      + apply IH. exact Hacc. }
  rewrite G by lia. reflexivity.
Qed.

Lemma _check_invisible_layers_closed_form doc entries :
  layers doc = LayerDict entries ->
  emits (_check_invisible_layers doc) (hidden_layer_reports doc entries).
Proof.
  intros H. unfold _check_invisible_layers, hidden_layer_reports.
  rewrite H. simpl. apply emits_with_attr.
  apply emits_for_each. intros item _.
  cbv zeta. unfold layer_in_use. rewrite <- entity_count_positive.
  destruct (truth (is_off (snd item)) || truth (is_frozen (snd item))); simpl.
  - apply emits_when. apply emits_errors_append.
  - apply emits_skip.
Qed.

(** X2.  The hidden-layer check reads the layers as a dictionary.  On the
    layer table of the parser it raises AttributeError at [items()],
    whatever the layers and the state.  On a dictionary of layers it never
    raises: going through the entries in order, it appends one id-6 report,
    naming the layer, for each layer whose [is_off] or [is_frozen] is true
    (a method counts as true) and that holds at least one entity of some
    layout, the layer names compared as they are written; and nothing for
    the other layers. *)
Theorem one_report_per_hidden_layer_in_use doc st :
  (is_layer_table (layers doc) = true ->
   _check_invisible_layers doc st = Raise (AttributeError "items"))
  /\ (forall entries,
        layers doc = LayerDict entries ->
        _check_invisible_layers doc st
        = Ok (add_errors
                (flat_map
                   (fun item =>
                      if (truth (is_off (snd item))
                          || truth (is_frozen (snd item)))
                         && layer_in_use doc (fst item)
                      then [CRITICAL 6 "Objetos en capas invisibles"
                              [fst item] 8]
                      else [])
                   entries)
                st)).
Proof.
  split.
  - apply _check_invisible_layers_raises.
  - intros entries H.
    apply (_check_invisible_layers_closed_form doc entries H).
Qed.

(** The drawing with a dictionary of layers: NOTES is off and holds the
    text, CUT is visible. *)
Example hidden_layer_of_the_faulty_drawing st :
  _check_invisible_layers faulty_drawing_with_dictionary st
  = Ok (add_errors [CRITICAL 6 "Objetos en capas invisibles" ["NOTES"] 8] st).
Proof. reflexivity. Qed.

(** ** The critical checks of one entity *)

Lemma critical_checks_errors py e :
  gathers errors (critical_checks py e) (entity_criticals py e).
Proof.
  unfold critical_checks. cbv zeta.
  apply gathers_eq
    with (l := rule (open_on_cut_layer py e)
                 (CRITICAL 1 "Vectores abiertos" [dxf_handle e] 10)
               ++ rule (without_layer e)
                    (CRITICAL 2 "Vectores sin capa asignada" [dxf_handle e] 9)
               ++ rule (is_text e)
                    (CRITICAL 3 "Texto editable" [dxf_handle e] 8)
               ++ rule (on_unknown_layer py e)
                    (CRITICAL 4 "Capas incorrectas" [dxf_handle e] 7)
               ++ rule (far_from_origin e)
                    (CRITICAL 5 "Objetos fuera de área" [dxf_handle e] 8)
               ++ rule (has_lineweight e)
                    (CRITICAL 9 "Vectores con grosor de línea"
                       [dxf_handle e] 6)
               ++ []);
    [|unfold entity_criticals; rewrite app_nil_r; reflexivity].
  apply gathers_seq; [|apply gathers_seq; [|apply gathers_seq;
    [|apply gathers_seq; [|apply gathers_seq; [|apply gathers_seq]]]]].
  - unfold open_on_cut_layer.
    destruct (is_polyline e); simpl; [|apply gathers_skip].
    destruct (is_closed e) as [[|]|]; simpl; [| |apply gathers_raise].
    + apply gathers_with_attr. intros a Ha. inversion Ha; subst. simpl.
      apply gathers_skip.
    + apply gathers_with_attr. intros a Ha. inversion Ha; subst. simpl.
      destruct (dxf_layer e) as [layer|]; simpl; [|apply gathers_raise].
      apply gathers_with_attr. intros b Hb. inversion Hb; subst.
      apply gathers_when. intros _. apply gathers_errors_append.
  - unfold without_layer.
    apply gathers_when. intros _. apply gathers_errors_append.
  - unfold is_text.
    apply gathers_when. intros _. apply gathers_errors_append.
  - unfold on_unknown_layer. destruct (dxf_layer e) as [l|].
    + apply gathers_when. intros _. apply gathers_errors_append.
    + apply gathers_skip.
  - unfold far_from_origin.
    destruct (_get_entity_bounds e) as [[[[x_min y_min] x_max] y_max]|].
    + apply gathers_when. intros _. apply gathers_errors_append.
    + apply gathers_skip.
  - unfold has_lineweight. destruct (dxf_lineweight e) as [lineweight|].
    + apply gathers_when. intros _. apply gathers_errors_append.
    + apply gathers_skip.
  - untouched.
Qed.

Lemma critical_checks_export_errors py e :
  gathers export_errors (critical_checks py e) (off_plane_error e).
Proof.
  unfold critical_checks. cbv zeta.
  apply gathers_eq
    with (l := [] ++ [] ++ [] ++ [] ++ [] ++ [] ++ off_plane_error e);
    [|reflexivity].
  apply gathers_seq; [untouched|].
  apply gathers_seq; [untouched|].
  apply gathers_seq; [untouched|].
  apply gathers_seq; [untouched|].
  apply gathers_seq; [untouched|].
  apply gathers_seq; [untouched|].
  unfold off_plane_error, off_plane.
  destruct (dxf_start e) as [start|].
  - apply gathers_when. intros _. apply gathers_export_errors_append.
  - apply gathers_skip.
Qed.

Lemma critical_checks_appends py e :
  appends (fun _ => True) (fun _ => False) (fun _ => True)
    (critical_checks py e).
Proof.
  unfold critical_checks.
  repeat first [ appends_leaf; exact I | appends_step ].
Qed.

Lemma critical_checks_requires py e :
  requires (polyline_readable e) (critical_checks py e).
Proof.
  unfold critical_checks, polyline_readable. cbv zeta.
  apply requires_seq_l.
  destruct (is_polyline e); simpl;
    [|apply requires_holds; intros C; discriminate C].
  apply requires_with_attr_then. intros closed Hc.
  apply getattr_Ok in Hc. destruct closed; simpl.
  - apply requires_holds. auto.
  - apply requires_with_attr. intros layer Hl. apply getattr_Ok in Hl.
    intros _. right. split; [exact Hc | congruence].
Qed.

Lemma critical_checks_returns py e :
  polyline_readable e -> returns (critical_checks py e).
Proof.
  intros H. unfold critical_checks. cbv zeta.
  apply returns_seq.
  - unfold polyline_readable in H.
    destruct (is_polyline e); simpl; [|apply returns_skip].
    destruct (H eq_refl) as [Hc|[Hc Hl]]; rewrite Hc; simpl.
    + apply returns_with_attr. simpl. apply returns_skip.
    + apply returns_with_attr. simpl.
      destruct (dxf_layer e) as [layer|]; [|contradiction Hl; reflexivity].
      simpl. apply returns_with_attr. repeat returns_step.
  - repeat returns_step.
Qed.

(** X4.  The loop of [_validate_critical_errors] over the entities of every
    layout.  Whenever it returns, it has appended to the critical list, for
    each entity of each layout in turn, what the six per-entity rules (ids
    1, 2, 3, 4, 5, 9, in this order) say about it, and to the export list
    one id-23 report for each entity whose start point is off the plane;
    the warnings and the entity count are as they were.  It returns if and
    only if every polyline has its closed flag, and a layer when it is
    open; otherwise it raises. *)
Theorem critical_reports_in_check_order py doc st :
  (forall st',
     for_each_entity doc (critical_checks py) st = Ok st' ->
     errors st'
     = errors st ++ flat_map (entity_criticals py) (all_entities doc)
     /\ export_errors st'
        = export_errors st ++ flat_map off_plane_error (all_entities doc)
     /\ warnings st' = warnings st
     /\ total_entities st' = total_entities st)
  /\ ((exists st', for_each_entity doc (critical_checks py) st = Ok st')
      <-> forall e, In e (all_entities doc) -> polyline_readable e).
Proof.
  split; [|split].
  - intros st' R.
    split; [|split; [|split]].
    + revert R. apply gathers_for_each_entity.
      intros e _. apply critical_checks_errors.
    + revert R. apply gathers_for_each_entity.
      intros e _. apply critical_checks_export_errors.
    + assert (A : appends (fun _ => True) (fun _ => False) (fun _ => True)
                    (for_each_entity doc (critical_checks py)))
        by (apply appends_for_each_entity; intros e _;
            apply critical_checks_appends).
      pose proof (silent_warnings _ _ _ A _ _ R) as W.
      rewrite app_nil_r in W. exact W.
    + eapply same_total; [|exact R].
      apply appends_for_each_entity. intros e _.
      apply critical_checks_appends.
  - intros (st' & R) e He. revert R.
    apply requires_for_each_entity with (e := e); [exact He|].
    apply critical_checks_requires.
  - intros H. apply returns_for_each_entity.
    intros e He. apply critical_checks_returns. apply H. exact He.
Qed.

Lemma in_rules6 (c1 c2 c3 c4 c5 c6 : bool) (r1 r2 r3 r4 r5 r6 x : ErrorReport) :
  In x (rule c1 r1 ++ rule c2 r2 ++ rule c3 r3 ++ rule c4 r4 ++ rule c5 r5
        ++ rule c6 r6)
  <-> (c1 = true /\ x = r1) \/ (c2 = true /\ x = r2) \/ (c3 = true /\ x = r3)
      \/ (c4 = true /\ x = r4) \/ (c5 = true /\ x = r5)
      \/ (c6 = true /\ x = r6).
Proof. rewrite !in_app_iff, !in_rule. tauto. Qed.

(** One direction and the other of "rule [id] fires exactly on its
    trigger". *)
Ltac fired_by_trigger :=
  let Hin := fresh "Hin" in
  let Hid := fresh "Hid" in
  let T := fresh "T" in
  intros [Hin Hid];
  apply in_rules6 in Hin;
  repeat (destruct Hin as [Hin|Hin]);
  destruct Hin as [T ->]; try discriminate Hid;
  auto.

Ltac trigger_fires :=
  let T := fresh "T" in
  intros (T & ->);
  split; [|reflexivity];
  apply in_rules6;
  repeat first [ solve [left; split; [exact T|reflexivity]]
               | solve [split; [exact T|reflexivity]]
               | right ].

(** X5.  Whenever the critical checks of one entity return, each rule has
    fired exactly on its trigger: among the reports appended to the
    critical list there is one with id 1 if and only if the entity is an
    open polyline on a cut layer, and it is the id-1 report naming the
    entity; likewise for id 2 (no layer, or layer "0"), id 3 (text), id 4
    (a layer name that is, in upper case, neither valid nor "0"), id 5
    (bounds far from the origin) and id 9 (positive lineweight). *)
Theorem entity_rules_fire_on_their_triggers py e st st' :
  critical_checks py e st = Ok st' ->
  exists appended,
    errors st' = errors st ++ appended
    /\ forall r,
         (In r appended /\ error_id r = 1
          <-> open_on_cut_layer py e = true
              /\ r = CRITICAL 1 "Vectores abiertos" [dxf_handle e] 10)
         /\ (In r appended /\ error_id r = 2
             <-> without_layer e = true
                 /\ r = CRITICAL 2 "Vectores sin capa asignada"
                        [dxf_handle e] 9)
         /\ (In r appended /\ error_id r = 3
             <-> is_text e = true
                 /\ r = CRITICAL 3 "Texto editable" [dxf_handle e] 8)
         /\ (In r appended /\ error_id r = 4
             <-> on_unknown_layer py e = true
                 /\ r = CRITICAL 4 "Capas incorrectas" [dxf_handle e] 7)
         /\ (In r appended /\ error_id r = 5
             <-> far_from_origin e = true
                 /\ r = CRITICAL 5 "Objetos fuera de área" [dxf_handle e] 8)
         /\ (In r appended /\ error_id r = 9
             <-> has_lineweight e = true
                 /\ r = CRITICAL 9 "Vectores con grosor de línea"
                        [dxf_handle e] 6).
Proof.
  intros R. exists (entity_criticals py e).
  split; [exact (critical_checks_errors py e _ _ R)|].
  intros r. unfold entity_criticals.
  split_iffs; first [ fired_by_trigger | trigger_fires ].
Qed.

Lemma entity_rules_fire_on_their_triggers_witness :
  critical_checks py_example (TEXT "7A" (Some "NOTES")) _reset_analysis
  = Ok (add_errors [CRITICAL 3 "Texto editable" ["7A"] 8;
                    CRITICAL 4 "Capas incorrectas" ["7A"] 7]
          _reset_analysis)
  /\ exists appended,
       errors (add_errors [CRITICAL 3 "Texto editable" ["7A"] 8;
                           CRITICAL 4 "Capas incorrectas" ["7A"] 7]
                 _reset_analysis)
       = errors _reset_analysis ++ appended
       /\ (In (CRITICAL 3 "Texto editable" ["7A"] 8) appended
           /\ error_id (CRITICAL 3 "Texto editable" ["7A"] 8) = 3
           <-> is_text (TEXT "7A" (Some "NOTES")) = true
               /\ CRITICAL 3 "Texto editable" ["7A"] 8
                  = CRITICAL 3 "Texto editable" ["7A"] 8).
Proof.
  assert (R : critical_checks py_example (TEXT "7A" (Some "NOTES"))
                _reset_analysis
              = Ok (add_errors [CRITICAL 3 "Texto editable" ["7A"] 8;
                                CRITICAL 4 "Capas incorrectas" ["7A"] 7]
                      _reset_analysis)) by reflexivity.
  split; [exact R|].
  destruct (entity_rules_fire_on_their_triggers py_example _ _ _ R)
    as (appended & E & H).
  exists appended. split; [exact E|].
  exact (proj1 (proj2 (proj2 (H (CRITICAL 3 "Texto editable" ["7A"] 8))))).
Defined.

(* ------------------------------------------------------------------ *)
(** ** The warnings *)

Lemma scale_checks_closed_form e st :
  scale_checks e st = Ok (add_warnings (scale_warnings e) st).
Proof.
  unfold scale_checks, scale_warnings, too_small, too_large. cbv zeta.
  destruct (_get_entity_bounds e) as [[[[x_min y_min] x_max] y_max]|];
    [|simpl; rewrite add_warnings_nil; reflexivity].
  destruct st as [es ws xs n].
  unfold seq, when, add_warnings, warnings_append, skip, rule.
  destruct ((x_max - x_min <? MIN_SIZE_MM)%float
            || (y_max - y_min <? MIN_SIZE_MM)%float);
    destruct ((MAX_SIZE_MM <? x_max - x_min)%float
              || (MAX_SIZE_MM <? y_max - y_min)%float);
    simpl; rewrite <- ?app_assoc, ?app_nil_r; reflexivity.
Qed.

Lemma scale_checks_warnings e :
  gathers warnings (scale_checks e) (scale_warnings e).
Proof.
  intros st st' R. rewrite scale_checks_closed_form in R.
  inversion R. reflexivity.
Qed.

Lemma returns_scale_checks e : returns (scale_checks e).
Proof. intros st. rewrite scale_checks_closed_form. eauto. Qed.

Lemma _check_reference_layers_warnings py doc :
  gathers warnings (_check_reference_layers py doc)
    (flat_map (reference_warning py) (all_entities doc)).
Proof.
  unfold _check_reference_layers. cbv zeta.
  apply gathers_for_each_entity; intros e _.
  unfold reference_warning, on_reference_layer.
  destruct (dxf_layer e) as [l|].
  - apply gathers_when. intros _. apply gathers_warnings_append.
  - apply gathers_skip.
Qed.

Lemma _check_reference_layers_returns py doc :
  returns (_check_reference_layers py doc).
Proof. unfold _check_reference_layers. repeat returns_step. Qed.

(** The check of one entity in [_check_excessive_points]. *)
Lemma excessive_points_cases e st :
  let body := fun entity : Entity =>
    when (is_polyline entity)
      match vertices entity with
      | Some vs =>
          with_attr (iterate vs) (fun listed =>
            when (100 <? Z.of_nat (List.length listed))
              (warnings_append
                 (WARNING 18 "Polilíneas con puntos redundantes"
                    [dxf_handle entity] 4)))
      | None => skip
      end in
  if vertices_method e
  then body e st = Raise (TypeError "'method' object is not iterable")
  else body e st = Ok (add_warnings (points_warning e) st).
Proof.
  cbv zeta. unfold vertices_method, points_warning, has_excessive_points.
  destruct (is_polyline e); simpl;
    [|rewrite add_warnings_nil; reflexivity].
  destruct (vertices e) as [[locations|]|]; simpl;
    [|reflexivity|rewrite add_warnings_nil; reflexivity].
  unfold with_attr. simpl.
  destruct (100 <? Z.of_nat (List.length locations)); simpl;
    [reflexivity|rewrite add_warnings_nil; reflexivity].
Qed.

Lemma _check_excessive_points_warnings doc :
  gathers warnings (_check_excessive_points doc)
    (flat_map points_warning (all_entities doc)).
Proof.
  unfold _check_excessive_points.
  apply gathers_for_each_entity; intros e _ st st' R.
  pose proof (excessive_points_cases e st) as C. cbv zeta in C.
  destruct (vertices_method e); rewrite C in R; inversion R. reflexivity.
Qed.

Lemma _check_excessive_points_returns doc :
  (forall e, In e (all_entities doc) -> vertices_method e = false) ->
  returns (_check_excessive_points doc).
Proof.
  intros H. unfold _check_excessive_points.
  apply returns_for_each_entity. intros e He st.
  pose proof (excessive_points_cases e st) as C. cbv zeta in C.
  rewrite (H e He) in C. rewrite C. eauto.
Qed.

Lemma _check_excessive_points_raises doc :
  (exists e, In e (all_entities doc) /\ vertices_method e = true) ->
  forall st,
    _check_excessive_points doc st
    = Raise (TypeError "'method' object is not iterable").
Proof.
  intros (e & He & Hm). unfold _check_excessive_points, for_each_entity.
  unfold all_entities in He. apply in_concat in He.
  destruct He as (layout & Hl & He).
  assert (B : forall y st,
    (fun entity : Entity =>
       when (is_polyline entity)
         match vertices entity with
         | Some vs =>
             with_attr (iterate vs) (fun listed =>
               when (100 <? Z.of_nat (List.length listed))
                 (warnings_append
                    (WARNING 18 "Polilíneas con puntos redundantes"
                       [dxf_handle entity] 4)))
         | None => skip
         end) y st = Raise (TypeError "'method' object is not iterable")
    \/ exists st',
         (fun entity : Entity =>
            when (is_polyline entity)
              match vertices entity with
              | Some vs =>
                  with_attr (iterate vs) (fun listed =>
                    when (100 <? Z.of_nat (List.length listed))
                      (warnings_append
                         (WARNING 18 "Polilíneas con puntos redundantes"
                            [dxf_handle entity] 4)))
              | None => skip
              end) y st = Ok st').
  { intros y st. pose proof (excessive_points_cases y st) as C.
    cbv zeta in C. destruct (vertices_method y); [left|right; eexists];
      exact C. }
  apply for_each_raises with (x := layout); [exact Hl| |].
  - apply for_each_raises with (x := e); [exact He| |].
    + intros st. pose proof (excessive_points_cases e st) as C.
      cbv zeta in C. rewrite Hm in C. exact C.
    + intros y st _. apply B.
  - intros l st _.
    induction l as [|y l IH] in st |- *; simpl; [right; eexists; reflexivity|].
    unfold seq. destruct (B y st) as [E|(st' & E)]; rewrite E; simpl;
      [left; reflexivity|apply IH].
Qed.

Lemma _validate_warnings_raises py doc st :
  (exists e, In e (all_entities doc) /\ vertices_method e = true) ->
  _validate_warnings py doc st
  = Raise (TypeError "'method' object is not iterable").
Proof.
  intros H. unfold _validate_warnings, seq.
  assert (S : returns (for_each_entity doc scale_checks))
    by (apply returns_for_each_entity; intros e _; apply returns_scale_checks).
  destruct (S st) as (st1 & ->). simpl.
  destruct (_check_reference_layers_returns py doc st1) as (st2 & ->).
  simpl. apply _check_excessive_points_raises. exact H.
Qed.

(** X6.  [_validate_warnings], on the entities of every layout.  Whenever
    it returns, it has appended to the warnings, in this order: the scale
    warnings (id 11: "too small" and then "too large") of every entity that
    has bounds; then the reference-layer warnings (id 15) of every entity;
    then the warnings for polylines of more than 100 vertices (id 18); the
    two other lists are as they were.  It returns if and only if no
    polyline has a method for [vertices]; when one has, as the lightweight
    polylines of the parser do, it raises TypeError. *)
Theorem warnings_in_check_order py doc st :
  (forall st',
     _validate_warnings py doc st = Ok st' ->
     warnings st'
     = warnings st
       ++ flat_map scale_warnings (all_entities doc)
       ++ flat_map (reference_warning py) (all_entities doc)
       ++ flat_map points_warning (all_entities doc)
     /\ errors st' = errors st
     /\ export_errors st' = export_errors st)
  /\ ((forall e, In e (all_entities doc) -> vertices_method e = false) ->
      exists st', _validate_warnings py doc st = Ok st')
  /\ ((exists e, In e (all_entities doc) /\ vertices_method e = true) ->
      _validate_warnings py doc st
      = Raise (TypeError "'method' object is not iterable")).
Proof.
  assert (A : appends (fun _ => False) (fun _ => True) (fun _ => False)
                (_validate_warnings py doc)).
  { unfold _validate_warnings, scale_checks, _check_reference_layers,
      _check_excessive_points.
    repeat first [ appends_leaf; exact I | appends_step ]. }
  assert (S : returns (for_each_entity doc scale_checks))
    by (apply returns_for_each_entity; intros e _; apply returns_scale_checks).
  split; [|split].
  - intros st' R. split; [|split].
    + revert R. unfold _validate_warnings.
      apply gathers_seq; [|apply gathers_seq].
      * apply gathers_for_each_entity. intros e _.
        apply scale_checks_warnings.
      * apply _check_reference_layers_warnings.
      * apply _check_excessive_points_warnings.
    + pose proof (silent_errors _ _ _ A _ _ R) as E.
      rewrite app_nil_r in E. exact E.
    + pose proof (silent_export_errors _ _ _ A _ _ R) as E.
      rewrite app_nil_r in E. exact E.
  - intros H. unfold _validate_warnings.
    apply returns_seq; [exact S|].
    apply returns_seq; [apply _check_reference_layers_returns|].
    apply _check_excessive_points_returns. exact H.
  - apply _validate_warnings_raises.
Qed.

(** A lightweight polyline of the parser: the check of its points
    raises. *)
Example lightweight_polyline_raises py st :
  _validate_warnings py lightweight_drawing st
  = Raise (TypeError "'method' object is not iterable").
Proof.
  apply _validate_warnings_raises.
  exists (LWPOLYLINE "9A" (Some "CUT") true).
  split; [left; reflexivity|reflexivity].
Qed.

(** X14.  REFERENCE is one of the valid layer names of the analyzer, so the
    layer rule (id 4) accepts it: the critical checks of an entity on a
    layer whose name is REFERENCE in upper case append no id-4 report.  Yet
    [_check_reference_layers], which never raises, appends the
    reference-layer warning (id 15) for every such entity of every
    layout. *)
Theorem reference_layer_is_valid_and_warned py doc e l st :
  In e (all_entities doc) ->
  dxf_layer e = Some l ->
  str_upper py l = "REFERENCE" ->
  str_in (str_upper py l) VALID_LAYERS = true
  /\ (forall st1 st2 r,
        critical_checks py e st1 = Ok st2 ->
        In r (errors st2) -> error_id r = 4 -> In r (errors st1))
  /\ exists st',
       _check_reference_layers py doc st = Ok st'
       /\ In (WARNING 15 "Vectores en capas de referencia" [dxf_handle e] 3)
             (warnings st').
Proof.
  intros He Hl Hu.
  split; [rewrite Hu; reflexivity|]. split.
  - intros st1 st2 r R Hr Hid.
    rewrite (critical_checks_errors py e _ _ R) in Hr.
    apply in_app_or in Hr. destruct Hr as [Hr|Hr]; [exact Hr|].
    exfalso. unfold entity_criticals in Hr. apply in_rules6 in Hr.
    repeat (destruct Hr as [Hr|Hr]); destruct Hr as [T ->];
      try discriminate Hid.
    unfold on_unknown_layer in T. rewrite Hl, Hu in T. discriminate T.
  - destruct (_check_reference_layers_returns py doc st) as (st' & R).
    exists st'. split; [exact R|].
    rewrite (_check_reference_layers_warnings py doc _ _ R).
    apply in_or_app. right. unfold reference_warning.
    apply in_flat_map_rule.
    exists e. split; [exact He|]. split; [|reflexivity].
    unfold on_reference_layer. rewrite Hl, Hu. reflexivity.
Qed.

Lemma reference_layer_is_valid_and_warned_witness :
  In reference_line (all_entities reference_drawing)
  /\ str_upper py_example "Reference" = "REFERENCE"
  /\ exists st',
       _check_reference_layers py_example reference_drawing _reset_analysis
       = Ok st'
       /\ In (WARNING 15 "Vectores en capas de referencia" ["8A"] 3)
             (warnings st').
Proof.
  assert (He : In reference_line (all_entities reference_drawing))
    by (left; reflexivity).
  split; [exact He|]. split; [reflexivity|].
  exact (proj2 (proj2
           (reference_layer_is_valid_and_warned py_example
              reference_drawing reference_line "Reference" _reset_analysis
              He eq_refl eq_refl))).
Defined.

(* ------------------------------------------------------------------ *)
(** ** Bounding boxes *)

Lemma entity_checks_warnings py np e :
  gathers warnings (entity_checks py np e) (size_warning py np e).
Proof.
  unfold entity_checks.
  apply gathers_eq with (l := [] ++ size_warning py np e); [|reflexivity].
  apply gathers_seq; [untouched|].
  unfold size_warning, very_small.
  destruct (_is_vector_entity e); simpl; [|apply gathers_skip].
  destruct (_calculate_entity_size py np e) as [size|]; [|apply gathers_raise].
  apply gathers_with_attr. intros a Ha. inversion Ha; subst.
  apply gathers_when. intros _. apply gathers_warnings_append.
Qed.

(** The dimension check names the file, nothing else. *)
Lemma _check_dimensions_names_the_file np doc :
  appends (fun _ => False) (fun r => affected_entities r = ["FILE"])
    (fun _ => False) (_check_dimensions np doc).
Proof.
  unfold _check_dimensions.
  repeat first [ appends_leaf; reflexivity | appends_step ].
Qed.

(** C8, as stated, fails: a polyline with a single vertex has no bounding
    box (it has neither a native box nor a start and an end point), and the
    size check of [_validate_entities], id 28, names it. *)
Lemma size_check_ignores_bounds :
  _get_entity_bounds single_vertex = None
  /\ _validate_entities py_example np_example single_vertex_drawing
       _reset_analysis
     = Ok (add_warnings [WARNING 28 "Entidad muy pequeña" ["6A"] 5]
             _reset_analysis).
Proof. split; reflexivity. Qed.

(** C8, amended.  For an entity whose bounding box is undetermined: the
    critical checks of the entity append no id-5 report; its scale checks
    (id 11) do nothing at all; and the dimension check (ids 29 and 30)
    names the file, never an entity.  The size check (id 28) does not ask
    for the bounding box: whatever the bounds, the checks of
    [_validate_entities] append one id-28 warning naming the entity
    exactly when the entity is a vector entity whose size, taken from its
    own geometry, is below 1. *)
Theorem no_bounds_no_position_report py np e :
  _get_entity_bounds e = None ->
  (forall st st' r,
     critical_checks py e st = Ok st' ->
     In r (errors st') -> error_id r = 5 -> In r (errors st))
  /\ (forall st, scale_checks e st = Ok st)
  /\ (forall doc st st',
        _check_dimensions np doc st = Ok st' ->
        errors st' = errors st
        /\ exists appended,
             warnings st' = warnings st ++ appended
             /\ forall r, In r appended -> affected_entities r = ["FILE"])
  /\ (forall st st',
        entity_checks py np e st = Ok st' ->
        warnings st'
        = warnings st
          ++ (if _is_vector_entity e
                 && match _calculate_entity_size py np e with
                    | Ok size => (size <? 1)%float
                    | Raise _ => false
                    end
              then [WARNING 28 "Entidad muy pequeña" [dxf_handle e] 5]
              else [])).
Proof.
  intros Hb. split; [|split; [|split]].
  - intros st st' r R Hr Hid.
    rewrite (critical_checks_errors py e _ _ R) in Hr.
    apply in_app_or in Hr. destruct Hr as [Hr|Hr]; [exact Hr|].
    exfalso. unfold entity_criticals in Hr. apply in_rules6 in Hr.
    repeat (destruct Hr as [Hr|Hr]); destruct Hr as [T ->];
      try discriminate Hid.
    unfold far_from_origin in T. rewrite Hb in T. discriminate T.
  - intros st. rewrite scale_checks_closed_form.
    unfold scale_warnings, too_small, too_large. rewrite Hb. simpl.
    apply f_equal. apply add_warnings_nil.
  - intros doc st st' R.
    destruct (_check_dimensions_names_the_file np doc _ _ R)
      as (_ & (x & E & F) & (w & W & FW) & _).
    split.
    + destruct x as [|r x]; [rewrite app_nil_r in E; exact E|].
      inversion F; contradiction.
    + exists w. split; [exact W|]. apply Forall_forall. exact FW.
  - intros st st' R. exact (entity_checks_warnings py np e _ _ R).
Qed.

Lemma no_bounds_no_position_report_witness :
  _get_entity_bounds single_vertex = None
  /\ scale_checks single_vertex _reset_analysis = Ok _reset_analysis.
Proof.
  assert (H : _get_entity_bounds single_vertex = None) by reflexivity.
  split; [exact H|].
  exact (proj1 (proj2 (no_bounds_no_position_report py_example np_example
                         single_vertex H)) _reset_analysis).
Defined.

(* ------------------------------------------------------------------ *)
(** ** Summary and count *)

(** X8.  [_generate_summary] reads the names of the layers with [keys()].
    On the layer table of the parser it raises AttributeError.  On a
    dictionary of layers it returns the count of entities, the lengths of
    the three lists, the names of the layers, the version of the document
    ("Unknown" if it has none), and a status that is READY exactly when the
    critical list is empty, NEEDS_REVIEW exactly when it holds 1 to 4
    reports, and CRITICAL exactly when it holds 5 or more. *)
Theorem status_follows_the_critical_count doc st :
  (is_layer_table (layers doc) = true ->
   _generate_summary doc st = Raise (AttributeError "keys"))
  /\ (forall entries,
        layers doc = LayerDict entries ->
        exists status,
          _generate_summary doc st
          = Ok (SummaryOf (total_entities st) (len (errors st))
                  (len (warnings st)) (len (export_errors st))
                  (map fst entries)
                  (match dxfversion doc with
                   | Some v => v
                   | None => "Unknown"
                   end)
                  status)
          /\ (status = "READY" <-> errors st = [])
          /\ (status = "NEEDS_REVIEW" <-> 1 <= len (errors st) <= 4)
          /\ (status = "CRITICAL" <-> 5 <= len (errors st))).
Proof.
  split; [apply _generate_summary_raises|].
  intros entries H. unfold _generate_summary. rewrite H. simpl.
  eexists. split; [reflexivity|].
  unfold len.
  destruct (errors st) as [|r1 l] eqn:El.
  - simpl. split_iffs; intros C; try reflexivity; try discriminate; try lia.
  - assert (Hn : (Z.of_nat (List.length (r1 :: l)) =? 0) = false)
      by (apply Z.eqb_neq; simpl List.length; lia).
    rewrite Hn.
    destruct (Z.of_nat (List.length (r1 :: l)) <? 5) eqn:H5.
    + apply Z.ltb_lt in H5.
      split_iffs; intros C; try reflexivity; try discriminate; try lia.
    + apply Z.ltb_ge in H5.
      split_iffs; intros C; try reflexivity; try discriminate; try lia.
Qed.

(** X11.  [_count_total_entities] counts the entities of every layout, the
    model space and the paper layouts alike: the count is the number of
    entities of all the layouts taken together, so it is never below the
    number of entities of the model space. *)
Theorem entity_count_is_over_every_layout doc :
  _count_total_entities doc = len (all_entities doc)
  /\ len (modelspace doc) <= _count_total_entities doc.
Proof.
  split; [apply _count_total_entities_length|].
  rewrite _count_total_entities_length. unfold len, all_entities, layouts.
  rewrite concat_app, length_app. simpl. rewrite length_app. lia.
Qed.

(* ------------------------------------------------------------------ *)
(** * Floating-point facts behind the geometry *)

(** Rounding does not look at the sign. *)
Lemma binary_round_aux_opp s m e l :
  binary_round_aux prec emax (negb s) m e l
  = SFopp (binary_round_aux prec emax s m e l).
Proof.
  unfold binary_round_aux.
  destruct (shr_fexp prec emax m e l) as [mrs' e'].
  destruct (shr_fexp prec emax
              (round_nearest_even (shr_m mrs') (loc_of_shr_record mrs'))
              e' loc_Exact) as [mrs'' e''].
  destruct (shr_m mrs'') as [|m'|m']; [reflexivity| |reflexivity].
  destruct (Z.leb e'' (Z.sub emax prec)); reflexivity.
Qed.

Lemma binary_round_opp s m e :
  binary_round prec emax (negb s) m e = SFopp (binary_round prec emax s m e).
Proof.
  unfold binary_round.
  destruct (shl_align m e (fexp prec emax (Z.add (Zpos (digits2_pos m)) e)))
    as [mz ez].
  apply binary_round_aux_opp.
Qed.

Lemma binary_normalize_opp m e :
  mirrored (binary_normalize prec emax m e false)
    (binary_normalize prec emax (- m) e false).
Proof.
  destruct m as [|p|p]; simpl.
  - right. eauto.
  - left. apply (binary_round_opp false).
  - left. apply (binary_round_opp true).
Qed.

(** [a - b] and [b - a] are opposite, or both zero. *)
Lemma SF64sub_swap x y : mirrored (SF64sub x y) (SF64sub y x).
Proof.
  unfold SF64sub.
  destruct x as [sx|sx| |sx mx ex], y as [sy|sy| |sy my ey]; simpl;
    try solve [left; reflexivity];
    try solve [destruct sx, sy; solve [left; reflexivity | right; eauto]];
    try solve [left; destruct sx; reflexivity];
    try solve [left; destruct sy; reflexivity].
  rewrite (Z.min_comm ey ex).
  set (a := cond_Zopp sx (Zpos (fst (shl_align mx ex (Z.min ex ey))))).
  set (b := cond_Zopp sy (Zpos (fst (shl_align my ey (Z.min ex ey))))).
  replace (b - a) with (- (a - b)) by ring.
  apply binary_normalize_opp.
Qed.

(** The tests of [float_pow2], on the value of the float. *)
Lemma is_nan_spec x :
  is_nan x = match Prim2SF x with S754_nan => true | _ => false end.
Proof.
  unfold is_nan. rewrite eqb_spec. unfold SFeqb.
  destruct (Prim2SF x) as [s|s| |s m e]; simpl; try (destruct s; reflexivity);
    try reflexivity.
  destruct s; rewrite Z.compare_refl, Pos.compare_cont_refl; reflexivity.
Qed.

Lemma is_infinity_spec x :
  is_infinity x
  = match Prim2SF x with S754_infinity _ => true | _ => false end.
Proof.
  unfold is_infinity. rewrite eqb_spec, abs_spec.
  change (Prim2SF infinity) with (S754_infinity false).
  destruct (Prim2SF x) as [s|s| |s m e]; reflexivity.
Qed.

Lemma eqb_zero_spec x :
  (x =? 0)%float = match Prim2SF x with S754_zero _ => true | _ => false end.
Proof.
  rewrite eqb_spec. change (Prim2SF 0) with (S754_zero false).
  destruct (Prim2SF x) as [s|s| |s m e]; try reflexivity;
    destruct s; reflexivity.
Qed.

Lemma ltb_zero_spec x :
  (x <? 0)%float
  = match Prim2SF x with
    | S754_infinity s => s
    | S754_finite s _ _ => s
    | _ => false
    end.
Proof.
  rewrite ltb_spec. change (Prim2SF 0) with (S754_zero false).
  destruct (Prim2SF x) as [s|s| |s m e]; try reflexivity;
    destruct s; reflexivity.
Qed.

Lemma opp_opp x : (- - x)%float = x.
Proof.
  apply Prim2SF_inj. rewrite !opp_spec.
  destruct (Prim2SF x); simpl; rewrite ?negb_involutive; reflexivity.
Qed.

(** [x ** 2] does not look at the sign of [x]. *)
Lemma float_pow2_opp c x : float_pow2 c (- x) = float_pow2 c x.
Proof.
  unfold float_pow2.
  rewrite !is_nan_spec, !is_infinity_spec, !eqb_zero_spec, !ltb_zero_spec,
    !opp_spec.
  destruct (Prim2SF x) as [s|s| |s m e] eqn:E; simpl.
  - reflexivity.
  - f_equal. apply Prim2SF_inj. rewrite !abs_spec, opp_spec, E. reflexivity.
  - f_equal. apply Prim2SF_inj. rewrite opp_spec, E. reflexivity.
  - destruct s; simpl; rewrite ?opp_opp; reflexivity.
Qed.

Lemma float_pow2_mirrored c x y :
  mirrored (Prim2SF x) (Prim2SF y) -> float_pow2 c x = float_pow2 c y.
Proof.
  intros [H|(s & s' & Hx & Hy)].
  - rewrite <- opp_spec in H. apply Prim2SF_inj in H. subst y.
    symmetry. apply float_pow2_opp.
  - unfold float_pow2.
    rewrite !is_nan_spec, !is_infinity_spec, !eqb_zero_spec, Hx, Hy.
    reflexivity.
Qed.

(** The square of a difference of two floats of Python does not depend on
    the order of the two. *)
Lemma square_of_difference_swap py np a b :
  square_of_difference py np false a b = square_of_difference py np false b a.
Proof.
  unfold square_of_difference. apply float_pow2_mirrored.
  rewrite !sub_spec. apply SF64sub_swap.
Qed.

Lemma _calculate_distance_swap py np p q :
  _calculate_distance py np (Vec3Point p) (Vec3Point q)
  = _calculate_distance py np (Vec3Point q) (Vec3Point p).
Proof.
  unfold _calculate_distance. cbn [is_sampled coord0 coord1 coord2 orb].
  rewrite (square_of_difference_swap py np (vec_x p)),
    (square_of_difference_swap py np (vec_y p)),
    (square_of_difference_swap py np (vec_z p)).
  reflexivity.
Qed.

(** X15.  Between two points of the parser, the end points of lines and
    the vertices of polylines, the distance does not depend on the order of
    the two points: the two calls return the same float, to the last bit,
    or raise the same exception.  So neither does the test of the distance
    check. *)
Theorem distance_is_symmetric py np min_distance_mm p q :
  _calculate_distance py np (Vec3Point p) (Vec3Point q)
  = _calculate_distance py np (Vec3Point q) (Vec3Point p)
  /\ offending py np min_distance_mm (Vec3Point p, Vec3Point q)
     = offending py np min_distance_mm (Vec3Point q, Vec3Point p).
Proof.
  split; [apply _calculate_distance_swap|].
  unfold offending. simpl. rewrite (_calculate_distance_swap py np q p).
  reflexivity.
Qed.

(** ** Bounds *)

Lemma SFcompare_Lt_swap x y :
  SFcompare x y = Some Lt -> SFcompare y x = Some Gt.
Proof.
  destruct x as [sx|sx| |sx mx ex], y as [sy|sy| |sy my ey]; simpl;
    try discriminate;
    try solve [destruct sx; try discriminate; reflexivity];
    try solve [destruct sy; try discriminate; reflexivity];
    try solve [destruct sx, sy; try discriminate; reflexivity].
  destruct sx, sy; try discriminate; try reflexivity;
    rewrite (Z.compare_antisym ex ey);
    destruct (ex ?= ey) eqn:E; simpl; try discriminate; try reflexivity;
    change (Pos.compare_cont Eq my mx) with (Pos.compare my mx);
    change (Pos.compare_cont Eq mx my) with (Pos.compare mx my);
    rewrite (Pos.compare_antisym mx my);
    destruct (mx ?= my)%positive; simpl; try discriminate; reflexivity.
Qed.

(** [<] on floats is asymmetric, nan included. *)
Lemma ltb_asym a b : (a <? b)%float = true -> (b <? a)%float = false.
Proof.
  rewrite !ltb_spec. unfold SFltb.
  destruct (SFcompare (Prim2SF a) (Prim2SF b)) as [[| |]|] eqn:E;
    try discriminate.
  rewrite (SFcompare_Lt_swap _ _ E). reflexivity.
Qed.

Lemma max_not_below_min a b : (Py.max a b <? Py.min a b)%float = false.
Proof.
  unfold Py.max, Py.min.
  destruct (a <? b)%float eqn:E1; destruct (b <? a)%float eqn:E2.
  - rewrite (ltb_asym _ _ E1) in E2. discriminate E2.
  - exact E2.
  - exact E1.
  - destruct (a <? a)%float eqn:E; [|reflexivity].
    rewrite (ltb_asym _ _ E) in E. discriminate E.
Qed.

(** X16.  For an entity without a bounding box that has a start and an end
    point, [_get_entity_bounds] returns bounds taken from the coordinates of
    the two points, and the upper bounds are never below the lower ones,
    whatever the coordinates, nan included: the comparisons
    [x_max < x_min] and [y_max < y_min] are false. *)
Theorem endpoint_bounds_are_ordered e p q :
  bounding_box e = None -> dxf_start e = Some p -> dxf_end e = Some q ->
  exists x_min y_min x_max y_max,
    _get_entity_bounds e = Some (x_min, y_min, x_max, y_max)
    /\ (x_min = vec_x p \/ x_min = vec_x q)
    /\ (x_max = vec_x p \/ x_max = vec_x q)
    /\ (y_min = vec_y p \/ y_min = vec_y q)
    /\ (y_max = vec_y p \/ y_max = vec_y q)
    /\ (x_max <? x_min)%float = false
    /\ (y_max <? y_min)%float = false.
Proof.
  intros Hb Hs He. unfold _get_entity_bounds. rewrite Hb, Hs, He. simpl.
  do 4 eexists. split; [reflexivity|].
  repeat split; try apply max_not_below_min;
    unfold Py.min, Py.max;
    match goal with
    | |- context [if ?c then _ else _] => destruct c; auto
    end.
Qed.

Lemma endpoint_bounds_are_ordered_witness :
  exists x_min y_min x_max y_max,
    _get_entity_bounds (LINE "2A" (Some "CUT") (xy 40 0) (xy 0 40))
    = Some (x_min, y_min, x_max, y_max)
    /\ (x_min = 40%float \/ x_min = 0%float)
    /\ (x_max = 40%float \/ x_max = 0%float)
    /\ (y_min = 0%float \/ y_min = 40%float)
    /\ (y_max = 0%float \/ y_max = 40%float)
    /\ (x_max <? x_min)%float = false
    /\ (y_max <? y_min)%float = false.
Proof.
  exact (endpoint_bounds_are_ordered
           (LINE "2A" (Some "CUT") (xy 40 0) (xy 0 40)) (xy 40 0) (xy 0 40)
           eq_refl eq_refl eq_refl).
Defined.

(** ** The threshold *)

(** [<] followed by [<=] on floats. *)
Lemma SFltb_leb_trans x y z :
  SFltb x y = true -> SFleb y z = true -> SFltb x z = true.
Proof.
  unfold SFltb, SFleb.
  destruct x as [sx|sx| |sx mx ex], y as [sy|sy| |sy my ey],
    z as [sz|sz| |sz mz ez]; simpl;
    try discriminate;
    try solve [destruct sx; try discriminate; try reflexivity;
               destruct sy; try discriminate; try reflexivity;
               destruct sz; try discriminate; reflexivity];
    try solve [destruct sy; try discriminate; try reflexivity;
               destruct sz; try discriminate; try reflexivity;
               destruct sx; try discriminate; reflexivity];
    try solve [destruct sx; try discriminate; try reflexivity;
               destruct sz; try discriminate; try reflexivity;
               destruct sy; try discriminate; reflexivity].
  all: change (Pos.compare_cont Eq mx my) with (Pos.compare mx my);
    change (Pos.compare_cont Eq my mz) with (Pos.compare my mz);
    change (Pos.compare_cont Eq mx mz) with (Pos.compare mx mz);
    destruct sx, sy, sz; try discriminate; try reflexivity;
    destruct (Z.compare_spec ex ey); try discriminate;
    destruct (Z.compare_spec ey ez); try discriminate;
    destruct (Z.compare_spec ex ez); try lia; try reflexivity;
    destruct (Pos.compare_spec mx my); simpl; try discriminate;
    destruct (Pos.compare_spec my mz); simpl; try discriminate;
    destruct (Pos.compare_spec mx mz); simpl; try lia; try reflexivity.
Qed.

Lemma ltb_leb_trans a b c :
  (a <? b)%float = true -> (b <=? c)%float = true -> (a <? c)%float = true.
Proof. rewrite !ltb_spec, leb_spec. apply SFltb_leb_trans. Qed.

(** X17.  Raising the threshold never takes a close pair away.  If
    [m1 <= m2], a distance that is too close under [m1] is too close under
    [m2], and so is a pair of points; among any pairs of points, those that
    offend under [m1] are no more than those that offend under [m2]. *)
Theorem raising_the_threshold_keeps_close_points py np m1 m2 :
  (m1 <=? m2)%float = true ->
  (forall distance,
     too_close m1 distance = true -> too_close m2 distance = true)
  /\ (forall pq,
        offending py np m1 pq = true -> offending py np m2 pq = true)
  /\ (forall pairs,
        (List.length (filter (offending py np m1) pairs)
         <= List.length (filter (offending py np m2) pairs))%nat).
Proof.
  intros Hm.
  assert (T : forall distance,
            too_close m1 distance = true -> too_close m2 distance = true).
  { intros distance. unfold too_close. rewrite !andb_true_iff.
    intros [H0 H1]. split; [exact H0|]. eapply ltb_leb_trans; eauto. }
  assert (O : forall pq,
            offending py np m1 pq = true -> offending py np m2 pq = true).
  { intros pq. unfold offending.
    destruct (_calculate_distance py np (fst pq) (snd pq)); [apply T|auto]. }
  split; [exact T|]. split; [exact O|].
  induction pairs as [|pq pairs IH]; simpl; [lia|].
  destruct (offending py np m1 pq) eqn:E1.
  - rewrite (O _ E1). simpl. lia.
  - destruct (offending py np m2 pq); simpl; lia.
Qed.

Lemma raising_the_threshold_keeps_close_points_witness :
  (0.25 <=? 1)%float = true
  /\ (too_close 0.25 0.125 = true -> too_close 1 0.125 = true).
Proof.
  assert (Hm : (0.25 <=? 1)%float = true) by reflexivity.
  split; [exact Hm|].
  exact (proj1 (raising_the_threshold_keeps_close_points py_example
                  np_example 0.25 1 Hm) 0.125%float).
Defined.
